(** * Notification pipeline of the nutrition backend: registry, gate, dispatch

    A shallow embedding of
    - [utils/webpush.js] (class [WebPushService]: the subscription registry
      and the per-user fan-out),
    - [utils/database.js] (class [JSONDatabase], the part the scheduler uses),
    - [utils/notificationScheduler.js] (quiet hours, dispatch to one user,
      custom and bulk sends),
    - [controllers/NotificationController.js] ([sendCalorieAchievement]),
    followed by the properties of the specification that concern them.

    Conventions. An [async] method is a computation over the state of the
    process and of its files, run to completion before the next call starts.
    Arrays live in a heap and are known by address, so that mutation in place
    ([push]) and replacement ([filter] followed by [Map.set]) are told apart.
    What the push service and the file system answer is given from outside,
    by an [Env]. The one unbounded loop, [for ... of] over an array that could
    in principle grow under it, takes fuel. JSON text is identified with the
    tree it denotes. *)

From Stdlib Require Import ZArith QArith Qround Lia Lqa Bool Ascii String DecimalString.
From stdpp Require Import base option list strings gmap.

Local Open Scope string_scope.
Local Open Scope list_scope.
Local Open Scope Z_scope.

(** ** JavaScript values *)

(** A user id is whatever the caller passes: the HTTP layer hands over the
    JSON value of [req.body.userId] (a number or a string), the cron jobs
    hand over [user.id], the number [JSONDatabase.insert] assigned. *)
Inductive Key : Type :=
  | KNum (n : Z)
  | KStr (s : string).

(** [===], and the SameValueZero comparison of [Map] keys: a number never
    equals a string. *)
Definition Key_eqb (a b : Key) : bool :=
  match a, b with
  | KNum x, KNum y => Z.eqb x y
  | KStr x, KStr y => String.eqb x y
  | _, _ => false
  end.

#[global] Instance Key_eq_dec : EqDecision Key.
Proof. solve_decision. Defined.

Definition string_of_Z (n : Z) : string := NilZero.string_of_int (Z.to_int n).

(** [ToPropertyKey] / [ToString]: how a key is spelled inside a template
    literal and, by [Object.fromEntries], as an object property name. *)
Definition Key_toString (k : Key) : string :=
  match k with
  | KNum n => string_of_Z n
  | KStr s => s
  end.

Record PushKeys : Type := { p256dh : string; auth : string }.

(** A push subscription as the browser produces it. *)
Record Subscription : Type := { endpoint : string; keys : PushKeys }.

(** An exception value: [error.statusCode] (absent on a plain [Error]) and
    [error.message]. *)
Record JsError : Type := { statusCode : option Z; message : string }.

(** ** [Map]: keys in insertion order *)

Section JsMap.
Context {V : Type}.

Fixpoint Map_get (k : Key) (m : list (Key * V)) : option V :=
  match m with
  | [] => None
  | (k', v) :: m' => if Key_eqb k' k then Some v else Map_get k m'
  end.

Definition Map_has (k : Key) (m : list (Key * V)) : bool :=
  match Map_get k m with Some _ => true | None => false end.

(** [set] overwrites in place when the key exists and appends otherwise. *)
Fixpoint Map_set (k : Key) (v : V) (m : list (Key * V)) : list (Key * V) :=
  match m with
  | [] => [(k, v)]
  | (k', v') :: m' =>
      if Key_eqb k' k then (k', v) :: m' else (k', v') :: Map_set k v m'
  end.

Fixpoint Map_delete (k : Key) (m : list (Key * V)) : list (Key * V) :=
  match m with
  | [] => []
  | (k', v') :: m' =>
      if Key_eqb k' k then m' else (k', v') :: Map_delete k m'
  end.
End JsMap.

(** A number: a finite value, kept as the rational it denotes, or [NaN].
    The infinities are not modelled. *)
Inductive JsNumber : Type :=
  | Fin (q : Q)
  | NaN.

Inductive JsVal : Type :=
  | VStr (s : string)
  | VNum (n : JsNumber).

(** The notification payload handed to the push client and spread into the
    audit record. *)
Record Notification : Type := {
  title : string;
  body : string;
  icon : option string;
  badge : option string;
  data : list (string * JsVal)
}.

(** What [new Date()] gives, through the accessors the code calls. *)
Record Date : Type := {
  getHours : Z;
  getMinutes : Z;
  getTime : Z;
  toISOString : string
}.

(** [results] of [WebPushService.sendNotification]. The early return for an
    unknown user has no [errors] property; each error is
    [{endpoint, error: error.message}]. *)
Record SendResult : Type := {
  sent : nat;
  failed : nat;
  errors : option (list (string * string))
}.

(** ** The user profile store, as far as the gate reads it *)

(** A bound of the quiet-hours window as stored in [users.json].
    [updatePreferences] merges [req.body] unchecked, so a bound may be absent,
    a string or, say, a number. *)
Inductive TimeVal : Type :=
  | TUndefined
  | TStr (s : string)
  | TNum (n : Z).

Record QuietHours : Type := { start : TimeVal; end_ : TimeVal }.

Record Preferences : Type := { quietHours : option QuietHours }.

Record User : Type := {
  user_id : Key;
  notificationPreferences : option Preferences
}.

(** One record of [notification_logs.json]:
    [{id: Date.now(), userId, ...notification, sentAt, deliveryResult,
      loggedAt}]. *)
Record LogEntry : Type := {
  log_id : Z;
  log_userId : Key;
  log_notification : Notification;
  sentAt : string;
  deliveryResult : SendResult;
  loggedAt : string
}.

Inductive ConsoleLine : Type :=
  | Log (msg : string)
  | Error (msg : string) (e : JsError).

(** ** The process and its surroundings *)

(** An array object is known by its address in [heap]: two variables may hold
    the same array, and a [push] through one is seen through the other. *)
Definition Ref : Type := nat.

Record World : Type := {
  heap : list (list Subscription);
  (** [webPushService.subscriptions]: user id -> array of subscriptions *)
  subscriptions : list (Key * Ref);
  (** [data/webpush-subscriptions.json], parsed; [None] when it is missing or
      is not JSON *)
  subscriptions_file : option (gmap string (list Subscription));
  (** [data/users.json] *)
  users_file : list User;
  (** [data/notification_logs.json] (a missing file reads as [[]]) *)
  notification_logs : list LogEntry;
  (** every call of [webpush.sendNotification] so far, oldest first *)
  pushed : list (Subscription * Notification);
  console : list ConsoleLine;
  (** number of [fs.writeFile] calls so far *)
  writes : nat;
  now : Date
}.

(** What the process does not decide: whether the push service accepts the
    n-th delivery, and whether the n-th file write succeeds. [None] is
    success, [Some e] the rejection. *)
Record Env : Type := {
  webpush_sendNotification : nat -> Subscription -> Notification -> option JsError;
  fs_writeFile : nat -> option JsError
}.

Definition set_heap (h : list (list Subscription)) (w : World) : World :=
  {| heap := h; subscriptions := subscriptions w;
     subscriptions_file := subscriptions_file w; users_file := users_file w;
     notification_logs := notification_logs w; pushed := pushed w;
     console := console w; writes := writes w; now := now w |}.

Definition set_subscriptions (m : list (Key * Ref)) (w : World) : World :=
  {| heap := heap w; subscriptions := m;
     subscriptions_file := subscriptions_file w; users_file := users_file w;
     notification_logs := notification_logs w; pushed := pushed w;
     console := console w; writes := writes w; now := now w |}.

Definition set_subscriptions_file (f : option (gmap string (list Subscription)))
    (w : World) : World :=
  {| heap := heap w; subscriptions := subscriptions w;
     subscriptions_file := f; users_file := users_file w;
     notification_logs := notification_logs w; pushed := pushed w;
     console := console w; writes := writes w; now := now w |}.

Definition set_notification_logs (l : list LogEntry) (w : World) : World :=
  {| heap := heap w; subscriptions := subscriptions w;
     subscriptions_file := subscriptions_file w; users_file := users_file w;
     notification_logs := l; pushed := pushed w;
     console := console w; writes := writes w; now := now w |}.

Definition set_pushed (p : list (Subscription * Notification)) (w : World) : World :=
  {| heap := heap w; subscriptions := subscriptions w;
     subscriptions_file := subscriptions_file w; users_file := users_file w;
     notification_logs := notification_logs w; pushed := p;
     console := console w; writes := writes w; now := now w |}.

Definition set_console (c : list ConsoleLine) (w : World) : World :=
  {| heap := heap w; subscriptions := subscriptions w;
     subscriptions_file := subscriptions_file w; users_file := users_file w;
     notification_logs := notification_logs w; pushed := pushed w;
     console := c; writes := writes w; now := now w |}.

Definition set_writes (n : nat) (w : World) : World :=
  {| heap := heap w; subscriptions := subscriptions w;
     subscriptions_file := subscriptions_file w; users_file := users_file w;
     notification_logs := notification_logs w; pushed := pushed w;
     console := console w; writes := n; now := now w |}.

(** ** Computations: state, exceptions, bounded loops *)

Inductive Res (A : Type) : Type :=
  | Ok (a : A)
  | Throw (e : JsError)
  | OutOfFuel.
Arguments Ok {A} a.
Arguments Throw {A} e.
Arguments OutOfFuel {A}.

Definition M (A : Type) : Type := World -> Res A * World.

Definition ret {A} (a : A) : M A := fun w => (Ok a, w).

Definition bind {A B} (m : M A) (k : A -> M B) : M B :=
  fun w =>
    match m w with
    | (Ok a, w') => k a w'
    | (Throw e, w') => (Throw e, w')
    | (OutOfFuel, w') => (OutOfFuel, w')
    end.

Definition throw {A} (e : JsError) : M A := fun w => (Throw e, w).

(** [try { m } catch (error) { h error }] *)
Definition try_catch {A} (m : M A) (h : JsError -> M A) : M A :=
  fun w =>
    match m w with
    | (Throw e, w') => h e w'
    | r => r
    end.

Definition gets {A} (f : World -> A) : M A := fun w => (Ok (f w), w).

Definition modify (f : World -> World) : M unit := fun w => (Ok tt, f w).

Declare Scope js_scope.
Delimit Scope js_scope with js.
Notation "x <- m ;; k" := (bind m (fun x => k))
  (at level 100, m at next level, right associativity) : js_scope.
Notation "m ;;; k" := (bind m (fun _ => k))
  (at level 100, right associativity) : js_scope.
Local Open Scope js_scope.

Definition TypeError (msg : string) : JsError :=
  {| statusCode := None; message := msg |}.

Definition console_log (msg : string) : M unit :=
  modify (fun w => set_console (console w ++ [Log msg]) w).

Definition console_error (msg : string) (e : JsError) : M unit :=
  modify (fun w => set_console (console w ++ [Error msg e]) w).

(** *** Arrays in the heap *)

(** The elements of the array at [r] (nothing at an address never
    allocated). *)
Definition array (w : World) (r : Ref) : list Subscription :=
  default [] (heap w !! r).

(** An array literal or the result of [filter]: a new object. *)
Definition new_array (xs : list Subscription) : M Ref :=
  fun w => (Ok (length (heap w)), set_heap (heap w ++ [xs]) w).

(** [arr.push(x)]: the object at [r] itself grows. *)
Definition array_push (r : Ref) (x : Subscription) : M unit :=
  modify (fun w => set_heap (<[r := array w r ++ [x]]> (heap w)) w).

(** [for (const x of arr) body]: the array iterator keeps an index and looks
    at the array as it is at each step; it stops when the index has reached
    the current length. [acc] carries the locals the body updates. *)
Fixpoint for_of {A} (fuel : nat) (r : Ref) (i : nat)
    (body : Subscription -> A -> M A) (acc : A) : M A :=
  match fuel with
  | O => fun w => (OutOfFuel, w)
  | S fuel' =>
      fun w =>
        match array w r !! i with
        | None => (Ok acc, w)
        | Some x =>
            match body x acc w with
            | (Ok acc', w') => for_of fuel' r (S i) body acc' w'
            | (Throw e, w') => (Throw e, w')
            | (OutOfFuel, w') => (OutOfFuel, w')
            end
        end
  end.

(** ** [utils/webpush.js]: class [WebPushService] *)

(** [JSON.stringify(Object.fromEntries(this.subscriptions))] as the JSON tree
    it denotes: every key of the map becomes a property name (a later entry
    with the same name overwrites an earlier one), every array is written out
    as it is at that moment. *)
Definition Object_fromEntries (w : World) : gmap string (list Subscription) :=
  fold_left (fun o kr => <[Key_toString kr.1 := array w kr.2]> o)
            (subscriptions w) ∅.

(** [getSubscriptions(userId)]: [this.subscriptions.get(userId) || []], read
    off as the elements it holds. *)
Definition getSubscriptions (w : World) (userId : Key) : list Subscription :=
  match Map_get userId (subscriptions w) with
  | Some r => array w r
  | None => []
  end.

Section Service.
Variable E : Env.

(** [await fs.writeFile(dataPath, JSON.stringify(data, null, 2))] for the
    subscription snapshot. A rejected write is taken to leave the file as it
    was. *)
Definition writeFile_subscriptions (content : gmap string (list Subscription))
    : M unit :=
  fun w =>
    let w1 := set_writes (S (writes w)) w in
    match fs_writeFile E (writes w) with
    | None => (Ok tt, set_subscriptions_file (Some content) w1)
    | Some e => (Throw e, w1)
    end.

Definition saveSubscriptions : M unit :=
  try_catch
    (content <- gets Object_fromEntries ;;
     writeFile_subscriptions content)
    (fun error => console_error "Failed to save subscriptions:" error).

(** [JSON.parse] builds a new array for every property; [new Map(
    Object.entries(parsed))] enters them under their property names, which
    are strings. The order in which a JS engine lists the properties is not
    fixed here beyond what [map_to_list] gives. *)
Fixpoint Map_of_entries (entries : list (string * list Subscription))
    (m : list (Key * Ref)) : M (list (Key * Ref)) :=
  match entries with
  | [] => ret m
  | (k, subs) :: rest =>
      r <- new_array subs ;;
      Map_of_entries rest (Map_set (KStr k) r m)
  end.

Definition readFile_subscriptions : M (gmap string (list Subscription)) :=
  fun w =>
    match subscriptions_file w with
    | Some parsed => (Ok parsed, w)
    | None =>
        (Throw {| statusCode := None; message := "ENOENT" |}, w)
    end.

Definition loadSubscriptions : M unit :=
  try_catch
    (parsed <- readFile_subscriptions ;;
     m <- Map_of_entries (map_to_list parsed) [] ;;
     modify (set_subscriptions m) ;;;
     console_log ("Loaded " +:+ string_of_Z (Z.of_nat (length m))
                  +:+ " user subscriptions"))
    (fun _ =>
       console_log "No existing subscriptions found, starting fresh" ;;;
       modify (set_subscriptions [])).

Definition subscribeUser (userId : Key) (subscription : Subscription) : M bool :=
  has <- gets (fun w => Map_has userId (subscriptions w)) ;;
  (if negb has
   then r <- new_array [] ;;
        modify (fun w => set_subscriptions (Map_set userId r (subscriptions w)) w)
   else ret tt) ;;;
  existingSubs <- gets (fun w => Map_get userId (subscriptions w)) ;;
  match existingSubs with
  | None => throw (TypeError "Cannot read properties of undefined")
  | Some r =>
      subs <- gets (fun w => array w r) ;;
      let exists_ :=
        bool_decide (Exists (fun sub => endpoint sub = endpoint subscription) subs) in
      if negb exists_
      then array_push r subscription ;;;
           console_log ("User " +:+ Key_toString userId +:+ " subscribed to WebPush") ;;;
           saveSubscriptions ;;;
           ret true
      else ret false
  end.

Definition unsubscribeUser (userId : Key) (endpoint_ : string) : M bool :=
  has <- gets (fun w => Map_has userId (subscriptions w)) ;;
  if has
  then
    userSubs <- gets (fun w => Map_get userId (subscriptions w)) ;;
    match userSubs with
    | None => throw (TypeError "Cannot read properties of undefined")
    | Some r =>
        old <- gets (fun w => array w r) ;;
        let initialLength := length old in
        r' <- new_array (filter (fun sub => endpoint sub <> endpoint_) old) ;;
        modify (fun w => set_subscriptions (Map_set userId r' (subscriptions w)) w) ;;;
        current <- gets (fun w => getSubscriptions w userId) ;;
        if (length current <? initialLength)%nat
        then console_log ("User " +:+ Key_toString userId
                          +:+ " unsubscribed from WebPush") ;;;
             saveSubscriptions ;;;
             ret true
        else ret false
    end
  else ret false.

Definition unsubscribeAll (userId : Key) : M bool :=
  has <- gets (fun w => Map_has userId (subscriptions w)) ;;
  if has
  then
    modify (fun w => set_subscriptions (Map_delete userId (subscriptions w)) w) ;;;
    console_log ("User " +:+ Key_toString userId
                 +:+ " unsubscribed from all WebPush notifications") ;;;
    saveSubscriptions ;;;
    ret true
  else ret false.

(** [await webpush.sendNotification(subscription, JSON.stringify(payload))]:
    one delivery attempt, recorded in [pushed] whatever its outcome. *)
Definition webpush_send (subscription : Subscription) (payload : Notification)
    : M unit :=
  fun w =>
    let w1 := set_pushed (pushed w ++ [(subscription, payload)]) w in
    match webpush_sendNotification E (length (pushed w)) subscription payload with
    | None => (Ok tt, w1)
    | Some e => (Throw e, w1)
    end.

(** The body of the loop of [sendNotification]. *)
Definition send_one (userId : Key) (payload : Notification)
    (subscription : Subscription) (results : SendResult) : M SendResult :=
  try_catch
    (webpush_send subscription payload ;;;
     console_log ("Notification sent to user " +:+ Key_toString userId) ;;;
     ret {| sent := S (sent results); failed := failed results;
            errors := errors results |})
    (fun error =>
       let results' :=
         {| sent := sent results; failed := S (failed results);
            errors := Some (default [] (errors results)
                            ++ [(endpoint subscription, message error)]) |} in
       if bool_decide (statusCode error = Some 410)
       then console_log ("Removing expired subscription for user "
                         +:+ Key_toString userId) ;;;
            unsubscribeUser userId (endpoint subscription) ;;;
            ret results'
       else ret results').

Definition sendNotification (fuel : nat) (userId : Key) (payload : Notification)
    : M SendResult :=
  has <- gets (fun w => Map_has userId (subscriptions w)) ;;
  if negb has
  then console_log ("No subscriptions found for user " +:+ Key_toString userId) ;;;
       ret {| sent := 0; failed := 0; errors := None |}
  else
    subs <- gets (fun w => Map_get userId (subscriptions w)) ;;
    match subs with
    | None => throw (TypeError "undefined is not iterable")
    | Some r =>
        for_of fuel r 0 (send_one userId payload)
               {| sent := 0; failed := 0; errors := Some [] |}
    end.
End Service.

(** ** JavaScript numbers, as far as the gate needs them *)

(** Sum and product are taken exactly; on the integers below 2^53, which is
    all that time strings and clocks produce, so does binary64. *)

Definition js_add (a b : JsNumber) : JsNumber :=
  match a, b with
  | Fin x, Fin y => Fin (x + y)
  | _, _ => NaN
  end.

Definition js_mul (a b : JsNumber) : JsNumber :=
  match a, b with
  | Fin x, Fin y => Fin (x * y)
  | _, _ => NaN
  end.

(** [a <= b]; every comparison with [NaN] is false. *)
Definition js_le (a b : JsNumber) : bool :=
  match a, b with
  | Fin x, Fin y => Qle_bool x y
  | _, _ => false
  end.

(** [a >= b] *)
Definition js_ge (a b : JsNumber) : bool := js_le b a.

Definition digit_val (c : ascii) : option Z :=
  let n := Z.of_nat (nat_of_ascii c) in
  if (48 <=? n) && (n <=? 57) then Some (n - 48) else None.

Fixpoint digits_val (s : string) (acc : Z) : option Z :=
  match s with
  | EmptyString => Some acc
  | String c rest =>
      match digit_val c with
      | Some d => digits_val rest (acc * 10 + d)
      | None => None
      end
  end.

(** [Number(s)] on the fields of a time string: a run of decimal digits is
    its value and the empty field is 0. The other spellings [Number] accepts
    (sign, fraction, exponent, radix prefix, surrounding blanks) do not occur
    in "HH:MM" and are read as [NaN] here. *)
Definition Number_ (s : string) : JsNumber :=
  match digits_val s 0 with
  | Some n => Fin (inject_Z n)
  | None => NaN
  end.

(** [s.split(sep)] for a one-character separator. *)
Fixpoint split (sep : ascii) (s : string) : list string :=
  match s with
  | EmptyString => [EmptyString]
  | String c rest =>
      if Ascii.eqb c sep then EmptyString :: split sep rest
      else match split sep rest with
           | x :: xs => String c x :: xs
           | [] => [String c EmptyString]
           end
  end.

(** JavaScript truthiness of a window bound. *)
Definition truthy (t : TimeVal) : bool :=
  match t with
  | TUndefined => false
  | TStr s => negb (String.eqb s EmptyString)
  | TNum n => negb (n =? 0)
  end.

(** ** [utils/notificationScheduler.js]: class [NotificationScheduler] *)

Module Custom.
(** [{success: true, message}] or [{success: false, error}] *)
Record t : Type := {
  success : bool;
  message : option string;
  error : option string
}.
End Custom.

Module Bulk.
Record t : Type := {
  total : nat;
  sent : nat;
  failed : nat;
  errors : list (Key * string)
}.
End Bulk.

Section Scheduler.
Variable E : Env.

(** [db.findOne('users.json', {id: userId})]: the first record whose [id]
    is strictly equal to [userId]. *)
Definition db_findOne_user (userId : Key) : M (option User) :=
  gets (fun w => List.find (fun item => Key_eqb (user_id item) userId) (users_file w)).

(** [db.writeFile('notification_logs.json', logs)]: catches its own error
    and answers [false]. *)
Definition db_writeFile_logs (logs : list LogEntry) : M bool :=
  fun w =>
    let w1 := set_writes (S (writes w)) w in
    match fs_writeFile E (writes w) with
    | None => (Ok true, set_notification_logs logs w1)
    | Some e =>
        (Ok false,
         set_console (console w1 ++ [Error "Error writing notification_logs.json:" e]) w1)
    end.

(** [const [hours, minutes] = timeStr.split(':').map(Number);
     return hours * 60 + minutes;] *)
Definition timeToMinutes (timeStr : TimeVal) : M JsNumber :=
  match timeStr with
  | TStr s =>
      match List.map Number_ (split ":"%char s) with
      | hours :: minutes :: _ => ret (js_add (js_mul hours (Fin 60)) minutes)
      | _ => ret NaN
      end
  | _ => throw (TypeError "timeStr.split is not a function")
  end.

Definition isInQuietHours (quietHours : option QuietHours) : M bool :=
  match quietHours with
  | None => ret false
  | Some qh =>
      if negb (truthy (start qh)) || negb (truthy (end_ qh))
      then ret false
      else
        now_ <- gets now ;;
        let currentTime :=
          js_add (js_mul (Fin (inject_Z (getHours now_))) (Fin 60))
                 (Fin (inject_Z (getMinutes now_))) in
        startTime <- timeToMinutes (start qh) ;;
        endTime <- timeToMinutes (end_ qh) ;;
        if js_le startTime endTime
        then ret (js_ge currentTime startTime && js_le currentTime endTime)
        else ret (js_ge currentTime startTime || js_le currentTime endTime)
  end.

(** [logNotification(userId, {...payload, sentAt, deliveryResult})] *)
Definition logNotification (userId : Key) (payload : Notification)
    (sentAt_ : string) (deliveryResult_ : SendResult) : M unit :=
  try_catch
    (logs <- gets notification_logs ;;
     now_ <- gets now ;;
     db_writeFile_logs
       (logs ++ [ {| log_id := getTime now_; log_userId := userId;
                     log_notification := payload; sentAt := sentAt_;
                     deliveryResult := deliveryResult_;
                     loggedAt := toISOString now_ |} ]) ;;;
     ret tt)
    (fun error => console_error "Error logging notification:" error).

(** The test at the head of [sendNotificationToUser]: look the user up
    and, when the record has preferences with a [quietHours] object, ask
    [isInQuietHours]. *)
Definition quiet_hours_gate (userId : Key) : M bool :=
  user <- db_findOne_user userId ;;
  match user with
  | Some u =>
      match notificationPreferences u with
      | Some prefs =>
          match quietHours prefs with
          | Some qh => isInQuietHours (Some qh)
          | None => ret false
          end
      | None => ret false
      end
  | None => ret false
  end.

Definition sendNotificationToUser (fuel : nat) (userId : Key)
    (payload : Notification) : M unit :=
  try_catch
    (skip <- quiet_hours_gate userId ;;
     if skip
     then console_log ("Skipping notification for user " +:+ Key_toString userId
                       +:+ " during quiet hours")
     else
       result <- sendNotification E fuel userId payload ;;
       now_ <- gets now ;;
       logNotification userId payload (toISOString now_) result)
    (fun error =>
       console_error ("Error sending notification to user "
                      +:+ Key_toString userId +:+ ":") error).

Definition sendCustomNotification (fuel : nat) (userId : Key)
    (notificationData : Notification) : M Custom.t :=
  try_catch
    (sendNotificationToUser fuel userId notificationData ;;;
     ret {| Custom.success := true;
            Custom.message := Some "Notification sent";
            Custom.error := None |})
    (fun error =>
       ret {| Custom.success := false;
              Custom.message := None;
              Custom.error := Some (message error) |}).

(** The loop of [sendBulkNotification] over the caller's [userIds]. *)
Fixpoint sendBulk_loop (fuel : nat) (userIds : list Key)
    (notificationData : Notification) (results : Bulk.t) : M Bulk.t :=
  match userIds with
  | [] => ret results
  | userId :: rest =>
      results' <-
        try_catch
          (sendNotificationToUser fuel userId notificationData ;;;
           ret {| Bulk.total := Bulk.total results;
                  Bulk.sent := S (Bulk.sent results);
                  Bulk.failed := Bulk.failed results;
                  Bulk.errors := Bulk.errors results |})
          (fun error =>
             ret {| Bulk.total := Bulk.total results;
                    Bulk.sent := Bulk.sent results;
                    Bulk.failed := S (Bulk.failed results);
                    Bulk.errors := Bulk.errors results ++ [(userId, message error)] |}) ;;
      sendBulk_loop fuel rest notificationData results'
  end.

Definition sendBulkNotification (fuel : nat) (userIds : list Key)
    (notificationData : Notification) : M Bulk.t :=
  sendBulk_loop fuel userIds notificationData
    {| Bulk.total := length userIds; Bulk.sent := 0; Bulk.failed := 0;
       Bulk.errors := [] |}.
End Scheduler.

(** ** [controllers/NotificationController.js]: [sendCalorieAchievement] *)

(** [Math.round]: the nearest integer, a tie going up. *)
Definition Math_round (x : JsNumber) : JsNumber :=
  match x with
  | Fin q => Fin (inject_Z (Qfloor (q + (1 # 2))))
  | NaN => NaN
  end.

(** Truthiness of a number: neither 0 nor [NaN]. *)
Definition truthy_number (x : JsNumber) : bool :=
  match x with
  | Fin q => negb (Qeq_bool q 0)
  | NaN => false
  end.

(** Truthiness of a user id: neither 0 nor the empty string. *)
Definition truthy_key (k : Key) : bool :=
  match k with
  | KNum n => negb (n =? 0)
  | KStr s => negb (String.eqb s EmptyString)
  end.

Module CalorieReq.
(** [req.body] of POST /send-calorie-achievement; a field may be absent. *)
Record t : Type := {
  userId : option Key;
  caloriesConsumed : option JsNumber;
  calorieGoal : option JsNumber;
  percentage : option JsNumber
}.
End CalorieReq.

(** What the handler passes to [res.status(..).json(..)]. *)
Inductive ResponseBody : Type :=
  | ErrorBody (error : option string) (userId : option Key)
  | SentBody (message : string) (userId : Key) (notification : Notification)
             (status : string).

Record Response : Type := { status : Z; json : ResponseBody }.

Section Controller.
Variable E : Env.

(** Binary64 division and multiplication. [caloriesConsumed / calorieGoal
    * 100] is rounded twice on the way; which double comes out is left to
    these two, about which nothing is assumed. *)
Variables ieee_div ieee_mul : JsNumber -> JsNumber -> JsNumber.

(** [`${x}`] for a number that is not an integer of moderate size: the
    digits JavaScript prints are not worked out here. *)
Variable Number_toString_other : Q -> string.

Definition Number_toString (x : JsNumber) : string :=
  match x with
  | NaN => "NaN"
  | Fin q =>
      if Qeq_bool q (inject_Z (Qfloor q)) && (Z.abs (Qfloor q) <? 10 ^ 21)
      then string_of_Z (Qfloor q)
      else Number_toString_other q
  end.

(** [percentage || (caloriesConsumed / calorieGoal * 100)] *)
Definition percentageCalc (caloriesConsumed calorieGoal : JsNumber)
    (percentage : option JsNumber) : JsNumber :=
  match percentage with
  | Some p =>
      if truthy_number p then p
      else ieee_mul (ieee_div caloriesConsumed calorieGoal) (Fin 100)
  | None => ieee_mul (ieee_div caloriesConsumed calorieGoal) (Fin 100)
  end.

(** The notification [sendCalorieAchievement] builds once its inputs have
    passed the presence check. *)
Definition calorieNotification (caloriesConsumed calorieGoal : JsNumber)
    (percentage : option JsNumber) (now_ : Date) : Notification :=
  let roundedPercentage :=
    Math_round (percentageCalc caloriesConsumed calorieGoal percentage) in
  let '(title_, body_) :=
    if js_ge roundedPercentage (Fin 100)
    then ("Goal Achieved! 🎯",
          "You've reached your daily calorie goal of "
            +:+ Number_toString calorieGoal +:+ " calories!")
    else if js_ge roundedPercentage (Fin 75)
    then ("Almost There! ⚡",
          "You're at " +:+ Number_toString roundedPercentage
            +:+ "% of your calorie goal. Keep going!")
    else if js_ge roundedPercentage (Fin 50)
    then ("Halfway There! 📊",
          "You've consumed " +:+ Number_toString roundedPercentage
            +:+ "% of your daily calories.")
    else ("Calorie Update 📈",
          "Current: " +:+ Number_toString caloriesConsumed +:+ "/"
            +:+ Number_toString calorieGoal +:+ " calories ("
            +:+ Number_toString roundedPercentage +:+ "%)") in
  {| title := title_;
     body := body_;
     icon := Some "/icons/calories.png";
     badge := Some "/icons/badge.png";
     data := [("type", VStr "calorie_achievement");
              ("timestamp", VStr (toISOString now_));
              ("caloriesConsumed", VNum caloriesConsumed);
              ("calorieGoal", VNum calorieGoal);
              ("percentage", VNum roundedPercentage);
              ("action", VStr "view_dashboard");
              ("url", VStr "/dashboard")] |}.

Definition sendCalorieAchievement (fuel : nat) (req : CalorieReq.t) : M Response :=
  try_catch
    (match CalorieReq.userId req, CalorieReq.caloriesConsumed req,
           CalorieReq.calorieGoal req with
     | Some userId, Some caloriesConsumed, Some calorieGoal =>
         if truthy_key userId && truthy_number caloriesConsumed
            && truthy_number calorieGoal
         then
           now_ <- gets now ;;
           let notification :=
             calorieNotification caloriesConsumed calorieGoal
                                 (CalorieReq.percentage req) now_ in
           result <- sendCustomNotification E fuel userId notification ;;
           if Custom.success result
           then ret {| status := 200;
                       json := SentBody "Calorie achievement notification sent"
                                        userId notification "success" |}
           else ret {| status := 500;
                       json := ErrorBody (Custom.error result) (Some userId) |}
         else ret {| status := 400;
                     json := ErrorBody
                               (Some "userId, caloriesConsumed, and calorieGoal are required")
                               None |}
     | _, _, _ =>
         ret {| status := 400;
                json := ErrorBody
                          (Some "userId, caloriesConsumed, and calorieGoal are required")
                          None |}
     end)
    (fun error =>
       console_error "Send calorie achievement error:" error ;;;
       ret {| status := 500;
              json := ErrorBody
                        (Some "Failed to send calorie achievement notification")
                        None |}).
End Controller.

(** ** Vocabulary of the statements *)

(** What a [Map] of arrays is by construction: the addresses it holds are
    allocated, a key occurs once, and no two keys hold the same array. The
    empty registry is like that and every operation of the service keeps it
    so. *)
Record wf (w : World) : Prop := {
  wf_alloc : Forall (fun kr => (kr.2 < length (heap w))%nat) (subscriptions w);
  wf_keys : NoDup (subscriptions w).*1;
  wf_refs : NoDup (subscriptions w).*2
}.

(** The state a call of [saveSubscriptions] leaves behind. *)
Definition after_save (E : Env) (w : World) : World :=
  let w1 := set_writes (S (writes w)) w in
  match fs_writeFile E (writes w) with
  | None => set_subscriptions_file (Some (Object_fromEntries w)) w1
  | Some e => set_console (console w1 ++ [Error "Failed to save subscriptions:" e]) w1
  end.

(** A rejection the dispatch classifies as "gone". *)
Definition is_gone (o : option JsError) : bool :=
  match o with
  | Some e => bool_decide (statusCode e = Some 410)
  | None => false
  end.

(** The endpoints answered "gone" when [subs] are tried in turn, the first
    of them being delivery number [n]. *)
Fixpoint gone_endpoints (E : Env) (payload : Notification) (n : nat)
    (subs : list Subscription) : list string :=
  match subs with
  | [] => []
  | s :: rest =>
      (if is_gone (webpush_sendNotification E n s payload) then [endpoint s] else [])
        ++ gone_endpoints E payload (S n) rest
  end.

(** What [unsubscribeUser] keeps of an array. *)
Definition without (e : string) (l : list Subscription) : list Subscription :=
  filter (fun sub => endpoint sub <> e) l.

(** The registry as it is in memory: the map and the arrays behind it. *)
Definition memory (w : World) : list (list Subscription) * list (Key * Ref) :=
  (heap w, subscriptions w).

(** What a dispatch to [u] may do to the rest of the state: arrays are
    added, never altered; the entries of the other users, the stores and the
    clock stay; allocated addresses stay allocated. *)
Record dispatch_frame (u : Key) (w w' : World) : Prop := {
  frame_heap : exists ext, heap w' = heap w ++ ext;
  frame_others :
    forall u', u' <> u ->
      Map_get u' (subscriptions w') = Map_get u' (subscriptions w);
  frame_wf : wf w -> wf w';
  frame_logs : notification_logs w' = notification_logs w;
  frame_users : users_file w' = users_file w;
  frame_now : now w' = now w
}.

(** A later use of the registry, by the HTTP layer or by a cron job. *)
Inductive Call : Type :=
  | Subscribe (userId : Key) (subscription : Subscription)
  | Unsubscribe (userId : Key) (endpoint_ : string)
  | UnsubscribeAll (userId : Key)
  | Send (userId : Key) (payload : Notification)
  | Dispatch (userId : Key) (payload : Notification).

Definition run_call (E : Env) (fuel : nat) (c : Call) : M unit :=
  match c with
  | Subscribe userId subscription => subscribeUser E userId subscription ;;; ret tt
  | Unsubscribe userId endpoint_ => unsubscribeUser E userId endpoint_ ;;; ret tt
  | UnsubscribeAll userId => unsubscribeAll E userId ;;; ret tt
  | Send userId payload => sendNotification E fuel userId payload ;;; ret tt
  | Dispatch userId payload => sendNotificationToUser E fuel userId payload
  end.

Fixpoint run_calls (E : Env) (fuel : nat) (cs : list Call) : M unit :=
  match cs with
  | [] => ret tt
  | c :: rest => run_call E fuel c ;;; run_calls E fuel rest
  end.

(** The process starts again: the files stay, the memory is empty, and
    [webPushService] begins with [new Map()]. *)
Definition restart (w : World) : World :=
  set_console [] (set_subscriptions [] (set_heap [] w)).

(** ** Sample data *)

Definition device (e : string) : Subscription :=
  {| endpoint := e; keys := {| p256dh := "BNcRdreALRFXTkOOUHK1EtK2wtaz5Ry4YfYCA"; auth := "tBHItJI5svbpez7KI4CCXg" |} |}.

Definition phone : Subscription := device "https://push.example/phone".
Definition laptop : Subscription := device "https://push.example/laptop".
Definition tablet : Subscription := device "https://push.example/tablet".

Definition clock (h m : Z) : Date :=
  {| getHours := h; getMinutes := m; getTime := 1700000000000;
     toISOString := "2023-11-14T22:13:20.000Z" |}.

Definition reminder : Notification :=
  {| title := "Stay Hydrated!";
     body := "Time to drink some water.";
     icon := Some "/icons/water.png";
     badge := None;
     data := [("type", VStr "water_reminder"); ("action", VStr "log_water")] |}.

Definition night : QuietHours := {| start := TStr "22:00"; end_ := TStr "07:00" |}.

(** User 1 sleeps from 22:00 to 07:00, the window of user 2 was stored with
    numbers for bounds, and user 3 has no preferences. *)
Definition users : list User :=
  [ {| user_id := KNum 1;
       notificationPreferences := Some {| quietHours := Some night |} |};
    {| user_id := KNum 2;
       notificationPreferences :=
         Some {| quietHours := Some {| start := TNum 22; end_ := TNum 7 |} |} |};
    {| user_id := KNum 3; notificationPreferences := None |} ].

(** Three users at noon: user 1 with three devices, users 2 and 3 with one
    each. *)
Definition midday : World :=
  {| heap := [[phone; laptop; tablet]; [laptop]; [tablet]];
     subscriptions := [(KNum 1, 0%nat); (KNum 2, 1%nat); (KNum 3, 2%nat)];
     subscriptions_file := None;
     users_file := users;
     notification_logs := [];
     pushed := [];
     console := [];
     writes := 0;
     now := clock 12 0 |}.

(** The same at 23:30. *)
Definition midnight : World :=
  {| heap := heap midday; subscriptions := subscriptions midday;
     subscriptions_file := None; users_file := users;
     notification_logs := []; pushed := []; console := []; writes := 0;
     now := clock 23 30 |}.

(** A push service that accepts everything and a disk that works. *)
Definition reliable : Env :=
  {| webpush_sendNotification := fun _ _ _ => None;
     fs_writeFile := fun _ => None |}.

(** The laptop's endpoint has expired (410), the tablet's is overloaded
    (500), and every write is refused. *)
Definition hostile : Env :=
  {| webpush_sendNotification := fun _ s _ =>
       if String.eqb (endpoint s) (endpoint laptop)
       then Some {| statusCode := Some 410; message := "Gone" |}
       else if String.eqb (endpoint s) (endpoint tablet)
       then Some {| statusCode := Some 500; message := "Internal Server Error" |}
       else None;
     fs_writeFile := fun _ => Some {| statusCode := None; message := "ENOSPC" |} |}.

(** An arithmetic without rounding and a printer without digits, to run the
    calorie handler on examples. *)
Definition rational_div (a b : JsNumber) : JsNumber :=
  match a, b with
  | Fin x, Fin y => if Qeq_bool y 0 then NaN else Fin (x / y)
  | _, _ => NaN
  end.

Definition no_digits (q : Q) : string := "?".

(** ** [utils/webpush.js]: [sendNotificationToAll] *)

Module ToAll.
(** [results] of [sendNotificationToAll] *)
Record t : Type := {
  totalUsers : nat;
  sent : nat;
  failed : nat;
  errors : list (string * string)
}.
End ToAll.

(** [for (const [userId] of this.subscriptions) body]: the iterator of a
    [Map] keeps a position in the insertion order and looks at the map as it
    is at each step. The body below replaces values under their keys and
    never deletes a key, so no position shifts under the iterator. *)
Fixpoint for_of_Map {A} (fuel : nat) (i : nat) (body : Key -> A -> M A)
    (acc : A) : M A :=
  match fuel with
  | O => fun w => (OutOfFuel, w)
  | S fuel' =>
      fun w =>
        match subscriptions w !! i with
        | None => (Ok acc, w)
        | Some (userId, _) =>
            match body userId acc w with
            | (Ok acc', w') => for_of_Map fuel' (S i) body acc' w'
            | (Throw e, w') => (Throw e, w')
            | (OutOfFuel, w') => (OutOfFuel, w')
            end
        end
  end.

Section Broadcast.
Variable E : Env.

(** The body of the loop of [sendNotificationToAll]. Spreading
    [result.errors] throws when the property is missing, as it is in the
    answer [sendNotification] gives for an unknown user. *)
Definition sendToAll_body (fuel : nat) (payload : Notification) (userId : Key)
    (results : ToAll.t) : M ToAll.t :=
  result <- sendNotification E fuel userId payload ;;
  match errors result with
  | Some errs =>
      ret {| ToAll.totalUsers := ToAll.totalUsers results;
             ToAll.sent := (ToAll.sent results + sent result)%nat;
             ToAll.failed := (ToAll.failed results + failed result)%nat;
             ToAll.errors := ToAll.errors results ++ errs |}
  | None => throw (TypeError "result.errors is not iterable")
  end.

Definition sendNotificationToAll (fuel : nat) (payload : Notification)
    : M ToAll.t :=
  size <- gets (fun w => length (subscriptions w)) ;;
  for_of_Map fuel 0 (sendToAll_body fuel payload)
    {| ToAll.totalUsers := size; ToAll.sent := 0; ToAll.failed := 0;
       ToAll.errors := [] |}.
End Broadcast.

(** The arrays of the registry, in the order of the map. *)
Definition lists (w : World) : list (list Subscription) :=
  (fun kr => array w kr.2) <$> subscriptions w.

(** ** [controllers/NotificationController.js]: [unsubscribe] and
    [sendTestNotification] *)

Module UnsubscribeReq.
(** [req.body] of POST /unsubscribe; a field may be absent. *)
Record t : Type := {
  userId : option Key;
  endpoint : option string
}.
End UnsubscribeReq.

(** What [unsubscribe] passes to [res.status(..).json(..)]:
    [{error}], [{error, userId}] or [{message, userId, status}]. *)
Inductive UnsubscribeBody : Type :=
  | UnsubscribeError (error : string) (userId : option Key)
  | UnsubscribeDone (message : string) (userId : Key) (status : string).

Record UnsubscribeResponse : Type := {
  unsubscribe_status : Z;
  unsubscribe_json : UnsubscribeBody
}.

Section Handlers.
Variable E : Env.

Definition unsubscribe (req : UnsubscribeReq.t) : M UnsubscribeResponse :=
  try_catch
    (match UnsubscribeReq.userId req, UnsubscribeReq.endpoint req with
     | Some userId, Some endpoint_ =>
         if truthy_key userId && negb (String.eqb endpoint_ EmptyString)
         then
           success <- unsubscribeUser E userId endpoint_ ;;
           if success : bool
           then ret {| unsubscribe_status := 200;
                       unsubscribe_json :=
                         UnsubscribeDone "Unsubscribed from push notifications"
                                         userId "success" |}
           else ret {| unsubscribe_status := 404;
                       unsubscribe_json :=
                         UnsubscribeError "Subscription not found" (Some userId) |}
         else ret {| unsubscribe_status := 400;
                     unsubscribe_json :=
                       UnsubscribeError "userId and endpoint are required" None |}
     | _, _ =>
         ret {| unsubscribe_status := 400;
                unsubscribe_json :=
                  UnsubscribeError "userId and endpoint are required" None |}
     end)
    (fun error =>
       console_error "Unsubscribe error:" error ;;;
       ret {| unsubscribe_status := 500;
              unsubscribe_json := UnsubscribeError "Failed to unsubscribe" None |}).

(** The fixed payload of [sendTestNotification]. *)
Definition testNotification (now_ : Date) : Notification :=
  {| title := "Test Notification 🎯";
     body := "This is a test notification from your nutrition tracker!";
     icon := Some "/icons/app-icon.png";
     badge := Some "/icons/badge.png";
     data := [("type", VStr "test");
              ("timestamp", VStr (toISOString now_));
              ("action", VStr "test");
              ("url", VStr "/dashboard")] |}.

Definition sendTestNotification (fuel : nat) (userId : option Key) : M Response :=
  try_catch
    (match userId with
     | Some userId =>
         if truthy_key userId
         then
           now_ <- gets now ;;
           let notification := testNotification now_ in
           result <- sendCustomNotification E fuel userId notification ;;
           if Custom.success result
           then ret {| status := 200;
                       json := SentBody "Test notification sent" userId
                                        notification "success" |}
           else ret {| status := 500;
                       json := ErrorBody (Custom.error result) (Some userId) |}
         else ret {| status := 400;
                     json := ErrorBody (Some "userId is required") None |}
     | None =>
         ret {| status := 400;
                json := ErrorBody (Some "userId is required") None |}
     end)
    (fun error =>
       console_error "Send test notification error:" error ;;;
       ret {| status := 500;
              json := ErrorBody (Some "Failed to send test notification") None |}).
End Handlers.

(** The user a call is made for. *)
Definition call_user (c : Call) : Key :=
  match c with
  | Subscribe userId _ => userId
  | Unsubscribe userId _ => userId
  | UnsubscribeAll userId => userId
  | Send userId _ => userId
  | Dispatch userId _ => userId
  end.


(** What [sendNotification] notes down of the deliveries that fail when
    [subs] are tried in turn, the first of them being delivery number [n]:
    [{endpoint, error: error.message}] for each. *)
Fixpoint failures (E : Env) (payload : Notification) (n : nat)
    (subs : list Subscription) : list (string * string) :=
  match subs with
  | [] => []
  | s :: rest =>
      match webpush_sendNotification E n s payload with
      | Some e => [(endpoint s, message e)]
      | None => []
      end ++ failures E payload (S n) rest
  end.

(** ** [utils/database.js]: class [JSONDatabase] in full *)

(** The values the tables hold and the callers pass: JSON data, together
    with [undefined], which a caller's object may hold in a property and
    which [JSON.stringify] leaves out. *)
#[local] Set Warnings "-register-all".
Inductive Json : Type :=
  | JUndefined
  | JNull
  | JBool (b : bool)
  | JNum (n : JsNumber)
  | JStr (s : string)
  | JArr (items : list Json)
  | JObj (props : list (string * Json)).

(** An object: its own enumerable properties in their order. Objects made
    by [JSON.parse], by a literal or by a spread have no name twice. The
    place integer-like names take in the order is not modelled. *)
Definition Row : Type := list (string * Json).

(** [o[k]] as far as [o]'s own properties go. *)
Fixpoint own (k : string) (o : Row) : option Json :=
  match o with
  | [] => None
  | (k', v) :: o' => if String.eqb k' k then Some v else own k o'
  end.

(** [o[k] = v] on an object under construction. *)
Fixpoint obj_set (k : string) (v : Json) (o : Row) : Row :=
  match o with
  | [] => [(k, v)]
  | (k', v') :: o' =>
      if String.eqb k' k then (k', v) :: o' else (k', v') :: obj_set k v o'
  end.

(** [{...o, ...src}]: the properties of [src] are set on [o] in turn. *)
Definition spread (src : Row) (o : Row) : Row :=
  fold_left (fun acc kv => obj_set kv.1 kv.2 acc) src o.

(** The names every object inherits from [Object.prototype]; what they hold
    are functions (and, under [__proto__], the prototype itself). *)
Definition Object_prototype : list string :=
  ["constructor"; "__defineGetter__"; "__defineSetter__"; "hasOwnProperty";
   "__lookupGetter__"; "__lookupSetter__"; "isPrototypeOf";
   "propertyIsEnumerable"; "toString"; "valueOf"; "__proto__";
   "toLocaleString"].

(** [a === b]. Two arrays or two objects are equal only when they are the
    same object, which what was just parsed from a file and what the caller
    holds never are. *)
Definition strict_eq (a b : Json) : bool :=
  match a, b with
  | JUndefined, JUndefined => true
  | JNull, JNull => true
  | JBool x, JBool y => Bool.eqb x y
  | JNum (Fin x), JNum (Fin y) => Qeq_bool x y
  | JStr x, JStr y => String.eqb x y
  | _, _ => false
  end.

(** [item[key] !== wanted]: an inherited member is never what a query
    asks for. *)
Definition differs (item : Row) (key : string) (wanted : Json) : bool :=
  match own key item with
  | Some v => negb (strict_eq v wanted)
  | None =>
      if bool_decide (key ∈ Object_prototype) then true
      else negb (strict_eq JUndefined wanted)
  end.

(** The callback of [findOne] and [find]:
    [for (const key in query) if (item[key] !== query[key]) return false;
     return true]. *)
Definition matches (query : Row) (item : Row) : bool :=
  forallb (fun kv => negb (differs item kv.1 kv.2)) query.

(** [item.id === id] *)
Definition has_id (id : Json) (item : Row) : bool :=
  strict_eq (default JUndefined (own "id" item)) id.

Definition truthy_json (v : Json) : bool :=
  match v with
  | JUndefined | JNull => false
  | JBool b => b
  | JNum n => truthy_number n
  | JStr s => negb (String.eqb s EmptyString)
  | JArr _ | JObj _ => true
  end.

(** [arr.findIndex(p)], [None] standing for -1. *)
Fixpoint findIndex {A} (p : A -> bool) (l : list A) : option nat :=
  match l with
  | [] => None
  | x :: l' => if p x then Some 0%nat else S <$> findIndex p l'
  end.

(** What [JSON.stringify] followed by [JSON.parse] makes of a value:
    a property holding [undefined] is left out, [undefined] in an array and
    [NaN] anywhere become [null]. *)
Fixpoint stringify (j : Json) : Json :=
  match j with
  | JUndefined => JNull
  | JNum NaN => JNull
  | JArr items => JArr (List.map stringify items)
  | JObj props =>
      JObj ((fix go (ps : list (string * Json)) : list (string * Json) :=
               match ps with
               | [] => []
               | (k, JUndefined) :: ps' => go ps'
               | (k, v) :: ps' => (k, stringify v) :: go ps'
               end) props)
  | _ => j
  end.

Fixpoint stringify_row (o : Row) : Row :=
  match o with
  | [] => []
  | (k, JUndefined) :: o' => stringify_row o'
  | (k, v) :: o' => (k, stringify v) :: stringify_row o'
  end.

(** [Math.max(a, b)] *)
Definition js_max (a b : JsNumber) : JsNumber :=
  match a, b with
  | Fin x, Fin y => Fin (if Qle_bool x y then y else x)
  | _, _ => NaN
  end.

(** [Math.max(x, ...xs)] *)
Definition Math_max (x : JsNumber) (xs : list JsNumber) : JsNumber :=
  fold_left js_max xs x.

(** A file of the data directory: a table, or bytes that do not parse. *)
Inductive FileContent : Type :=
  | Garbage
  | Table (rows : list Row).

(** The data directory, the console and the clock. *)
Record Disk : Type := {
  files : gmap string FileContent;
  disk_console : list ConsoleLine;
  (** number of [fs.writeFile] calls so far *)
  disk_writes : nat;
  disk_now : Date
}.

Definition disk_error (msg : string) (e : JsError) (d : Disk) : Disk :=
  {| files := files d; disk_console := disk_console d ++ [Error msg e];
     disk_writes := disk_writes d; disk_now := disk_now d |}.

Definition disk_log (msg : string) (d : Disk) : Disk :=
  {| files := files d; disk_console := disk_console d ++ [Log msg];
     disk_writes := disk_writes d; disk_now := disk_now d |}.

(** [fs.writeFile(path, JSON.stringify(data, null, 2))]: the write is
    counted; when it goes through, the file holds what the text denotes. *)
Definition fs_write (E : Env) (filename : string) (data : list Row) (d : Disk)
    : option JsError * Disk :=
  match fs_writeFile E (disk_writes d) with
  | None =>
      (None,
       {| files := <[filename := Table (stringify_row <$> data)]> (files d);
          disk_console := disk_console d;
          disk_writes := S (disk_writes d); disk_now := disk_now d |})
  | Some e =>
      (Some e,
       {| files := files d; disk_console := disk_console d;
          disk_writes := S (disk_writes d); disk_now := disk_now d |})
  end.

Module JSONDatabase.
Section Methods.
Variable E : Env.

(** [ToNumber] of a truthy id that is not a number: a string, an array or
    an object. What number [Math.max] makes of it is not worked out here. *)
Variable ToNumber_other : Json -> JsNumber.

(** [readFile]: the parsed table, or [[]] and a line on the console when
    the file is missing or does not parse. *)
Definition readFile (filename : string) (d : Disk) : list Row * Disk :=
  match files d !! filename with
  | Some (Table data) => (data, d)
  | Some Garbage =>
      ([], disk_error ("Error reading " +:+ filename +:+ ":")
             {| statusCode := None; message := "Unexpected token" |} d)
  | None =>
      ([], disk_error ("Error reading " +:+ filename +:+ ":")
             {| statusCode := None; message := "ENOENT" |} d)
  end.

Definition writeFile (filename : string) (data : list Row) (d : Disk)
    : bool * Disk :=
  match fs_write E filename data d with
  | (None, d') => (true, d')
  | (Some e, d') =>
      (false, disk_error ("Error writing " +:+ filename +:+ ":") e d')
  end.

Definition findOne (filename : string) (query : Row) (d : Disk)
    : option Row * Disk :=
  let '(data, d1) := readFile filename d in
  (List.find (matches query) data, d1).

Definition find (filename : string) (query : Row) (d : Disk)
    : list Row * Disk :=
  let '(data, d1) := readFile filename d in
  (if (length query =? 0)%nat then data else List.filter (matches query) data,
   d1).

(** [d.id || 0], as [Math.max] reads it. *)
Definition id_or_0 (item : Row) : JsNumber :=
  match own "id" item with
  | Some v =>
      if truthy_json v
      then match v with
           | JNum n => n
           | JBool _ => Fin 1
           | _ => ToNumber_other v
           end
      else Fin 0
  | None => Fin 0
  end.

(** [data.length > 0 ? Math.max(...data.map(d => d.id || 0)) + 1 : 1] *)
Definition newId (data : list Row) : JsNumber :=
  match data with
  | [] => Fin 1
  | x :: xs => js_add (Math_max (id_or_0 x) (id_or_0 <$> xs)) (Fin 1)
  end.

(** [{ id: newId, ...item, createdAt: new Date().toISOString() }] *)
Definition newItem (data : list Row) (item : Row) (now_ : Date) : Row :=
  obj_set "createdAt" (JStr (toISOString now_))
    (spread item (obj_set "id" (JNum (newId data)) [])).

Definition insert (filename : string) (item : Row) (d : Disk) : Row * Disk :=
  let '(data, d1) := readFile filename d in
  let new := newItem data item (disk_now d1) in
  let '(_, d2) := writeFile filename (data ++ [new]) d1 in
  (new, d2).

(** [{ ...row, ...updates, updatedAt: new Date().toISOString() }] *)
Definition merged (row updates : Row) (now_ : Date) : Row :=
  obj_set "updatedAt" (JStr (toISOString now_)) (spread updates (spread row [])).

Definition update (filename : string) (id : Json) (updates : Row) (d : Disk)
    : option Row * Disk :=
  let '(data, d1) := readFile filename d in
  match findIndex (has_id id) data with
  | None => (None, d1)
  | Some index =>
      match data !! index with
      | None => (None, d1)
      | Some row =>
          let row' := merged row updates (disk_now d1) in
          let '(_, d2) := writeFile filename (<[index := row']> data) d1 in
          (Some row', d2)
      end
  end.

(** [data.splice(index, 1)] *)
Definition splice1 (index : nat) (data : list Row) : list Row :=
  take index data ++ drop (S index) data.

Definition delete (filename : string) (id : Json) (d : Disk) : bool * Disk :=
  let '(data, d1) := readFile filename d in
  match findIndex (has_id id) data with
  | None => (false, d1)
  | Some index =>
      let '(_, d2) := writeFile filename (splice1 index data) d1 in
      (true, d2)
  end.

(** [fs.mkdir(dataDir, {recursive: true})] succeeds or fails from outside. *)
Variable mkdir_error : option JsError.

(** The loop of [init]: a file that cannot be accessed is created holding
    [[]]; the first write that fails ends the loop. *)
Fixpoint init_files (names : list string) (d : Disk) : option JsError * Disk :=
  match names with
  | [] => (None, d)
  | file :: rest =>
      match files d !! file with
      | Some _ => init_files rest d
      | None =>
          match fs_write E file [] d with
          | (None, d') => init_files rest d'
          | (Some e, d') => (Some e, d')
          end
      end
  end.

Definition init (d : Disk) : Disk :=
  match mkdir_error with
  | Some e => disk_error "Error initializing database:" e d
  | None =>
      match init_files ["users.json"; "foods.json"; "user_foods.json";
                        "exercises.json"] d with
      | (None, d') => disk_log "Database initialized successfully" d'
      | (Some e, d') => disk_error "Error initializing database:" e d'
      end
  end.
End Methods.
End JSONDatabase.



(** ** [utils/webpush.js]: the VAPID keys *)

(** [{publicKey, privateKey}] as [vapid-keys.json] holds it and as
    [webpush.generateVAPIDKeys()] returns it; a property of the file may be
    missing or [null]. *)
Record VapidKeys : Type := {
  publicKey : option string;
  privateKey : option string
}.

Record Vapid : Type := {
  (** [this.vapidKeys], [None] while it is [undefined] *)
  vapidKeys : option VapidKeys;
  (** [data/vapid-keys.json], parsed; [None] when it is missing or is not
      JSON *)
  vapid_file : option VapidKeys;
  (** what [webpush.setVapidDetails] was last given and accepted *)
  vapid_details : option (string * string * string);
  vapid_console : list ConsoleLine;
  (** number of [fs.writeFile] calls so far *)
  vapid_writes : nat;
  (** number of [webpush.generateVAPIDKeys] calls so far *)
  vapid_generated : nat
}.

Definition vapid_log (msg : string) (v : Vapid) : Vapid :=
  {| vapidKeys := vapidKeys v; vapid_file := vapid_file v;
     vapid_details := vapid_details v;
     vapid_console := vapid_console v ++ [Log msg];
     vapid_writes := vapid_writes v; vapid_generated := vapid_generated v |}.

Definition vapid_error (msg : string) (e : JsError) (v : Vapid) : Vapid :=
  {| vapidKeys := vapidKeys v; vapid_file := vapid_file v;
     vapid_details := vapid_details v;
     vapid_console := vapid_console v ++ [Error msg e];
     vapid_writes := vapid_writes v; vapid_generated := vapid_generated v |}.

Definition set_vapidKeys (k : VapidKeys) (v : Vapid) : Vapid :=
  {| vapidKeys := Some k; vapid_file := vapid_file v;
     vapid_details := vapid_details v; vapid_console := vapid_console v;
     vapid_writes := vapid_writes v; vapid_generated := vapid_generated v |}.

(** Truthiness of a property that holds a string or nothing. *)
Definition truthy_string (s : option string) : bool :=
  match s with
  | Some s => negb (String.eqb s EmptyString)
  | None => false
  end.

Section VapidKeysOfTheService.
Variable E : Env.

(** [webpush.generateVAPIDKeys()]: the n-th pair of keys the library
    makes. *)
Variable generateVAPIDKeys : nat -> string * string.

(** [webpush.setVapidDetails(subject, publicKey, privateKey)] checks the
    keys and throws on those it does not accept. *)
Variable setVapidDetails_error : string -> string -> option JsError.

Definition loadVapidKeys (v : Vapid) : VapidKeys :=
  match vapid_file v with
  | Some keys => keys
  | None => {| publicKey := None; privateKey := None |}
  end.

Definition saveVapidKeys (keys : VapidKeys) (v : Vapid) : Vapid :=
  match fs_writeFile E (vapid_writes v) with
  | None =>
      vapid_log "VAPID keys saved"
        {| vapidKeys := vapidKeys v; vapid_file := Some keys;
           vapid_details := vapid_details v; vapid_console := vapid_console v;
           vapid_writes := S (vapid_writes v);
           vapid_generated := vapid_generated v |}
  | Some e =>
      vapid_error "Failed to save VAPID keys:" e
        {| vapidKeys := vapidKeys v; vapid_file := vapid_file v;
           vapid_details := vapid_details v; vapid_console := vapid_console v;
           vapid_writes := S (vapid_writes v);
           vapid_generated := vapid_generated v |}
  end.

(** The first half of [initVapidKeys]: the keys of the file when it has
    both, new ones otherwise. *)
Definition chooseVapidKeys (v : Vapid) : Vapid :=
  let keys := loadVapidKeys v in
  if negb (truthy_string (publicKey keys)) || negb (truthy_string (privateKey keys))
  then
    let v1 := vapid_log "Generating new VAPID keys..." v in
    let '(pub, priv) := generateVAPIDKeys (vapid_generated v1) in
    let newKeys := {| publicKey := Some pub; privateKey := Some priv |} in
    let v2 :=
      {| vapidKeys := vapidKeys v1; vapid_file := vapid_file v1;
         vapid_details := vapid_details v1; vapid_console := vapid_console v1;
         vapid_writes := vapid_writes v1;
         vapid_generated := S (vapid_generated v1) |} in
    set_vapidKeys newKeys (saveVapidKeys newKeys v2)
  else set_vapidKeys keys v.

Definition initVapidKeys (v : Vapid) : Vapid :=
  let v1 := chooseVapidKeys v in
  match vapidKeys v1 with
  | Some {| publicKey := Some pub; privateKey := Some priv |} =>
      match setVapidDetails_error pub priv with
      | Some e => vapid_error "Failed to initialize WebPush:" e v1
      | None =>
          vapid_log ("Public Key: " +:+ String.substring 0 50 pub +:+ "...")
            (vapid_log "WebPush service initialized"
               {| vapidKeys := vapidKeys v1; vapid_file := vapid_file v1;
                  vapid_details :=
                    Some ("mailto:nutrition@example.com", pub, priv);
                  vapid_console := vapid_console v1;
                  vapid_writes := vapid_writes v1;
                  vapid_generated := vapid_generated v1 |})
      end
  | _ =>
      vapid_error "Failed to initialize WebPush:"
        (TypeError "Cannot read properties of undefined") v1
  end.

(** [this.vapidKeys?.publicKey || null] *)
Definition getPublicKey (v : Vapid) : option string :=
  match vapidKeys v with
  | Some keys => if truthy_string (publicKey keys) then publicKey keys else None
  | None => None
  end.
End VapidKeysOfTheService.

(** The process starts again: the key file stays, [this.vapidKeys] is
    [undefined] and the library has no details. *)
Definition vapid_restart (v : Vapid) : Vapid :=
  {| vapidKeys := None; vapid_file := vapid_file v; vapid_details := None;
     vapid_console := []; vapid_writes := vapid_writes v;
     vapid_generated := vapid_generated v |}.

(** ** More sample data *)

(** User 2 subscribes the phone twice, user 1 drops the laptop, and a
    reminder goes out to user 1. *)
Definition busy_day : list Call :=
  [Subscribe (KNum 2) phone; Subscribe (KNum 2) phone;
   Unsubscribe (KNum 1) (endpoint laptop); Dispatch (KNum 1) reminder].

(** A registry the HTTP layer filled with string ids. *)
Definition by_name : World :=
  {| heap := [[phone; laptop]; [tablet]];
     subscriptions := [(KStr "ann", 0%nat); (KStr "7", 1%nat)];
     subscriptions_file := None;
     users_file := users;
     notification_logs := [];
     pushed := [];
     console := [];
     writes := 0;
     now := clock 12 0 |}.

(** A snapshot on disk, found by a process that has other things in
    memory. *)
Definition snapshot : gmap string (list Subscription) :=
  {[ "ann" := [phone; laptop]; "7" := [tablet] ]}.

Definition with_snapshot : World := set_subscriptions_file (Some snapshot) midday.

(** A users table, a foods file that does not parse, and no exercises
    file. *)
Definition ann : Row :=
  [("id", JNum (Fin 1)); ("name", JStr "Ann"); ("email", JStr "ann@example.com")].

Definition bob : Row := [("id", JNum (Fin 4)); ("name", JStr "Bob")].

Definition guest : Row := [("name", JStr "Guest")].

Definition office : Disk :=
  {| files := {[ "users.json" := Table [ann; bob; guest];
                 "foods.json" := Garbage ]};
     disk_console := [];
     disk_writes := 0;
     disk_now := clock 12 0 |}.

(** An item as a handler builds it from a request that left a field out. *)
Definition carol : Row :=
  [("name", JStr "Carol"); ("age", JNum (Fin 30)); ("nickname", JUndefined)].


Definition not_a_number (v : Json) : JsNumber := NaN.

(** A first start, with no key file, and a key generator. *)
Definition first_start : Vapid :=
  {| vapidKeys := None; vapid_file := None; vapid_details := None;
     vapid_console := []; vapid_writes := 0; vapid_generated := 0 |}.

Definition numbered_keys (n : nat) : string * string :=
  (String "K" (string_of_Z (Z.of_nat n)), String "S" (string_of_Z (Z.of_nat n))).

Definition any_keys (pub priv : string) : option JsError := None.

(** * Properties *)

(** ** Keys and maps *)

Lemma Key_eqb_eq (a b : Key) : Key_eqb a b = true <-> a = b.
Proof.
  destruct a as [x|x], b as [y|y]; simpl; split; intros H;
    try discriminate; try congruence.
  - apply Z.eqb_eq in H. congruence.
  - injection H as ->. apply Z.eqb_refl.
  - apply String.eqb_eq in H. congruence.
  - injection H as ->. apply String.eqb_refl.
Qed.

Lemma Key_eqb_refl (a : Key) : Key_eqb a a = true.
Proof. by apply Key_eqb_eq. Qed.

Lemma Key_eqb_neq (a b : Key) : Key_eqb a b = false <-> a <> b.
Proof.
  rewrite <- Key_eqb_eq. destruct (Key_eqb a b); split; congruence.
Qed.

Section JsMapFacts.
Context {V : Type}.
Implicit Types (m : list (Key * V)) (k : Key) (v : V).

Lemma Map_get_set_eq k v m : Map_get k (Map_set k v m) = Some v.
Proof.
  induction m as [|[k' v'] m IH]; simpl.
  - by rewrite Key_eqb_refl.
  - destruct (Key_eqb k' k) eqn:Hk; simpl; by rewrite Hk.
Qed.

Lemma Map_get_set_ne k k' v m :
  k <> k' -> Map_get k' (Map_set k v m) = Map_get k' m.
Proof.
  intros Hne. induction m as [|[k0 v0] m IH]; simpl.
  - apply Key_eqb_neq in Hne. by rewrite Hne.
  - destruct (Key_eqb k0 k) eqn:Hk; simpl.
    + apply Key_eqb_eq in Hk as ->.
      apply Key_eqb_neq in Hne. by rewrite Hne.
    + by rewrite IH.
Qed.

Lemma Map_get_delete_eq k m :
  NoDup (m.*1) -> Map_get k (Map_delete k m) = None.
Proof.
  induction m as [|[k' v'] m IH]; simpl; [done|].
  intros Hnd. apply NoDup_cons in Hnd as [Hk' Hnd].
  destruct (Key_eqb k' k) eqn:Hk; simpl.
  - apply Key_eqb_eq in Hk as ->.
    clear IH. induction m as [|[k0 v0] m IH]; simpl; [done|].
    apply not_elem_of_cons in Hk' as [Hne Hk']. simpl in Hne.
    apply NoDup_cons in Hnd as [_ Hnd].
    assert (Key_eqb k0 k = false) as -> by (apply Key_eqb_neq; congruence).
    by apply IH.
  - rewrite Hk. by apply IH.
Qed.

Lemma Map_get_delete_ne k k' m :
  k <> k' -> Map_get k' (Map_delete k m) = Map_get k' m.
Proof.
  intros Hne. induction m as [|[k0 v0] m IH]; simpl; [done|].
  destruct (Key_eqb k0 k) eqn:Hk; simpl.
  - apply Key_eqb_eq in Hk as ->.
    apply Key_eqb_neq in Hne. by rewrite Hne.
  - by rewrite IH.
Qed.

Lemma Map_set_Forall (P : Key * V -> Prop) k v m :
  Forall P m -> (forall k0, P (k0, v)) -> Forall P (Map_set k v m).
Proof.
  intros Hm Hv. induction Hm as [|[k' v'] m Hx Hm IH]; simpl.
  - by constructor.
  - destruct (Key_eqb k' k); constructor; auto.
Qed.

Lemma Map_set_fst k v m x :
  x ∈ (Map_set k v m).*1 -> x = k \/ x ∈ m.*1.
Proof.
  induction m as [|[k' v'] m IH]; simpl.
  - intros Hx. apply list_elem_of_singleton in Hx. by left.
  - destruct (Key_eqb k' k); simpl; [by right|].
    intros Hx. apply elem_of_cons in Hx as [->|Hx].
    + right. apply list_elem_of_here.
    + destruct (IH Hx) as [->|Hin]; [by left|].
      right. by apply list_elem_of_further.
Qed.

Lemma Map_set_snd k v m x :
  x ∈ (Map_set k v m).*2 -> x = v \/ x ∈ m.*2.
Proof.
  induction m as [|[k' v'] m IH]; simpl.
  - intros Hx. apply list_elem_of_singleton in Hx. by left.
  - destruct (Key_eqb k' k); simpl.
    + intros Hx. apply elem_of_cons in Hx as [->|Hx]; [by left|].
      right. by apply list_elem_of_further.
    + intros Hx. apply elem_of_cons in Hx as [->|Hx].
      * right. apply list_elem_of_here.
      * destruct (IH Hx) as [->|Hin]; [by left|].
        right. by apply list_elem_of_further.
Qed.

Lemma Map_set_NoDup_fst k v m : NoDup m.*1 -> NoDup (Map_set k v m).*1.
Proof.
  induction m as [|[k' v'] m IH]; simpl.
  - intros _. apply NoDup_singleton.
  - intros Hnd. apply NoDup_cons in Hnd as [Hk' Hnd].
    destruct (Key_eqb k' k) eqn:Hk; simpl.
    + by apply NoDup_cons.
    + apply NoDup_cons. split; [|by apply IH].
      intros Hin. apply Map_set_fst in Hin as [->|Hin]; [|done].
      by rewrite Key_eqb_refl in Hk.
Qed.

Lemma Map_set_NoDup_snd k v m :
  NoDup m.*2 -> v ∉ m.*2 -> NoDup (Map_set k v m).*2.
Proof.
  induction m as [|[k' v'] m IH]; simpl.
  - intros _ _. apply NoDup_singleton.
  - intros Hnd Hv. apply NoDup_cons in Hnd as [Hv' Hnd].
    apply not_elem_of_cons in Hv as [Hne Hv].
    destruct (Key_eqb k' k) eqn:Hk; simpl.
    + by apply NoDup_cons.
    + apply NoDup_cons. split; [|by apply IH].
      intros Hin. apply Map_set_snd in Hin as [->|Hin]; done.
Qed.

Lemma Map_delete_sublist k m : sublist (Map_delete k m) m.
Proof.
  induction m as [|[k' v'] m IH]; simpl; [done|].
  destruct (Key_eqb k' k).
  - by apply sublist_cons.
  - by apply sublist_skip.
Qed.

End JsMapFacts.

(** ** The heap and the snapshot file *)

Lemma array_heap_eq (w w' : World) (r : Ref) :
  heap w = heap w' -> array w r = array w' r.
Proof. unfold array. by intros ->. Qed.

Lemma getSubscriptions_mem_eq (w w' : World) (u : Key) :
  heap w = heap w' -> subscriptions w = subscriptions w' ->
  getSubscriptions w u = getSubscriptions w' u.
Proof.
  intros Hh Hs. unfold getSubscriptions. rewrite Hs.
  destruct (Map_get u (subscriptions w')); [|done]. by apply array_heap_eq.
Qed.

Lemma array_app_old (w w' : World) (r : Ref) (ext : list (list Subscription)) :
  heap w' = heap w ++ ext -> (r < length (heap w))%nat -> array w' r = array w r.
Proof.
  intros Hh Hr. unfold array. rewrite Hh. by rewrite lookup_app_l.
Qed.

Lemma array_app_new (w w' : World) (xs : list Subscription) :
  heap w' = heap w ++ [xs] -> array w' (length (heap w)) = xs.
Proof.
  intros Hh. unfold array. rewrite Hh.
  rewrite lookup_app_r by lia. by rewrite Nat.sub_diag.
Qed.

Lemma array_unallocated (w : World) (r : Ref) :
  (length (heap w) <= r)%nat -> array w r = [].
Proof. intros Hr. unfold array. by rewrite lookup_ge_None_2. Qed.

Lemma array_lookup_allocated (w : World) (r : Ref) (i : nat) (x : Subscription) :
  array w r !! i = Some x -> (r < length (heap w))%nat.
Proof.
  intros Hx. destruct (decide (r < length (heap w))%nat) as [|Hge]; [done|].
  rewrite array_unallocated in Hx by lia. done.
Qed.

Section ServiceFacts.
Variable E : Env.

Lemma saveSubscriptions_eq (w : World) :
  saveSubscriptions E w = (Ok tt, after_save E w).
Proof.
  unfold saveSubscriptions, after_save, try_catch, bind, gets,
    writeFile_subscriptions, console_error, modify.
  by destruct (fs_writeFile E (writes w)).
Qed.

Lemma after_save_heap w : heap (after_save E w) = heap w.
Proof. unfold after_save. by destruct (fs_writeFile E (writes w)). Qed.

Lemma after_save_subscriptions w :
  subscriptions (after_save E w) = subscriptions w.
Proof. unfold after_save. by destruct (fs_writeFile E (writes w)). Qed.

Lemma after_save_pushed w : pushed (after_save E w) = pushed w.
Proof. unfold after_save. by destruct (fs_writeFile E (writes w)). Qed.

Lemma after_save_logs w :
  notification_logs (after_save E w) = notification_logs w.
Proof. unfold after_save. by destruct (fs_writeFile E (writes w)). Qed.

Lemma after_save_users w : users_file (after_save E w) = users_file w.
Proof. unfold after_save. by destruct (fs_writeFile E (writes w)). Qed.

Lemma after_save_now w : now (after_save E w) = now w.
Proof. unfold after_save. by destruct (fs_writeFile E (writes w)). Qed.

Lemma after_save_array w r : array (after_save E w) r = array w r.
Proof. apply array_heap_eq, after_save_heap. Qed.

Lemma after_save_getSubscriptions w u :
  getSubscriptions (after_save E w) u = getSubscriptions w u.
Proof.
  apply getSubscriptions_mem_eq;
    [apply after_save_heap | apply after_save_subscriptions].
Qed.

(** *** [subscribeUser], case by case *)

(** The endpoint is already there: nothing happens at all. *)
Lemma subscribeUser_present (u : Key) (s : Subscription) (w : World) (r : Ref) :
  Map_get u (subscriptions w) = Some r ->
  Exists (fun x => endpoint x = endpoint s) (array w r) ->
  subscribeUser E u s w = (Ok false, w).
Proof.
  intros Hget Hex. unfold subscribeUser, bind, gets, Map_has. simpl.
  rewrite Hget. simpl. rewrite Hget.
  by rewrite bool_decide_eq_true_2.
Qed.

(** The user is known, the endpoint is new: the user's array grows in
    place and a snapshot is taken. *)
Lemma subscribeUser_fresh (u : Key) (s : Subscription) (w : World) (r : Ref) :
  Map_get u (subscriptions w) = Some r ->
  ~ Exists (fun x => endpoint x = endpoint s) (array w r) ->
  subscribeUser E u s w =
    (Ok true,
     after_save E
       (set_console (console w ++ [Log ("User " +:+ Key_toString u
                                        +:+ " subscribed to WebPush")])
          (set_heap (<[r := array w r ++ [s]]> (heap w)) w))).
Proof.
  intros Hget Hex. unfold subscribeUser, bind, gets, Map_has. simpl.
  rewrite Hget. simpl. rewrite Hget.
  rewrite bool_decide_eq_false_2 by done. simpl.
  unfold array_push, console_log, modify. simpl.
  by rewrite saveSubscriptions_eq.
Qed.

(** The user is unknown: a new array is entered for them first. *)
Lemma subscribeUser_new (u : Key) (s : Subscription) (w : World) :
  Map_get u (subscriptions w) = None ->
  subscribeUser E u s w =
    (Ok true,
     after_save E
       (set_console (console w ++ [Log ("User " +:+ Key_toString u
                                        +:+ " subscribed to WebPush")])
          (set_heap (heap w ++ [[s]])
             (set_subscriptions (Map_set u (length (heap w)) (subscriptions w)) w)))).
Proof.
  intros Hget. unfold subscribeUser, bind, gets, Map_has. simpl.
  rewrite Hget. simpl. rewrite Map_get_set_eq.
  rewrite (array_app_new w _ []) by reflexivity.
  rewrite bool_decide_eq_false_2 by (rewrite Exists_nil; tauto). simpl.
  unfold array_push, console_log, modify. simpl.
  rewrite saveSubscriptions_eq. do 2 f_equal.
  rewrite (array_app_new w _ []) by reflexivity.
  unfold set_console, set_heap, set_subscriptions. simpl. f_equal.
  rewrite insert_app_r_alt by lia. by rewrite Nat.sub_diag.
Qed.
End ServiceFacts.

(** ** Well-formed registries *)

Lemma Map_get_elem_of_key {V} (k : Key) (v : V) (m : list (Key * V)) :
  Map_get k m = Some v -> (k, v) ∈ m.
Proof.
  induction m as [|[k0 v0] m IH]; simpl; [done|].
  destruct (Key_eqb k0 k) eqn:Hk.
  - intros [= ->]. apply Key_eqb_eq in Hk as ->. apply list_elem_of_here.
  - intros H. apply list_elem_of_further. by apply IH.
Qed.

Lemma wf_get (w : World) (k : Key) (r : Ref) :
  wf w -> Map_get k (subscriptions w) = Some r -> (r < length (heap w))%nat.
Proof.
  intros Hwf Hget. apply Map_get_elem_of_key in Hget as Hin.
  pose proof (wf_alloc w Hwf) as Ha. rewrite Forall_forall in Ha.
  by apply (Ha _ Hin).
Qed.

Lemma Exists_endpoint (e : string) (l : list Subscription) :
  Exists (fun x => endpoint x = e) l <-> e ∈ endpoint <$> l.
Proof.
  rewrite Exists_exists, list_elem_of_fmap. split.
  - intros (x & Hx & <-). by exists x.
  - intros (x & -> & Hx). by exists x.
Qed.

Lemma array_insert (w w' : World) (r : Ref) (xs : list Subscription) :
  heap w' = <[r := xs]> (heap w) -> (r < length (heap w))%nat -> array w' r = xs.
Proof.
  intros Hh Hr. unfold array. rewrite Hh. by rewrite list_lookup_insert_eq.
Qed.

(** A second [subscribeUser] with an endpoint the user already has answers
    [false] and changes nothing, whatever else the subscription says. *)
Lemma subscribeUser_again (E : Env) (u : Key) (s s' : Subscription) (w : World) :
  wf w ->
  endpoint s' = endpoint s ->
  subscribeUser E u s' (subscribeUser E u s w).2
  = (Ok false, (subscribeUser E u s w).2).
Proof.
  intros Hwf Hep.
  destruct (Map_get u (subscriptions w)) as [r|] eqn:Hget.
  - pose proof (wf_get _ _ _ Hwf Hget) as Hr.
    destruct (decide (Exists (fun x => endpoint x = endpoint s) (array w r)))
      as [Hex|Hnex].
    + rewrite (subscribeUser_present E u s w r Hget Hex). simpl.
      apply (subscribeUser_present E u s' w r Hget). by rewrite Hep.
    + rewrite (subscribeUser_fresh E u s w r Hget Hnex). simpl.
      apply (subscribeUser_present E u s' _ r).
      { by rewrite after_save_subscriptions. }
      rewrite after_save_array, Hep.
      rewrite (array_insert w _ r (array w r ++ [s])) by done.
      apply Exists_app. right. by constructor.
  - rewrite (subscribeUser_new E u s w Hget). simpl.
    apply (subscribeUser_present E u s' _ (length (heap w))).
    { rewrite after_save_subscriptions. simpl. apply Map_get_set_eq. }
    rewrite after_save_array, Hep.
    rewrite (array_app_new w _ [s]) by reflexivity. by constructor.
Qed.

(** The first [subscribeUser] with an endpoint the user does not have
    answers [true] and puts the subscription at the end of the user's list. *)
Lemma subscribeUser_first (E : Env) (u : Key) (s : Subscription) (w : World) :
  wf w ->
  endpoint s ∉ endpoint <$> getSubscriptions w u ->
  (subscribeUser E u s w).1 = Ok true
  /\ getSubscriptions (subscribeUser E u s w).2 u = getSubscriptions w u ++ [s].
Proof.
  intros Hwf. unfold getSubscriptions at 1 3.
  destruct (Map_get u (subscriptions w)) as [r|] eqn:Hget.
  - pose proof (wf_get _ _ _ Hwf Hget) as Hr. intros Hnin.
    assert (~ Exists (fun x => endpoint x = endpoint s) (array w r)) as Hnex
      by (by rewrite Exists_endpoint).
    rewrite (subscribeUser_fresh E u s w r Hget Hnex). simpl. split; [done|].
    rewrite after_save_getSubscriptions. unfold getSubscriptions. simpl.
    rewrite Hget. by rewrite (array_insert w _ r (array w r ++ [s])).
  - intros _. rewrite (subscribeUser_new E u s w Hget). simpl. split; [done|].
    rewrite after_save_getSubscriptions. unfold getSubscriptions. simpl.
    rewrite Map_get_set_eq. by rewrite (array_app_new w _ [s]).
Qed.

(** ** Subscribing twice *)

(** C5. Subscribing a user to an endpoint and then subscribing the same
    user and endpoint again answers [true], then [false]; the second call
    leaves the whole state, the user's list in it, exactly as the first call
    left it: the subscription is in the list once, at the end, and endpoints
    that were pairwise different before are so afterwards. The second answer
    and the unchanged state do not depend on the endpoint being new. *)
Theorem subscribeUser_idempotent (E : Env) (u : Key) (s s' : Subscription) (w : World) :
  wf w ->
  endpoint s' = endpoint s ->
  let first := subscribeUser E u s w in
  let second := subscribeUser E u s' first.2 in
  second = (Ok false, first.2)
  /\ getSubscriptions second.2 u = getSubscriptions first.2 u
  /\ length (getSubscriptions second.2 u) = length (getSubscriptions first.2 u)
  /\ (endpoint s ∉ endpoint <$> getSubscriptions w u ->
      first.1 = Ok true
      /\ second.1 = Ok false
      /\ getSubscriptions second.2 u = getSubscriptions w u ++ [s]
      /\ (NoDup (endpoint <$> getSubscriptions w u) ->
          NoDup (endpoint <$> getSubscriptions second.2 u))).
Proof.
  intros Hwf Hep first second.
  assert (second = (Ok false, first.2)) as Hsecond
    by apply (subscribeUser_again E u s s' w Hwf Hep).
  split; [done|]. rewrite Hsecond. simpl. split; [done|]. split; [done|].
  intros Hnin. destruct (subscribeUser_first E u s w Hwf Hnin) as [H1 Hl].
  split; [done|]. split; [done|]. subst first. rewrite Hl. split; [done|].
  intros Hnd. rewrite fmap_app. simpl.
  apply NoDup_app. split; [done|]. split.
  - intros x Hx Hx'. apply list_elem_of_singleton in Hx'. by subst.
  - apply NoDup_singleton.
Qed.

Section UnsubscribeFacts.
Variable E : Env.

(** *** [unsubscribeUser] and [unsubscribeAll], case by case *)

Lemma unsubscribeUser_unknown (u : Key) (e : string) (w : World) :
  Map_get u (subscriptions w) = None ->
  unsubscribeUser E u e w = (Ok false, w).
Proof.
  intros Hget. unfold unsubscribeUser, bind, gets, Map_has. simpl.
  by rewrite Hget.
Qed.

(** A known user always gets a new array, the old one is left alone; a
    snapshot is taken only when the new one is shorter. *)
Lemma unsubscribeUser_known (u : Key) (e : string) (w : World) (r : Ref) :
  Map_get u (subscriptions w) = Some r ->
  let w1 :=
    set_subscriptions (Map_set u (length (heap w)) (subscriptions w))
      (set_heap (heap w ++ [without e (array w r)]) w) in
  unsubscribeUser E u e w =
    if (length (without e (array w r)) <? length (array w r))%nat
    then (Ok true,
          after_save E
            (set_console (console w ++ [Log ("User " +:+ Key_toString u
                                             +:+ " unsubscribed from WebPush")])
               w1))
    else (Ok false, w1).
Proof.
  intros Hget w1. unfold unsubscribeUser, bind, gets, Map_has. simpl.
  rewrite Hget. simpl. rewrite Hget.
  unfold getSubscriptions. simpl. rewrite Map_get_set_eq.
  rewrite (array_app_new w _ (without e (array w r))) by reflexivity.
  fold (without e (array w r)).
  destruct (length (without e (array w r)) <? length (array w r))%nat; [|done].
  unfold console_log, modify. simpl. by rewrite saveSubscriptions_eq.
Qed.

Lemma unsubscribeAll_unknown (u : Key) (w : World) :
  Map_get u (subscriptions w) = None ->
  unsubscribeAll E u w = (Ok false, w).
Proof.
  intros Hget. unfold unsubscribeAll, bind, gets, Map_has. simpl.
  by rewrite Hget.
Qed.

Lemma unsubscribeAll_known (u : Key) (w : World) (r : Ref) :
  Map_get u (subscriptions w) = Some r ->
  unsubscribeAll E u w =
    (Ok true,
     after_save E
       (set_console
          (console w ++ [Log ("User " +:+ Key_toString u
                              +:+ " unsubscribed from all WebPush notifications")])
          (set_subscriptions (Map_delete u (subscriptions w)) w))).
Proof.
  intros Hget. unfold unsubscribeAll, bind, gets, Map_has. simpl.
  rewrite Hget. simpl. unfold console_log, modify. simpl.
  by rewrite saveSubscriptions_eq.
Qed.
End UnsubscribeFacts.

Lemma after_save_memory (E : Env) (w : World) : memory (after_save E w) = memory w.
Proof.
  unfold memory. by rewrite after_save_heap, after_save_subscriptions.
Qed.

Lemma subscribeUser_env (E E' : Env) (u : Key) (s : Subscription) (w : World) :
  (subscribeUser E u s w).1 = (subscribeUser E' u s w).1
  /\ memory (subscribeUser E u s w).2 = memory (subscribeUser E' u s w).2
  /\ exists added, (subscribeUser E u s w).1 = Ok added.
Proof.
  destruct (Map_get u (subscriptions w)) as [r|] eqn:Hget.
  - destruct (decide (Exists (fun x => endpoint x = endpoint s) (array w r)))
      as [Hex|Hnex].
    + rewrite !(subscribeUser_present _ u s w r Hget Hex). eauto.
    + rewrite !(subscribeUser_fresh _ u s w r Hget Hnex). simpl.
      rewrite !after_save_memory. eauto.
  - rewrite !(subscribeUser_new _ u s w Hget). simpl.
    rewrite !after_save_memory. eauto.
Qed.

Lemma unsubscribeUser_env (E E' : Env) (u : Key) (e : string) (w : World) :
  (unsubscribeUser E u e w).1 = (unsubscribeUser E' u e w).1
  /\ memory (unsubscribeUser E u e w).2 = memory (unsubscribeUser E' u e w).2
  /\ exists removed, (unsubscribeUser E u e w).1 = Ok removed.
Proof.
  destruct (Map_get u (subscriptions w)) as [r|] eqn:Hget.
  - rewrite !(unsubscribeUser_known _ u e w r Hget).
    destruct (length (without e (array w r)) <? length (array w r))%nat; simpl.
    + rewrite !after_save_memory. eauto.
    + eauto.
  - rewrite !(unsubscribeUser_unknown _ u e w Hget). eauto.
Qed.

Lemma unsubscribeAll_env (E E' : Env) (u : Key) (w : World) :
  (unsubscribeAll E u w).1 = (unsubscribeAll E' u w).1
  /\ memory (unsubscribeAll E u w).2 = memory (unsubscribeAll E' u w).2
  /\ exists existed, (unsubscribeAll E u w).1 = Ok existed.
Proof.
  destruct (Map_get u (subscriptions w)) as [r|] eqn:Hget.
  - rewrite !(unsubscribeAll_known _ u w r Hget). simpl.
    rewrite !after_save_memory. eauto.
  - rewrite !(unsubscribeAll_unknown _ u w Hget). eauto.
Qed.

(** ** Failed snapshot writes *)

(** C8. When the write of the snapshot is rejected, [saveSubscriptions]
    still returns normally: the error is on the console, and neither the
    registry in memory nor the file has changed. What [subscribeUser],
    [unsubscribeUser] and [unsubscribeAll] return, and the registry they leave
    in memory, are then the same as under any other environment, one where
    the write succeeds included. *)
Theorem persistence_failure_swallowed (E E' : Env) (u : Key) (s : Subscription)
    (e : string) (w : World) (err : JsError) :
  fs_writeFile E (writes w) = Some err ->
  ((saveSubscriptions E w).1 = Ok tt
   /\ console (saveSubscriptions E w).2
      = console w ++ [Error "Failed to save subscriptions:" err]
   /\ memory (saveSubscriptions E w).2 = memory w
   /\ subscriptions_file (saveSubscriptions E w).2 = subscriptions_file w)
  /\ ((subscribeUser E u s w).1 = (subscribeUser E' u s w).1
      /\ memory (subscribeUser E u s w).2 = memory (subscribeUser E' u s w).2
      /\ exists added, (subscribeUser E u s w).1 = Ok added)
  /\ ((unsubscribeUser E u e w).1 = (unsubscribeUser E' u e w).1
      /\ memory (unsubscribeUser E u e w).2 = memory (unsubscribeUser E' u e w).2
      /\ exists removed, (unsubscribeUser E u e w).1 = Ok removed)
  /\ ((unsubscribeAll E u w).1 = (unsubscribeAll E' u w).1
      /\ memory (unsubscribeAll E u w).2 = memory (unsubscribeAll E' u w).2
      /\ exists existed, (unsubscribeAll E u w).1 = Ok existed).
Proof.
  intros Herr. split; [|split; [|split]].
  - rewrite saveSubscriptions_eq. simpl.
    rewrite after_save_memory. unfold after_save. rewrite Herr. simpl. done.
  - apply subscribeUser_env.
  - apply unsubscribeUser_env.
  - apply unsubscribeAll_env.
Qed.

(** ** One delivery attempt *)

Lemma dispatch_frame_refl (u : Key) (w : World) : dispatch_frame u w w.
Proof.
  split; try done. exists []. by rewrite app_nil_r.
Qed.

Lemma dispatch_frame_trans (u : Key) (w1 w2 w3 : World) :
  dispatch_frame u w1 w2 -> dispatch_frame u w2 w3 -> dispatch_frame u w1 w3.
Proof.
  intros [[e1 H1] Ho1 Hw1 Hl1 Hu1 Hn1] [[e2 H2] Ho2 Hw2 Hl2 Hu2 Hn2].
  split.
  - exists (e1 ++ e2). by rewrite H2, H1, app_assoc.
  - intros u' Hne. by rewrite Ho2, Ho1.
  - auto.
  - congruence.
  - congruence.
  - congruence.
Qed.

Lemma dispatch_frame_array (u : Key) (w w' : World) (r : Ref) :
  dispatch_frame u w w' -> (r < length (heap w))%nat -> array w' r = array w r.
Proof.
  intros [[ext Hh] _ _ _ _ _] Hr. by apply (array_app_old w w' r ext).
Qed.

Lemma dispatch_frame_others (u u' : Key) (w w' : World) :
  dispatch_frame u w w' -> wf w -> u' <> u ->
  getSubscriptions w' u' = getSubscriptions w u'.
Proof.
  intros Hf Hwf Hne. unfold getSubscriptions.
  rewrite (frame_others _ _ _ Hf u' Hne).
  destruct (Map_get u' (subscriptions w)) as [r|] eqn:Hget; [|done].
  apply (dispatch_frame_array u); [done|]. by apply (wf_get w u').
Qed.

Lemma wf_mem_eq (w w' : World) :
  heap w' = heap w -> subscriptions w' = subscriptions w -> wf w -> wf w'.
Proof.
  intros Hh Hs [Ha Hk Hr]. split; rewrite ?Hh, Hs; done.
Qed.

Lemma wf_after_save (E : Env) (w : World) : wf w -> wf (after_save E w).
Proof.
  apply wf_mem_eq; [apply after_save_heap | apply after_save_subscriptions].
Qed.

(** Entering a newly allocated array keeps the registry well formed. *)
Lemma wf_Map_set_new (w w' : World) (u : Key) (xs : list Subscription) :
  heap w' = heap w ++ [xs] ->
  subscriptions w' = Map_set u (length (heap w)) (subscriptions w) ->
  wf w -> wf w'.
Proof.
  intros Hh Hs [Ha Hk Hr]. split; rewrite ?Hh, Hs.
  - apply Map_set_Forall.
    + eapply Forall_impl; [exact Ha|]. simpl. intros kr Hkr.
      rewrite length_app. simpl. lia.
    + intros k0. simpl. rewrite length_app. simpl. lia.
  - by apply Map_set_NoDup_fst.
  - apply Map_set_NoDup_snd; [done|].
    intros Hin. apply list_elem_of_fmap in Hin as ([k r] & Heq & Hin).
    simpl in Heq. subst r. rewrite Forall_forall in Ha.
    specialize (Ha _ Hin). simpl in Ha. lia.
Qed.

Lemma dispatch_frame_mem_eq (u : Key) (w w' : World) :
  heap w' = heap w -> subscriptions w' = subscriptions w ->
  notification_logs w' = notification_logs w ->
  users_file w' = users_file w -> now w' = now w ->
  dispatch_frame u w w'.
Proof.
  intros Hh Hs Hl Hu Hn. split; try done.
  - exists []. by rewrite app_nil_r.
  - intros u' _. by rewrite Hs.
  - by apply wf_mem_eq.
Qed.

Section DispatchFacts.
Variable E : Env.

(** Pruning [e] from [u]: [u] keeps the subscriptions with another
    endpoint, in their order; nothing else in the registry moves. *)
Lemma unsubscribeUser_prune (u : Key) (e : string) (w : World) :
  exists removed w',
    unsubscribeUser E u e w = (Ok removed, w')
    /\ getSubscriptions w' u = without e (getSubscriptions w u)
    /\ pushed w' = pushed w
    /\ dispatch_frame u w w'.
Proof.
  destruct (Map_get u (subscriptions w)) as [r|] eqn:Hget.
  - pose proof (unsubscribeUser_known E u e w r Hget) as Heq. cbv zeta in Heq.
    set (w1 := set_subscriptions (Map_set u (length (heap w)) (subscriptions w))
                 (set_heap (heap w ++ [without e (array w r)]) w)) in *.
    assert (getSubscriptions w1 u = without e (getSubscriptions w u)) as Hgs.
    { unfold getSubscriptions. rewrite Hget. subst w1. simpl.
      rewrite Map_get_set_eq.
      by rewrite (array_app_new w _ (without e (array w r))). }
    assert (dispatch_frame u w w1) as Hf.
    { subst w1. split; simpl; try done.
      - by eexists.
      - intros u' Hne. apply Map_get_set_ne. congruence.
      - by apply (wf_Map_set_new w _ u (without e (array w r))). }
    destruct (length (without e (array w r)) <? length (array w r))%nat.
    + eexists _, _. split; [exact Heq|].
      rewrite after_save_getSubscriptions, after_save_pushed.
      split; [|split; [done|]].
      * rewrite <- Hgs. by apply getSubscriptions_mem_eq.
      * destruct Hf as [Hh Ho Hw Hl Hu Hn]. split.
        -- by rewrite after_save_heap.
        -- intros u' Hne. rewrite after_save_subscriptions. by apply Ho.
        -- intros Hwf. apply wf_after_save.
           apply (wf_mem_eq w1); [done|done|]. by apply Hw.
        -- by rewrite after_save_logs.
        -- by rewrite after_save_users.
        -- by rewrite after_save_now.
    + eexists _, _. split; [exact Heq|]. done.
  - rewrite (unsubscribeUser_unknown E u e w Hget).
    eexists _, _. split; [done|]. split; [|split; [done|]].
    + unfold getSubscriptions. by rewrite Hget.
    + apply dispatch_frame_refl.
Qed.

(** One turn of the loop: exactly one attempt is made, it is counted as
    sent or as failed, and the endpoint is pruned at once when the answer
    is "gone". *)
Lemma send_one_spec (u : Key) (p : Notification) (x : Subscription)
    (acc : SendResult) (w : World) :
  exists acc' w',
    send_one E u p x acc w = (Ok acc', w')
    /\ pushed w' = pushed w ++ [(x, p)]
    /\ (sent acc' + failed acc' = S (sent acc + failed acc))%nat
    /\ getSubscriptions w' u =
         (if is_gone (webpush_sendNotification E (length (pushed w)) x p)
          then without (endpoint x) (getSubscriptions w u)
          else getSubscriptions w u)
    /\ dispatch_frame u w w'.
Proof.
  unfold send_one, try_catch, bind, webpush_send, is_gone.
  destruct (webpush_sendNotification E (length (pushed w)) x p) as [err|].
  - destruct (bool_decide (statusCode err = Some 410)).
    + unfold console_log, modify. simpl.
      match goal with
      | |- context [unsubscribeUser E u (endpoint x) ?w0] =>
          destruct (unsubscribeUser_prune u (endpoint x) w0)
            as (removed & w' & Heq & Hgs & Hp & Hf)
      end.
      rewrite Heq. unfold ret. eexists _, w'. split; [done|].
      split; [by rewrite Hp|]. split; [simpl; lia|]. split; [done|].
      eapply dispatch_frame_trans; [|exact Hf].
      by apply dispatch_frame_mem_eq.
    + unfold ret. eexists _, _. split; [done|]. simpl.
      split; [done|]. split; [lia|]. split; [done|].
      by apply dispatch_frame_mem_eq.
  - unfold console_log, modify, ret. simpl. eexists _, _. split; [done|].
    simpl. split; [done|]. split; [lia|]. split; [done|].
    by apply dispatch_frame_mem_eq.
Qed.
End DispatchFacts.

(** ** The loop of [sendNotification] *)

Lemma filter_not_gone_nil (l : list Subscription) :
  filter (fun s => endpoint s ∉ @nil string) l = l.
Proof.
  induction l as [|x l IH]; [done|].
  rewrite filter_cons_True by apply not_elem_of_nil. by rewrite IH.
Qed.

Lemma filter_not_gone_without (e : string) (G : list string) (l : list Subscription) :
  filter (fun s => endpoint s ∉ G) (without e l)
  = filter (fun s => endpoint s ∉ e :: G) l.
Proof.
  unfold without. rewrite list_filter_filter. apply list_filter_iff.
  intros x. rewrite not_elem_of_cons. tauto.
Qed.

Section LoopFacts.
Variable E : Env.

(** From index [i] on, the loop tries every element the array at [r]
    holds when the loop gets there, in order; the array cannot change under
    it, because pruning builds a new one. *)
Lemma for_of_send_spec (u : Key) (p : Notification) (r : Ref) (fuel : nat) :
  forall (i : nat) (acc : SendResult) (w : World),
    (length (array w r) - i < fuel)%nat ->
    exists acc' w',
      for_of fuel r i (send_one E u p) acc w = (Ok acc', w')
      /\ pushed w' = pushed w ++ ((fun s => (s, p)) <$> drop i (array w r))
      /\ (sent acc' + failed acc'
          = sent acc + failed acc + length (drop i (array w r)))%nat
      /\ getSubscriptions w' u =
           filter (fun s => endpoint s ∉
                     gone_endpoints E p (length (pushed w)) (drop i (array w r)))
                  (getSubscriptions w u)
      /\ dispatch_frame u w w'.
Proof.
  induction fuel as [|fuel IH]; intros i acc w Hfuel; [lia|].
  simpl. destruct (array w r !! i) as [x|] eqn:Hx.
  - destruct (send_one_spec E u p x acc w)
      as (acc1 & w1 & Heq & Hp1 & Hc1 & Hg1 & Hf1).
    rewrite Heq.
    pose proof (array_lookup_allocated w r i x Hx) as Hr.
    pose proof (dispatch_frame_array u w w1 r Hf1 Hr) as Harr.
    destruct (IH (S i) acc1 w1) as (acc' & w' & Heq' & Hp' & Hc' & Hg' & Hf').
    { rewrite Harr. apply lookup_lt_Some in Hx. lia. }
    rewrite Harr in *.
    exists acc', w'. split; [done|].
    rewrite (drop_S _ _ _ Hx). simpl.
    split; [|split; [|split]].
    + rewrite Hp', Hp1. by rewrite <- app_assoc.
    + lia.
    + rewrite Hg', Hg1, Hp1. rewrite length_app. simpl.
      replace (length (pushed w) + 1)%nat with (S (length (pushed w))) by lia.
      destruct (is_gone (webpush_sendNotification E (length (pushed w)) x p)).
      * simpl. apply filter_not_gone_without.
      * done.
    + by apply (dispatch_frame_trans u w w1 w').
  - apply lookup_ge_None in Hx. rewrite (drop_ge _ _ Hx). simpl.
    exists acc, w. split; [done|]. rewrite app_nil_r.
    split; [done|]. split; [lia|]. split.
    + by rewrite filter_not_gone_nil.
    + apply dispatch_frame_refl.
Qed.

(** [sendNotification] in full, for a registered user. *)
Lemma sendNotification_spec (fuel : nat) (u : Key) (p : Notification)
    (w : World) (r : Ref) :
  Map_get u (subscriptions w) = Some r ->
  (length (getSubscriptions w u) < fuel)%nat ->
  exists res w',
    sendNotification E fuel u p w = (Ok res, w')
    /\ pushed w' = pushed w ++ ((fun s => (s, p)) <$> getSubscriptions w u)
    /\ (sent res + failed res = length (getSubscriptions w u))%nat
    /\ getSubscriptions w' u =
         filter (fun s => endpoint s ∉
                   gone_endpoints E p (length (pushed w)) (getSubscriptions w u))
                (getSubscriptions w u)
    /\ dispatch_frame u w w'.
Proof.
  intros Hget Hfuel.
  assert (getSubscriptions w u = array w r) as Hgs
    by (unfold getSubscriptions; by rewrite Hget).
  unfold sendNotification, bind, gets, Map_has. rewrite Hget. simpl.
  destruct (for_of_send_spec u p r fuel 0
              {| sent := 0; failed := 0; errors := Some [] |} w)
    as (res & w' & Heq & Hp & Hc & Hg & Hf).
  { rewrite <- Hgs. lia. }
  rewrite drop_0 in *. simpl in Hc. rewrite <- Hgs in *.
  exists res, w'. rewrite Hget. by rewrite Heq.
Qed.

(** [sendNotification] for a user the registry does not know. *)
Lemma sendNotification_unknown (fuel : nat) (u : Key) (p : Notification)
    (w : World) :
  Map_get u (subscriptions w) = None ->
  sendNotification E fuel u p w =
    (Ok {| sent := 0; failed := 0; errors := None |},
     set_console (console w ++ [Log ("No subscriptions found for user "
                                     +:+ Key_toString u)]) w).
Proof.
  intros Hget. unfold sendNotification, bind, gets, Map_has. by rewrite Hget.
Qed.

(** [sendNotification] returns for every user, known or not, once the
    fuel covers the user's subscriptions. *)
Lemma sendNotification_total (fuel : nat) (u : Key) (p : Notification)
    (w : World) :
  (length (getSubscriptions w u) < fuel)%nat ->
  exists res w',
    sendNotification E fuel u p w = (Ok res, w')
    /\ pushed w' = pushed w ++ ((fun s => (s, p)) <$> getSubscriptions w u)
    /\ (sent res + failed res = length (getSubscriptions w u))%nat
    /\ getSubscriptions w' u =
         filter (fun s => endpoint s ∉
                   gone_endpoints E p (length (pushed w)) (getSubscriptions w u))
                (getSubscriptions w u)
    /\ dispatch_frame u w w'.
Proof.
  intros Hfuel.
  destruct (Map_get u (subscriptions w)) as [r|] eqn:Hget.
  - by apply (sendNotification_spec fuel u p w r).
  - rewrite (sendNotification_unknown fuel u p w Hget).
    assert (getSubscriptions w u = []) as Hnil
      by (unfold getSubscriptions; by rewrite Hget).
    eexists _, _. split; [done|]. rewrite Hnil. simpl. rewrite app_nil_r.
    split; [done|]. split; [done|]. split.
    + unfold getSubscriptions. simpl. by rewrite Hget.
    + by apply dispatch_frame_mem_eq.
Qed.
End LoopFacts.

(** ** The gate reads, it does not write *)

Lemma timeToMinutes_state (t : TimeVal) (w : World) : (timeToMinutes t w).2 = w.
Proof.
  destruct t as [|s|n]; simpl; try done.
  by destruct (List.map Number_ (split ":" s)) as [|h [|m l]].
Qed.

Lemma timeToMinutes_fueled (t : TimeVal) (w : World) :
  (timeToMinutes t w).1 <> OutOfFuel.
Proof.
  destruct t as [|s|n]; simpl; try done.
  by destruct (List.map Number_ (split ":" s)) as [|h [|m l]].
Qed.

Lemma isInQuietHours_state (q : option QuietHours) (w : World) :
  (isInQuietHours q w).2 = w /\ (isInQuietHours q w).1 <> OutOfFuel.
Proof.
  destruct q as [qh|]; simpl; [|done].
  destruct (negb (truthy (start qh)) || negb (truthy (end_ qh))); [done|].
  unfold bind, gets.
  pose proof (timeToMinutes_state (start qh) w) as Hs.
  pose proof (timeToMinutes_fueled (start qh) w) as Hfs.
  destruct (timeToMinutes (start qh) w) as [[a|err|] w1]; simpl in *;
    subst; try done.
  pose proof (timeToMinutes_state (end_ qh) w) as He.
  pose proof (timeToMinutes_fueled (end_ qh) w) as Hfe.
  destruct (timeToMinutes (end_ qh) w) as [[b|err|] w2]; simpl in *;
    subst; try done.
  by destruct (js_le a b).
Qed.

Lemma quiet_hours_gate_state (u : Key) (w : World) :
  (quiet_hours_gate u w).2 = w /\ (quiet_hours_gate u w).1 <> OutOfFuel.
Proof.
  unfold quiet_hours_gate, bind, db_findOne_user, gets.
  destruct (List.find _ (users_file w)) as [user|]; [|done].
  destruct (notificationPreferences user) as [prefs|]; [|done].
  destruct (quietHours prefs) as [qh|]; [|done].
  apply isInQuietHours_state.
Qed.

Section SchedulerFacts.
Variable E : Env.

(** [logNotification] always returns; the record is appended when the
    write goes through and is lost, with a line on the console, when it
    does not. *)
Lemma logNotification_spec (u : Key) (p : Notification) (t : string)
    (res : SendResult) (w : World) :
  exists w',
    logNotification E u p t res w = (Ok tt, w')
    /\ pushed w' = pushed w
    /\ heap w' = heap w
    /\ subscriptions w' = subscriptions w
    /\ users_file w' = users_file w
    /\ now w' = now w
    /\ notification_logs w' =
         match fs_writeFile E (writes w) with
         | None =>
             notification_logs w ++
               [ {| log_id := getTime (now w); log_userId := u;
                    log_notification := p; sentAt := t; deliveryResult := res;
                    loggedAt := toISOString (now w) |} ]
         | Some _ => notification_logs w
         end.
Proof.
  unfold logNotification, try_catch, bind, gets, db_writeFile_logs, ret.
  destruct (fs_writeFile E (writes w)); eexists; (split; [done|]); done.
Qed.

(** *** [sendNotificationToUser], case by case *)

Lemma sendNotificationToUser_quiet (fuel : nat) (u : Key) (p : Notification)
    (w : World) :
  (quiet_hours_gate u w).1 = Ok true ->
  sendNotificationToUser E fuel u p w =
    (Ok tt,
     set_console (console w ++ [Log ("Skipping notification for user "
                                     +:+ Key_toString u
                                     +:+ " during quiet hours")]) w).
Proof.
  intros Hg. pose proof (quiet_hours_gate_state u w) as [Hw _].
  unfold sendNotificationToUser, try_catch, bind.
  destruct (quiet_hours_gate u w) as [r w0]. simpl in *. by subst.
Qed.

Lemma sendNotificationToUser_gate_throws (fuel : nat) (u : Key)
    (p : Notification) (w : World) (err : JsError) :
  (quiet_hours_gate u w).1 = Throw err ->
  sendNotificationToUser E fuel u p w =
    (Ok tt,
     set_console (console w ++ [Error ("Error sending notification to user "
                                       +:+ Key_toString u +:+ ":") err]) w).
Proof.
  intros Hg. pose proof (quiet_hours_gate_state u w) as [Hw _].
  unfold sendNotificationToUser, try_catch, bind.
  destruct (quiet_hours_gate u w) as [r w0]. simpl in *. by subst.
Qed.

Lemma sendNotificationToUser_open (fuel : nat) (u : Key) (p : Notification)
    (w : World) :
  (quiet_hours_gate u w).1 = Ok false ->
  (length (getSubscriptions w u) < fuel)%nat ->
  exists res w1 w',
    sendNotification E fuel u p w = (Ok res, w1)
    /\ logNotification E u p (toISOString (now w1)) res w1 = (Ok tt, w')
    /\ sendNotificationToUser E fuel u p w = (Ok tt, w').
Proof.
  intros Hg Hfuel. pose proof (quiet_hours_gate_state u w) as [Hw _].
  destruct (sendNotification_total E fuel u p w Hfuel)
    as (res & w1 & Heq & _).
  destruct (logNotification_spec u p (toISOString (now w1)) res w1)
    as (w' & Hlog & _).
  exists res, w1, w'. split; [done|]. split; [done|].
  unfold sendNotificationToUser, try_catch, bind.
  destruct (quiet_hours_gate u w) as [r w0]. simpl in *. subst.
  rewrite Heq. unfold gets. by rewrite Hlog.
Qed.

(** Whatever happens inside, [sendNotificationToUser] returns normally. *)
Lemma sendNotificationToUser_returns (fuel : nat) (u : Key) (p : Notification)
    (w : World) :
  (length (getSubscriptions w u) < fuel)%nat ->
  exists w', sendNotificationToUser E fuel u p w = (Ok tt, w').
Proof.
  intros Hfuel. pose proof (quiet_hours_gate_state u w) as [_ Hnf].
  destruct (quiet_hours_gate u w).1 as [[|]|err|] eqn:Hg.
  - eexists. by apply sendNotificationToUser_quiet.
  - destruct (sendNotificationToUser_open fuel u p w Hg Hfuel)
      as (res & w1 & w' & _ & _ & Heq). by exists w'.
  - eexists. by apply sendNotificationToUser_gate_throws.
  - done.
Qed.
End SchedulerFacts.

(** ** What later calls can put into a list *)

Lemma NoDup_snd_inj {K V} (m : list (K * V)) (k1 k2 : K) (v : V) :
  NoDup m.*2 -> (k1, v) ∈ m -> (k2, v) ∈ m -> k1 = k2.
Proof.
  induction m as [|[k0 v0] m IH]; simpl; intros Hnd H1 H2.
  - by apply elem_of_nil in H1.
  - apply NoDup_cons in Hnd as [Hv0 Hnd].
    apply elem_of_cons in H1 as [E1|H1];
      apply elem_of_cons in H2 as [E2|H2]; simplify_eq.
    + done.
    + exfalso. apply Hv0. apply list_elem_of_fmap. by exists (k2, v0).
    + exfalso. apply Hv0. apply list_elem_of_fmap. by exists (k1, v0).
    + by apply IH.
Qed.

Lemma wf_sublist (w w' : World) :
  heap w' = heap w -> sublist (subscriptions w') (subscriptions w) ->
  wf w -> wf w'.
Proof.
  intros Hh Hs [Ha Hk Hr]. split.
  - rewrite Forall_forall in *. intros x Hx. rewrite Hh. apply Ha.
    by eapply elem_of_sublist.
  - eapply sublist_NoDup; [exact Hk|]. by apply fmap_sublist.
  - eapply sublist_NoDup; [exact Hr|]. by apply fmap_sublist.
Qed.

Section LaterCalls.
Variable E : Env.

(** Whatever the fuel and however the loop ends, it only takes away from
    the user's list. *)
Lemma for_of_send_sublist (u : Key) (p : Notification) (r : Ref) (fuel : nat) :
  forall (i : nat) (acc : SendResult) (w : World) (res : Res SendResult) (w' : World),
    for_of fuel r i (send_one E u p) acc w = (res, w') ->
    sublist (getSubscriptions w' u) (getSubscriptions w u)
    /\ dispatch_frame u w w'.
Proof.
  induction fuel as [|fuel IH]; intros i acc w res w' Heq; simpl in Heq.
  - injection Heq as <- <-. split; [done|]. apply dispatch_frame_refl.
  - destruct (array w r !! i) as [x|] eqn:Hx.
    + destruct (send_one_spec E u p x acc w)
        as (acc1 & w1 & Heq1 & _ & _ & Hg1 & Hf1).
      rewrite Heq1 in Heq. apply IH in Heq as [Hsub Hf]. split.
      * etrans; [exact Hsub|]. rewrite Hg1.
        destruct (is_gone _); [apply sublist_filter|done].
      * by apply (dispatch_frame_trans u w w1 w').
    + injection Heq as <- <-. split; [done|]. apply dispatch_frame_refl.
Qed.

Lemma for_of_send_no_throw (u : Key) (p : Notification) (r : Ref) (fuel : nat) :
  forall (i : nat) (acc : SendResult) (w : World) (err : JsError),
    (for_of fuel r i (send_one E u p) acc w).1 <> Throw err.
Proof.
  induction fuel as [|fuel IH]; intros i acc w err; simpl; [done|].
  destruct (array w r !! i) as [x|]; [|done].
  destruct (send_one_spec E u p x acc w) as (acc1 & w1 & Heq1 & _).
  rewrite Heq1. apply IH.
Qed.

Lemma sendNotification_sublist (fuel : nat) (u : Key) (p : Notification)
    (w : World) (res : Res SendResult) (w' : World) :
  sendNotification E fuel u p w = (res, w') ->
  sublist (getSubscriptions w' u) (getSubscriptions w u)
  /\ dispatch_frame u w w'
  /\ forall err, res <> Throw err.
Proof.
  destruct (Map_get u (subscriptions w)) as [r|] eqn:Hget.
  - unfold sendNotification, bind, gets, Map_has. rewrite Hget. simpl.
    rewrite Hget. intros Heq.
    destruct (for_of_send_sublist u p r fuel _ _ _ _ _ Heq) as [Hs Hf].
    split; [done|]. split; [done|].
    intros err ->.
    by apply (for_of_send_no_throw u p r fuel 0%nat
                {| sent := 0; failed := 0; errors := Some [] |} w err), (f_equal fst Heq).
  - rewrite (sendNotification_unknown E fuel u p w Hget). intros [= <- <-].
    split; [|split; [|done]].
    + by rewrite (getSubscriptions_mem_eq _ w).
    + by apply dispatch_frame_mem_eq.
Qed.

Lemma sendNotificationToUser_sublist (fuel : nat) (u : Key) (p : Notification)
    (w : World) (res : Res unit) (w' : World) :
  sendNotificationToUser E fuel u p w = (res, w') ->
  sublist (getSubscriptions w' u) (getSubscriptions w u)
  /\ (exists ext, heap w' = heap w ++ ext)
  /\ (forall u', u' <> u ->
        Map_get u' (subscriptions w') = Map_get u' (subscriptions w))
  /\ (wf w -> wf w').
Proof.
  pose proof (quiet_hours_gate_state u w) as [_ Hnf].
  destruct (quiet_hours_gate u w).1 as [[|]|err|] eqn:Hg.
  - rewrite (sendNotificationToUser_quiet E fuel u p w Hg). intros [= <- <-].
    split; [by rewrite (getSubscriptions_mem_eq _ w)|].
    split; [exists []; simpl; by rewrite app_nil_r|]. split; [done|].
    by apply wf_mem_eq.
  - pose proof (quiet_hours_gate_state u w) as [Hw _].
    unfold sendNotificationToUser, try_catch, bind.
    destruct (quiet_hours_gate u w) as [g w0]. simpl in *. subst g w0.
    destruct (sendNotification E fuel u p w) as [sres w1] eqn:Hsend.
    destruct (sendNotification_sublist fuel u p w sres w1 Hsend)
      as (Hsub & Hf & Hnt).
    destruct sres as [sres|err|].
    + unfold gets.
      destruct (logNotification_spec E u p (toISOString (now w1)) sres w1)
        as (w2 & Hlog & _ & Hh & Hs & _).
      rewrite Hlog. intros [= <- <-].
      split; [by rewrite (getSubscriptions_mem_eq w2 w1)|].
      destruct Hf as [[ext Hext] Ho Hwf _ _ _].
      split; [exists ext; by rewrite Hh|].
      split; [intros u' Hne; rewrite Hs; by apply Ho|].
      intros Hw. apply (wf_mem_eq w1); auto.
    + by destruct (Hnt err).
    + intros [= <- <-]. split; [done|]. destruct Hf as [Hext Ho Hwf _ _ _]. done.
  - rewrite (sendNotificationToUser_gate_throws E fuel u p w err Hg).
    intros [= <- <-].
    split; [by rewrite (getSubscriptions_mem_eq _ w)|].
    split; [exists []; simpl; by rewrite app_nil_r|]. split; [done|].
    by apply wf_mem_eq.
  - done.
Qed.

Lemma getSubscriptions_others (u u' : Key) (w w' : World) :
  wf w ->
  (exists ext, heap w' = heap w ++ ext) ->
  Map_get u' (subscriptions w') = Map_get u' (subscriptions w) ->
  getSubscriptions w' u' = getSubscriptions w u'.
Proof.
  intros Hwf [ext Hh] Hget. unfold getSubscriptions. rewrite Hget.
  destruct (Map_get u' (subscriptions w)) as [r|] eqn:Hr; [|done].
  apply (array_app_old w w' r ext Hh). by apply (wf_get w u').
Qed.

(** A subscription found in a user's list after a call was there before
    the call, unless the call subscribed it for that user. *)
Lemma run_call_elem_of (fuel : nat) (c : Call) (w : World) (res : Res unit)
    (w' : World) :
  wf w ->
  run_call E fuel c w = (res, w') ->
  wf w'
  /\ forall u x, x ∈ getSubscriptions w' u ->
       x ∈ getSubscriptions w u \/ c = Subscribe u x.
Proof.
  intros Hwf. destruct c as [u0 s|u0 e|u0|u0 p|u0 p]; simpl; unfold bind, ret.
  - (* subscribeUser *)
    destruct (Map_get u0 (subscriptions w)) as [r|] eqn:Hget.
    + pose proof (wf_get _ _ _ Hwf Hget) as Hr.
      destruct (decide (Exists (fun x => endpoint x = endpoint s) (array w r)))
        as [Hex|Hnex].
      * rewrite (subscribeUser_present E u0 s w r Hget Hex).
        intros [= <- <-]. split; [done|]. intros u x Hx. by left.
      * rewrite (subscribeUser_fresh E u0 s w r Hget Hnex).
        intros [= <- <-]. split.
        { apply wf_after_save. destruct Hwf as [Ha Hk Hrf].
          split; simpl; [|done|done]. by rewrite length_insert. }
        intros u x. rewrite after_save_getSubscriptions.
        unfold getSubscriptions at 1. simpl.
        destruct (Map_get u (subscriptions w)) as [r'|] eqn:Hget';
          [|by intros ?%elem_of_nil].
        destruct (decide (r' = r)) as [->|Hne].
        -- assert (u = u0) as ->.
           { eapply (NoDup_snd_inj (subscriptions w));
               [apply Hwf | by apply Map_get_elem_of_key..]. }
           rewrite (array_insert w _ r (array w r ++ [s])) by done.
           intros Hx. apply elem_of_app in Hx as [Hx|Hx].
           ++ left. unfold getSubscriptions. by rewrite Hget.
           ++ apply list_elem_of_singleton in Hx as ->. by right.
        -- unfold array at 1. simpl. rewrite list_lookup_insert_ne by done.
           intros Hx. left. unfold getSubscriptions. by rewrite Hget'.
    + rewrite (subscribeUser_new E u0 s w Hget). intros [= <- <-]. split.
      { apply wf_after_save. by apply (wf_Map_set_new w _ u0 [s]). }
      intros u x. rewrite after_save_getSubscriptions.
      destruct (Key_eqb u u0) eqn:Hk;
        [apply Key_eqb_eq in Hk as -> | apply Key_eqb_neq in Hk].
      * unfold getSubscriptions at 1. simpl. rewrite Map_get_set_eq.
        rewrite (array_app_new w _ [s]) by reflexivity.
        intros Hx. apply list_elem_of_singleton in Hx as ->. by right.
      * rewrite (getSubscriptions_others u0 u w); [by left|done|by eexists|].
        simpl. apply Map_get_set_ne. congruence.
  - (* unsubscribeUser *)
    destruct (unsubscribeUser_prune E u0 e w) as (b & w1 & Heq & Hgs & _ & Hf).
    rewrite Heq. intros [= <- <-]. split; [by apply (frame_wf u0 w w1)|].
    intros u x Hx. left.
    destruct (Key_eqb u u0) eqn:Hk;
      [apply Key_eqb_eq in Hk as -> | apply Key_eqb_neq in Hk].
    + rewrite Hgs in Hx. by apply list_elem_of_filter in Hx as [_ Hx].
    + by rewrite (dispatch_frame_others u0 u w w1) in Hx.
  - (* unsubscribeAll *)
    destruct (Map_get u0 (subscriptions w)) as [r|] eqn:Hget.
    + rewrite (unsubscribeAll_known E u0 w r Hget). intros [= <- <-]. split.
      { apply wf_after_save. apply (wf_sublist w); [done| |done].
        apply Map_delete_sublist. }
      intros u x. rewrite after_save_getSubscriptions.
      unfold getSubscriptions at 1. simpl.
      destruct (Key_eqb u u0) eqn:Hk;
        [apply Key_eqb_eq in Hk as -> | apply Key_eqb_neq in Hk].
      * rewrite Map_get_delete_eq by apply Hwf. by intros ?%elem_of_nil.
      * rewrite Map_get_delete_ne by congruence. intros Hx. by left.
    + rewrite (unsubscribeAll_unknown E u0 w Hget). intros [= <- <-].
      split; [done|]. intros u x Hx. by left.
  - (* sendNotification *)
    destruct (sendNotification E fuel u0 p w) as [sres w1] eqn:Hsend.
    destruct (sendNotification_sublist fuel u0 p w sres w1 Hsend)
      as (Hsub & Hf & _).
    intros Heq. assert (w' = w1) as -> by (destruct sres; by injection Heq).
    split; [by apply (frame_wf u0 w w1)|].
    intros u x Hx. left.
    destruct (Key_eqb u u0) eqn:Hk;
      [apply Key_eqb_eq in Hk as -> | apply Key_eqb_neq in Hk].
    + by eapply elem_of_sublist.
    + by rewrite (dispatch_frame_others u0 u w w1) in Hx.
  - (* sendNotificationToUser *)
    intros Heq.
    destruct (sendNotificationToUser_sublist fuel u0 p w res w' Heq)
      as (Hsub & Hext & Ho & Hw).
    split; [by apply Hw|].
    intros u x Hx. left.
    destruct (Key_eqb u u0) eqn:Hk;
      [apply Key_eqb_eq in Hk as -> | apply Key_eqb_neq in Hk].
    + by eapply elem_of_sublist.
    + rewrite (getSubscriptions_others u0 u w w') in Hx; auto.
Qed.

(** Once an endpoint is out of a user's list it stays out through any
    further calls, as long as none of them subscribes it for that user
    again. *)
Lemma absent_stays_absent (fuel : nat) (u : Key) (e : string) (cs : list Call) :
  forall (w : World) (res : Res unit) (w' : World),
    wf w ->
    e ∉ endpoint <$> getSubscriptions w u ->
    (forall s, Subscribe u s ∈ cs -> endpoint s <> e) ->
    run_calls E fuel cs w = (res, w') ->
    e ∉ endpoint <$> getSubscriptions w' u.
Proof.
  induction cs as [|c cs IH]; intros w res w' Hwf Habs Hcs; simpl.
  - by intros [= <- <-].
  - unfold bind. destruct (run_call E fuel c w) as [r1 w1] eqn:H1.
    destruct (run_call_elem_of fuel c w r1 w1 Hwf H1) as [Hwf1 Hel].
    assert (e ∉ endpoint <$> getSubscriptions w1 u) as Habs1.
    { intros Hin. apply list_elem_of_fmap in Hin as (x & -> & Hx).
      destruct (Hel u x Hx) as [Hold| ->].
      - apply Habs. apply list_elem_of_fmap. by exists x.
      - by apply (Hcs x); [apply list_elem_of_here|]. }
    destruct r1 as [[]|err|].
    + apply IH; [done|done|].
      intros s Hs. apply Hcs. by apply list_elem_of_further.
    + by intros [= <- <-].
    + by intros [= <- <-].
Qed.

(** Every state the calls lead to is well formed. *)
Lemma run_calls_wf (fuel : nat) (cs : list Call) :
  forall (w : World) (res : Res unit) (w' : World),
    wf w -> run_calls E fuel cs w = (res, w') -> wf w'.
Proof.
  induction cs as [|c cs IH]; intros w res w' Hwf; simpl.
  - by intros [= <- <-].
  - unfold bind. destruct (run_call E fuel c w) as [r1 w1] eqn:H1.
    destruct (run_call_elem_of fuel c w r1 w1 Hwf H1) as [Hwf1 _].
    destruct r1 as [[]|err|]; [by apply IH | by intros [= <- <-]..].
Qed.
End LaterCalls.

(** ** Fan-out *)

(** C1. A call of [sendNotification] for a user with K subscriptions makes
    exactly K delivery attempts, one for each subscription the user had when
    the call began and in that order, whether or not an endpoint is pruned on
    the way; the counters add up to K, and both are 0 when there is nothing
    registered. The service itself knows no quiet hours; through
    [sendNotificationToUser] the same K attempts are made whenever the gate
    answers that the user is not in quiet hours. *)
Theorem sendNotification_attempts (E : Env) (fuel : nat) (u : Key)
    (p : Notification) (w : World) :
  (length (getSubscriptions w u) < fuel)%nat ->
  (exists res w',
     sendNotification E fuel u p w = (Ok res, w')
     /\ pushed w' = pushed w ++ ((fun s => (s, p)) <$> getSubscriptions w u)
     /\ length (pushed w') = (length (pushed w) + length (getSubscriptions w u))%nat
     /\ (sent res + failed res = length (getSubscriptions w u))%nat
     /\ (getSubscriptions w u = [] -> sent res = 0%nat /\ failed res = 0%nat))
  /\ ((quiet_hours_gate u w).1 = Ok false ->
      exists w',
        sendNotificationToUser E fuel u p w = (Ok tt, w')
        /\ pushed w' = pushed w ++ ((fun s => (s, p)) <$> getSubscriptions w u)).
Proof.
  intros Hfuel.
  destruct (sendNotification_total E fuel u p w Hfuel)
    as (res & w' & Heq & Hp & Hc & _ & _).
  split.
  - exists res, w'. split; [done|]. split; [done|].
    split; [by rewrite Hp, length_app, length_fmap|]. split; [done|].
    intros Hnil. rewrite Hnil in Hc. simpl in Hc. lia.
  - intros Hgate.
    destruct (sendNotificationToUser_open E fuel u p w Hgate Hfuel)
      as (res0 & w1 & w2 & Hsend & Hlog & Hto).
    rewrite Heq in Hsend. injection Hsend as <- <-.
    destruct (logNotification_spec E u p (toISOString (now w')) res w')
      as (w3 & Hlog3 & Hp3 & _).
    rewrite Hlog in Hlog3. injection Hlog3 as <-.
    exists w2. split; [done|]. by rewrite Hp3.
Qed.

(** ** Pruning *)

Lemma gone_endpoints_elem (E : Env) (p : Notification) (subs : list Subscription) :
  forall (n : nat) (e : string),
    e ∈ gone_endpoints E p n subs <->
    exists i s, subs !! i = Some s /\ endpoint s = e
                /\ is_gone (webpush_sendNotification E (n + i) s p) = true.
Proof.
  induction subs as [|x subs IH]; intros n e; simpl.
  - split; [by intros ?%elem_of_nil|]. by intros (i & s & ? & _).
  - rewrite elem_of_app, IH. split.
    + intros [Hx|(i & s & Hi & He & Hg)].
      * destruct (is_gone (webpush_sendNotification E n x p)) eqn:Hgx;
          [|by apply elem_of_nil in Hx].
        apply list_elem_of_singleton in Hx as ->.
        exists 0%nat, x. by rewrite Nat.add_0_r.
      * exists (S i), s. by rewrite Nat.add_succ_r.
    + intros ([|i] & s & Hi & He & Hg); simpl in Hi.
      * injection Hi as ->. rewrite Nat.add_0_r in Hg. rewrite Hg.
        left. subst e. apply list_elem_of_here.
      * right. exists i, s. by rewrite Nat.add_succ_r in Hg.
Qed.

(** C4. When the attempt to an endpoint of [u] is answered "gone" (status
    410), the endpoint is out of [u]'s list before the loop goes on, and it is
    not in the list the call leaves: that list is the one the call found,
    less the endpoints answered "gone", in the same order. It stays out
    through every later call on the registry until someone subscribes it for
    [u] again. The lists of all other users are what they were. *)
Theorem pruning_invariant (E : Env) (fuel : nat) (u : Key) (p : Notification)
    (w : World) :
  wf w ->
  (length (getSubscriptions w u) < fuel)%nat ->
  (forall (x : Subscription) (acc : SendResult),
     is_gone (webpush_sendNotification E (length (pushed w)) x p) = true ->
     let w1 := (send_one E u p x acc w).2 in
     (endpoint x ∉ endpoint <$> getSubscriptions w1 u)
     /\ getSubscriptions w1 u = without (endpoint x) (getSubscriptions w u)
     /\ (forall u', u' <> u -> getSubscriptions w1 u' = getSubscriptions w u'))
  /\ exists res w',
       sendNotification E fuel u p w = (Ok res, w')
       /\ (forall (i : nat) (s : Subscription),
             getSubscriptions w u !! i = Some s ->
             is_gone (webpush_sendNotification E (length (pushed w) + i) s p) = true ->
             (endpoint s ∉ endpoint <$> getSubscriptions w' u)
             /\ forall (later : list Call) (fuel' : nat) (res' : Res unit)
                  (w'' : World),
                  (forall s', Subscribe u s' ∈ later -> endpoint s' <> endpoint s) ->
                  run_calls E fuel' later w' = (res', w'') ->
                  endpoint s ∉ endpoint <$> getSubscriptions w'' u)
       /\ getSubscriptions w' u =
            filter (fun s => endpoint s ∉
                      gone_endpoints E p (length (pushed w)) (getSubscriptions w u))
                   (getSubscriptions w u)
       /\ (forall u', u' <> u -> getSubscriptions w' u' = getSubscriptions w u')
       /\ wf w'.
Proof.
  intros Hwf Hfuel. split.
  - intros x acc Hgone w1. subst w1.
    destruct (send_one_spec E u p x acc w) as (acc' & w' & Heq & _ & _ & Hg & Hf).
    rewrite Heq. simpl. rewrite Hgone in Hg. split; [|split; [done|]].
    + rewrite Hg. intros Hin. apply list_elem_of_fmap in Hin as (y & Hy & Hin).
      apply list_elem_of_filter in Hin as [Hne _]. congruence.
    + intros u' Hne. by apply (dispatch_frame_others u).
  - destruct (sendNotification_total E fuel u p w Hfuel)
      as (res & w' & Heq & _ & _ & Hg & Hf).
    pose proof (frame_wf u w w' Hf Hwf) as Hwf'.
    exists res, w'. split; [done|]. split; [|split; [done|split]].
    + intros i s Hi Hgone.
      assert (endpoint s ∉ endpoint <$> getSubscriptions w' u) as Habs.
      { intros Hin. rewrite Hg in Hin.
        apply list_elem_of_fmap in Hin as (y & Hy & Hin).
        apply list_elem_of_filter in Hin as [Hnot _]. apply Hnot.
        apply gone_endpoints_elem. by exists i, s. }
      split; [done|]. intros later fuel' res' w'' Hlater Hrun.
      by apply (absent_stays_absent E fuel' u (endpoint s) later w' res' w'').
    + intros u' Hne. by apply (dispatch_frame_others u).
    + done.
Qed.

(** ** Dispatch to one user, to many *)

Section DispatchToUser.
Variable E : Env.

(** A dispatch to [u] returns, keeps the registry well formed and makes no
    user's list longer. *)
Lemma sendNotificationToUser_shrinks (fuel : nat) (u : Key) (p : Notification)
    (w : World) :
  wf w ->
  (length (getSubscriptions w u) < fuel)%nat ->
  exists w',
    sendNotificationToUser E fuel u p w = (Ok tt, w')
    /\ wf w'
    /\ forall u', (length (getSubscriptions w' u')
                   <= length (getSubscriptions w u'))%nat.
Proof.
  intros Hwf Hfuel. pose proof (quiet_hours_gate_state u w) as [_ Hnf].
  destruct (quiet_hours_gate u w).1 as [[|]|err|] eqn:Hg.
  - eexists. split; [by apply sendNotificationToUser_quiet|].
    split; [by apply (wf_mem_eq w)|]. intros u'.
    by rewrite (getSubscriptions_mem_eq _ w).
  - destruct (sendNotificationToUser_open E fuel u p w Hg Hfuel)
      as (res & w1 & w' & Hsend & Hlog & Heq).
    exists w'. split; [done|].
    destruct (sendNotification_total E fuel u p w Hfuel)
      as (res0 & w0 & Hsend0 & _ & _ & Hgs & Hf).
    rewrite Hsend in Hsend0. injection Hsend0 as <- <-.
    destruct (logNotification_spec E u p (toISOString (now w1)) res w1)
      as (w2 & Hlog2 & _ & Hh & Hs & _).
    rewrite Hlog in Hlog2. injection Hlog2 as <-.
    split.
    + apply (wf_mem_eq w1); [done|done|]. by apply (frame_wf u w w1).
    + intros u'. rewrite (getSubscriptions_mem_eq w' w1) by done.
      destruct (Key_eqb u' u) eqn:Hk;
        [apply Key_eqb_eq in Hk as -> | apply Key_eqb_neq in Hk].
      * rewrite Hgs. apply length_filter.
      * by rewrite (dispatch_frame_others u u' w w1).
  - eexists. split; [by apply sendNotificationToUser_gate_throws|].
    split; [by apply (wf_mem_eq w)|]. intros u'.
    by rewrite (getSubscriptions_mem_eq _ w).
  - done.
Qed.

(** [sendBulkNotification] counts every user as sent: the [catch] of its
    loop is never entered. *)
Lemma sendBulk_loop_counts (fuel : nat) (p : Notification) (userIds : list Key) :
  forall (results : Bulk.t) (w : World),
    wf w ->
    (forall u, u ∈ userIds -> (length (getSubscriptions w u) < fuel)%nat) ->
    exists w',
      sendBulk_loop E fuel userIds p results w =
        (Ok {| Bulk.total := Bulk.total results;
               Bulk.sent := (Bulk.sent results + length userIds)%nat;
               Bulk.failed := Bulk.failed results;
               Bulk.errors := Bulk.errors results |}, w').
Proof.
  induction userIds as [|u rest IH]; intros results w Hwf Hfuel; simpl.
  - exists w. unfold ret. destruct results. simpl. by rewrite Nat.add_0_r.
  - destruct (sendNotificationToUser_shrinks fuel u p w Hwf)
      as (w1 & Heq & Hwf1 & Hlen).
    { apply Hfuel. apply list_elem_of_here. }
    unfold bind, try_catch. rewrite Heq. unfold ret. simpl.
    destruct (IH {| Bulk.total := Bulk.total results;
                    Bulk.sent := S (Bulk.sent results);
                    Bulk.failed := Bulk.failed results;
                    Bulk.errors := Bulk.errors results |} w1 Hwf1)
      as (w' & Heq').
    { intros u' Hu'. specialize (Hlen u').
      specialize (Hfuel u' (list_elem_of_further _ _ _ Hu')). lia. }
    exists w'. rewrite Heq'. simpl. do 3 f_equal. lia.
Qed.

Lemma sendBulkNotification_counts (fuel : nat) (p : Notification)
    (userIds : list Key) (w : World) :
  wf w ->
  (forall u, u ∈ userIds -> (length (getSubscriptions w u) < fuel)%nat) ->
  exists w',
    sendBulkNotification E fuel userIds p w =
      (Ok {| Bulk.total := length userIds; Bulk.sent := length userIds;
             Bulk.failed := 0; Bulk.errors := [] |}, w').
Proof.
  intros Hwf Hfuel. unfold sendBulkNotification.
  destruct (sendBulk_loop_counts fuel p userIds
              {| Bulk.total := length userIds; Bulk.sent := 0;
                 Bulk.failed := 0; Bulk.errors := [] |} w Hwf Hfuel)
    as (w' & Heq).
  exists w'. by rewrite Heq.
Qed.
End DispatchToUser.

(** C10. [sendCustomNotification] answers [{success: true, message:
    'Notification sent'}] for every user, payload and state, whatever the
    push service and the file system do: [sendNotificationToUser] returns
    normally in every case, so the [catch] that builds [{success: false}] is
    never entered. *)
Theorem sendCustomNotification_always_succeeds (E : Env) (fuel : nat) (u : Key)
    (p : Notification) (w : World) :
  (length (getSubscriptions w u) < fuel)%nat ->
  (exists w', sendNotificationToUser E fuel u p w = (Ok tt, w'))
  /\ exists w',
       sendCustomNotification E fuel u p w =
         (Ok {| Custom.success := true;
                Custom.message := Some "Notification sent";
                Custom.error := None |}, w').
Proof.
  intros Hfuel.
  destruct (sendNotificationToUser_returns E fuel u p w Hfuel) as [w' Heq].
  split; [by exists w'|]. exists w'.
  unfold sendCustomNotification, try_catch, bind. by rewrite Heq.
Qed.

(** C3, as the code has it. When the gate is active for the user, the
    dispatch makes no delivery attempt and returns after a line on the
    console: nothing is appended to the notification log, no file is written,
    the registry is untouched. *)
Theorem quiet_hours_skip (E : Env) (fuel : nat) (u : Key) (p : Notification)
    (w : World) (user : User) (prefs : Preferences) (qh : QuietHours) :
  List.find (fun item => Key_eqb (user_id item) u) (users_file w) = Some user ->
  notificationPreferences user = Some prefs ->
  quietHours prefs = Some qh ->
  (isInQuietHours (Some qh) w).1 = Ok true ->
  exists w',
    sendNotificationToUser E fuel u p w = (Ok tt, w')
    /\ pushed w' = pushed w
    /\ notification_logs w' = notification_logs w
    /\ writes w' = writes w
    /\ memory w' = memory w
    /\ console w' =
         console w ++ [Log ("Skipping notification for user " +:+ Key_toString u
                            +:+ " during quiet hours")].
Proof.
  intros Hfind Hprefs Hqh Hquiet.
  assert ((quiet_hours_gate u w).1 = Ok true) as Hg.
  { unfold quiet_hours_gate, bind, db_findOne_user, gets.
    by rewrite Hfind, Hprefs, Hqh. }
  eexists. split; [by apply sendNotificationToUser_quiet|]. done.
Qed.

(** ** The quiet-hours predicate *)

Lemma timeToMinutes_eq (t : TimeVal) (w : World) (x : JsNumber) :
  (timeToMinutes t w).1 = Ok x -> timeToMinutes t w = (Ok x, w).
Proof.
  intros H. pose proof (timeToMinutes_state t w) as Hw.
  destruct (timeToMinutes t w) as [r w0]. simpl in *. by subst.
Qed.

Lemma isInQuietHours_missing (w : World) (qh : QuietHours) :
  truthy (start qh) = false \/ truthy (end_ qh) = false ->
  isInQuietHours (Some qh) w = (Ok false, w).
Proof.
  intros [H|H]; unfold isInQuietHours; rewrite H; simpl; [done|].
  by rewrite orb_true_r.
Qed.

Lemma isInQuietHours_bounds (w : World) (qh : QuietHours) (s e : Q) :
  truthy (start qh) = true ->
  truthy (end_ qh) = true ->
  (timeToMinutes (start qh) w).1 = Ok (Fin s) ->
  (timeToMinutes (end_ qh) w).1 = Ok (Fin e) ->
  let T := (inject_Z (getHours (now w)) * 60 + inject_Z (getMinutes (now w)))%Q in
  isInQuietHours (Some qh) w =
    (Ok (if Qle_bool s e
         then Qle_bool s T && Qle_bool T e
         else Qle_bool s T || Qle_bool T e), w).
Proof.
  intros Hs He Hts Hte T. unfold isInQuietHours. rewrite Hs, He. simpl.
  unfold bind, gets.
  rewrite (timeToMinutes_eq _ _ _ Hts), (timeToMinutes_eq _ _ _ Hte). simpl.
  by destruct (Qle_bool s e).
Qed.

(** C2. With both bounds present and converted to minutes [s] and [e], and
    [T] the minutes of the current time of day: when [s <= e] the predicate
    holds exactly for [s <= T <= e]; when [s > e] it holds exactly for
    [T >= s] or [T <= e]; without a window, or with a bound missing, it is
    false. For 22:00-07:00 it is true at 23:30 and false at 12:00; for
    08:00-20:00 it is false at 21:00. *)
Theorem isInQuietHours_window (w : World) :
  (forall (qh : QuietHours) (s e : Q),
     truthy (start qh) = true ->
     truthy (end_ qh) = true ->
     (timeToMinutes (start qh) w).1 = Ok (Fin s) ->
     (timeToMinutes (end_ qh) w).1 = Ok (Fin e) ->
     let T := (inject_Z (getHours (now w)) * 60
               + inject_Z (getMinutes (now w)))%Q in
     exists answer,
       isInQuietHours (Some qh) w = (Ok answer, w)
       /\ ((s <= e)%Q -> (answer = true <-> (s <= T)%Q /\ (T <= e)%Q))
       /\ ((e < s)%Q -> (answer = true <-> (s <= T)%Q \/ (T <= e)%Q)))
  /\ isInQuietHours None w = (Ok false, w)
  /\ (forall qh : QuietHours,
        truthy (start qh) = false \/ truthy (end_ qh) = false ->
        isInQuietHours (Some qh) w = (Ok false, w))
  /\ (getHours (now w) = 23 -> getMinutes (now w) = 30 ->
      isInQuietHours (Some {| start := TStr "22:00"; end_ := TStr "07:00" |}) w
      = (Ok true, w))
  /\ (getHours (now w) = 12 -> getMinutes (now w) = 0 ->
      isInQuietHours (Some {| start := TStr "22:00"; end_ := TStr "07:00" |}) w
      = (Ok false, w))
  /\ (getHours (now w) = 21 -> getMinutes (now w) = 0 ->
      isInQuietHours (Some {| start := TStr "08:00"; end_ := TStr "20:00" |}) w
      = (Ok false, w)).
Proof.
  split; [|split; [|split; [|split; [|split]]]].
  - intros qh s e Hs He Hts Hte T.
    rewrite (isInQuietHours_bounds w qh s e Hs He Hts Hte). fold T.
    eexists. split; [done|].
    destruct (Qle_bool s e) eqn:Hse.
    + apply Qle_bool_iff in Hse. split.
      * intros _. by rewrite andb_true_iff, !Qle_bool_iff.
      * intros Hlt. by apply Qlt_not_le in Hlt.
    + assert (~ (s <= e)%Q) as Hnle
        by (rewrite <- Qle_bool_iff; congruence).
      split; [done|]. intros _. by rewrite orb_true_iff, !Qle_bool_iff.
  - done.
  - apply isInQuietHours_missing.
  - intros Hh Hm.
    rewrite (isInQuietHours_bounds w _ 1320 420) by done. by rewrite Hh, Hm.
  - intros Hh Hm.
    rewrite (isInQuietHours_bounds w _ 1320 420) by done. by rewrite Hh, Hm.
  - intros Hh Hm.
    rewrite (isInQuietHours_bounds w _ 480 1200) by done. by rewrite Hh, Hm.
Qed.

(** ** Calorie tiers *)

Lemma Math_round_nearest (q : Q) :
  exists z : Z,
    Math_round (Fin q) = Fin (inject_Z z)
    /\ (inject_Z z - (1 # 2) <= q)%Q /\ (q < inject_Z z + (1 # 2))%Q.
Proof.
  exists (Qfloor (q + (1 # 2))). split; [done|].
  pose proof (Qfloor_le (q + (1 # 2))) as Hle.
  pose proof (Qlt_floor (q + (1 # 2))) as Hlt.
  rewrite inject_Z_plus in Hlt. change (inject_Z 1) with 1%Q in Hlt.
  split; lra.
Qed.

Section CalorieFacts.
Variables ieee_div ieee_mul : JsNumber -> JsNumber -> JsNumber.
Variable Number_toString_other : Q -> string.

Let notification := calorieNotification ieee_div ieee_mul Number_toString_other.

Lemma calorie_title (c g : JsNumber) (pct : option JsNumber) (d : Date) :
  title (notification c g pct d) =
    let r := Math_round (percentageCalc ieee_div ieee_mul c g pct) in
    if js_ge r (Fin 100) then "Goal Achieved! 🎯"
    else if js_ge r (Fin 75) then "Almost There! ⚡"
    else if js_ge r (Fin 50) then "Halfway There! 📊"
    else "Calorie Update 📈".
Proof.
  unfold notification, calorieNotification. cbv zeta.
  destruct (js_ge _ (Fin 100)); [done|].
  destruct (js_ge _ (Fin 75)); [done|].
  by destruct (js_ge _ (Fin 50)).
Qed.
End CalorieFacts.

Lemma js_ge_inject_Z (z k : Z) :
  js_ge (Fin (inject_Z z)) (Fin (inject_Z k)) = (k <=? z).
Proof.
  unfold js_ge, js_le. destruct (k <=? z) eqn:Hk.
  - apply Qle_bool_iff. rewrite <- Zle_Qle. lia.
  - destruct (Qle_bool (inject_Z k) (inject_Z z)) eqn:Hq; [|done].
    apply Qle_bool_iff in Hq. rewrite <- Zle_Qle in Hq. lia.
Qed.

(** The handler answers 200 with the notification it built whenever the
    three required fields are present and truthy. *)
Lemma sendCalorieAchievement_sends (E : Env)
    (ieee_div ieee_mul : JsNumber -> JsNumber -> JsNumber)
    (Number_toString_other : Q -> string) (fuel : nat) (req : CalorieReq.t)
    (u : Key) (c g : JsNumber) (w : World) :
  CalorieReq.userId req = Some u ->
  CalorieReq.caloriesConsumed req = Some c ->
  CalorieReq.calorieGoal req = Some g ->
  truthy_key u = true -> truthy_number c = true -> truthy_number g = true ->
  (length (getSubscriptions w u) < fuel)%nat ->
  exists w',
    sendCalorieAchievement E ieee_div ieee_mul Number_toString_other fuel req w =
      (Ok {| status := 200;
             json := SentBody "Calorie achievement notification sent" u
                       (calorieNotification ieee_div ieee_mul Number_toString_other
                          c g (CalorieReq.percentage req) (now w))
                       "success" |}, w').
Proof.
  intros Hu Hc Hg Htu Htc Htg Hfuel.
  unfold sendCalorieAchievement, try_catch, bind, gets.
  rewrite Hu, Hc, Hg, Htu, Htc, Htg. simpl.
  destruct (sendNotificationToUser_returns E fuel u
              (calorieNotification ieee_div ieee_mul Number_toString_other
                 c g (CalorieReq.percentage req) (now w)) w Hfuel) as [w' Heq].
  exists w'. unfold sendCustomNotification, try_catch, bind. by rewrite Heq.
Qed.

(** C7. The percentage is rounded to the nearest integer [z] first (a tie
    goes up), and the title follows from [z] alone: 100 or more is "Goal
    Achieved", 75 to 99 "Almost There", 50 to 74 "Halfway There", anything
    else, [NaN] included, the generic update. So 100 gives "Goal Achieved",
    74.9 rounds to 75 and gives "Almost There", and 49 gives the generic
    update. With its three required fields present the handler answers with
    that notification. *)
Theorem calorie_tiering (E : Env)
    (ieee_div ieee_mul : JsNumber -> JsNumber -> JsNumber)
    (Number_toString_other : Q -> string)
    (c g : JsNumber) (pct : option JsNumber) (d : Date) :
  let notification :=
    calorieNotification ieee_div ieee_mul Number_toString_other in
  let r := Math_round (percentageCalc ieee_div ieee_mul c g pct) in
  (forall q : Q,
     percentageCalc ieee_div ieee_mul c g pct = Fin q ->
     exists z : Z,
       r = Fin (inject_Z z)
       /\ (inject_Z z - (1 # 2) <= q)%Q /\ (q < inject_Z z + (1 # 2))%Q)
  /\ (forall z : Z,
        r = Fin (inject_Z z) ->
        (100 <= z -> title (notification c g pct d) = "Goal Achieved! 🎯")
        /\ (75 <= z < 100 -> title (notification c g pct d) = "Almost There! ⚡")
        /\ (50 <= z < 75 -> title (notification c g pct d) = "Halfway There! 📊")
        /\ (z < 50 -> title (notification c g pct d) = "Calorie Update 📈"))
  /\ (r = NaN -> title (notification c g pct d) = "Calorie Update 📈")
  /\ title (notification c g (Some (Fin 100)) d) = "Goal Achieved! 🎯"
  /\ Math_round (Fin (749 # 10)) = Fin 75
  /\ title (notification c g (Some (Fin (749 # 10))) d) = "Almost There! ⚡"
  /\ title (notification c g (Some (Fin 49)) d) = "Calorie Update 📈"
  /\ (forall (fuel : nat) (req : CalorieReq.t) (u : Key) (w : World),
        CalorieReq.userId req = Some u ->
        CalorieReq.caloriesConsumed req = Some c ->
        CalorieReq.calorieGoal req = Some g ->
        CalorieReq.percentage req = pct ->
        truthy_key u = true -> truthy_number c = true -> truthy_number g = true ->
        (length (getSubscriptions w u) < fuel)%nat ->
        exists w',
          sendCalorieAchievement E ieee_div ieee_mul Number_toString_other
            fuel req w =
            (Ok {| status := 200;
                   json := SentBody "Calorie achievement notification sent" u
                             (notification c g pct (now w)) "success" |}, w')).
Proof.
  intros notification r. subst notification.
  split; [|split; [|split; [|split; [|split; [|split; [|split]]]]]].
  - intros q Hq. subst r. rewrite Hq. apply Math_round_nearest.
  - intros z Hz. rewrite calorie_title. cbv zeta. fold r. rewrite Hz.
    change (Fin 100) with (Fin (inject_Z 100)).
    change (Fin 75) with (Fin (inject_Z 75)).
    change (Fin 50) with (Fin (inject_Z 50)).
    rewrite !js_ge_inject_Z.
    destruct (100 <=? z) eqn:H100; destruct (75 <=? z) eqn:H75;
      destruct (50 <=? z) eqn:H50; repeat split; intros; try done; lia.
  - intros Hr. rewrite calorie_title. cbv zeta. fold r. by rewrite Hr.
  - by rewrite calorie_title.
  - done.
  - by rewrite calorie_title.
  - by rewrite calorie_title.
  - intros fuel req u w Hu Hc Hg Hp Htu Htc Htg Hfuel. subst pct.
    by apply sendCalorieAchievement_sends.
Qed.

(** ** The snapshot across a restart *)

(** What the snapshot holds under a property name. *)
Lemma Object_fromEntries_lookup (w : World) :
  NoDup (Key_toString <$> (subscriptions w).*1) ->
  (forall k r, (k, r) ∈ subscriptions w ->
     Object_fromEntries w !! Key_toString k = Some (array w r))
  /\ (forall s, s ∉ Key_toString <$> (subscriptions w).*1 ->
        Object_fromEntries w !! s = None).
Proof.
  unfold Object_fromEntries.
  assert (forall (m : list (Key * Ref)) (o : gmap string (list Subscription)),
    (forall s, s ∉ Key_toString <$> m.*1 ->
       fold_left (fun o kr => <[Key_toString kr.1 := array w kr.2]> o) m o !! s
       = o !! s)
    /\ (NoDup (Key_toString <$> m.*1) ->
        forall k r, (k, r) ∈ m ->
          fold_left (fun o kr => <[Key_toString kr.1 := array w kr.2]> o) m o
            !! Key_toString k = Some (array w r))) as Hfold.
  { induction m as [|[k0 r0] m IH]; intros o; simpl.
    - split; [done|]. intros _ k r Hin. by apply elem_of_nil in Hin.
    - destruct (IH (<[Key_toString k0 := array w r0]> o)) as [IH1 IH2].
      split.
      + intros s Hs. apply not_elem_of_cons in Hs as [Hne Hs].
        rewrite IH1 by done. by rewrite lookup_insert_ne.
      + intros Hnd k r Hin. apply NoDup_cons in Hnd as [Hk0 Hnd].
        apply elem_of_cons in Hin as [[= -> ->]|Hin].
        * rewrite IH1 by done. by rewrite lookup_insert_eq.
        * by apply IH2. }
  intros Hnd. destruct (Hfold (subscriptions w) ∅) as [H1 H2]. split.
  - by apply H2.
  - intros s Hs. by rewrite H1.
Qed.

(** Rebuilding the map from the parsed file. *)
Lemma Map_of_entries_spec (entries : list (string * list Subscription)) :
  forall (m : list (Key * Ref)) (w : World),
    NoDup entries.*1 ->
    exists m' w',
      Map_of_entries entries m w = (Ok m', w')
      /\ heap w' = heap w ++ entries.*2
      /\ (forall s subs, (s, subs) ∈ entries ->
            exists r, Map_get (KStr s) m' = Some r
                      /\ (heap w ++ entries.*2) !! r = Some subs)
      /\ (forall k, k ∉ KStr <$> entries.*1 -> Map_get k m' = Map_get k m).
Proof.
  induction entries as [|[k0 s0] rest IH]; intros m w Hnd; simpl.
  - exists m, w. unfold ret. rewrite app_nil_r. split; [done|]. split; [done|].
    split; [|done]. intros s subs Hin. by apply elem_of_nil in Hin.
  - apply NoDup_cons in Hnd as [Hk0 Hnd].
    unfold bind, new_array.
    destruct (IH (Map_set (KStr k0) (length (heap w)) m)
                 (set_heap (heap w ++ [s0]) w) Hnd)
      as (m' & w' & Heq & Hh & Hin & Hout).
    simpl in Hh, Hin. exists m', w'. split; [done|].
    rewrite <- app_assoc in Hh. simpl in Hh. split; [done|]. split.
    + intros s subs Hs. apply elem_of_cons in Hs as [[= -> ->]|Hs].
      * exists (length (heap w)). split.
        -- rewrite Hout; [apply Map_get_set_eq|].
           intros Hx. apply list_elem_of_fmap in Hx as (y & [= ->] & Hy). done.
        -- rewrite lookup_app_r by lia. by rewrite Nat.sub_diag.
      * destruct (Hin s subs Hs) as (r & Hr & Harr). exists r. split; [done|].
        by rewrite <- app_assoc in Harr.
    + intros k Hk. apply not_elem_of_cons in Hk as [Hne Hk].
      rewrite Hout by done. apply Map_get_set_ne. congruence.
Qed.

(** After a successful save and a restart, the registry answers to the
    spelling of each old key: what was under the string ["7"] is under
    ["7"] again, what was under the number [7] is now under ["7"] too, and
    no number is a key any more. *)
Lemma snapshot_roundtrip (E : Env) (w : World) :
  NoDup (Key_toString <$> (subscriptions w).*1) ->
  fs_writeFile E (writes w) = None ->
  let w' := (loadSubscriptions (restart (saveSubscriptions E w).2)).2 in
  (forall k r, Map_get k (subscriptions w) = Some r ->
     getSubscriptions w' (KStr (Key_toString k)) = getSubscriptions w k)
  /\ (forall s, s ∉ Key_toString <$> (subscriptions w).*1 ->
        getSubscriptions w' (KStr s) = [])
  /\ (forall n, getSubscriptions w' (KNum n) = []).
Proof.
  intros Hnd Hok w'. subst w'.
  rewrite saveSubscriptions_eq. simpl. unfold after_save. rewrite Hok.
  destruct (Object_fromEntries_lookup w Hnd) as [Hin Hout].
  set (f := Object_fromEntries w) in *.
  unfold loadSubscriptions, try_catch, bind, readFile_subscriptions. simpl.
  match goal with
  | |- context [Map_of_entries (map_to_list f) [] ?w0] =>
      destruct (Map_of_entries_spec (map_to_list f) [] w0
                  (NoDup_fst_map_to_list f))
        as (m' & w1 & Heq & Hh & Hfound & Hmissing)
  end.
  rewrite Heq. simpl in Hh, Hfound. unfold modify, console_log. simpl.
  unfold getSubscriptions, array. simpl. rewrite Hh.
  split; [|split].
  - intros k r Hget. rewrite Hget.
    pose proof (Hin k r (Map_get_elem_of_key _ _ _ Hget)) as Hf.
    apply elem_of_map_to_list in Hf.
    destruct (Hfound _ _ Hf) as (r' & Hr' & Harr). by rewrite Hr', Harr.
  - intros s Hs. rewrite Hmissing; [done|].
    intros Hx. apply list_elem_of_fmap in Hx as (y & [= ->] & Hy).
    apply list_elem_of_fmap in Hy as ([y' subs] & -> & Hy). simpl in *.
    apply elem_of_map_to_list in Hy. rewrite (Hout _ Hs) in Hy. done.
  - intros n. rewrite Hmissing; [done|].
    intros Hx. by apply list_elem_of_fmap in Hx as (y & [=] & Hy).
Qed.

(** *** Well-formedness is there from the start *)

Lemma wf_empty (w : World) : subscriptions w = [] -> wf w.
Proof.
  intros Hs. split; rewrite Hs; simpl; [constructor | apply NoDup_nil_2..].
Qed.

Lemma Map_of_entries_wf (entries : list (string * list Subscription)) :
  forall (m : list (Key * Ref)) (w : World) (res : Res (list (Key * Ref)))
         (w' : World),
    wf (set_subscriptions m w) ->
    Map_of_entries entries m w = (res, w') ->
    exists m', res = Ok m' /\ wf (set_subscriptions m' w').
Proof.
  induction entries as [|[k0 s0] rest IH]; intros m w res w' Hwf; simpl.
  - intros [= <- <-]. by exists m.
  - unfold bind, new_array. apply IH.
    by apply (wf_Map_set_new (set_subscriptions m w) _ (KStr k0) s0).
Qed.

Lemma loadSubscriptions_wf (w : World) : wf (loadSubscriptions w).2.
Proof.
  unfold loadSubscriptions, try_catch, bind, readFile_subscriptions.
  destruct (subscriptions_file w) as [parsed|]; simpl; [|by apply wf_empty].
  destruct (Map_of_entries (map_to_list parsed) [] w) as [res w1] eqn:Heq.
  destruct (Map_of_entries_wf _ [] w res w1
              (wf_empty (set_subscriptions [] w) eq_refl) Heq)
    as (m' & -> & Hwf).
  unfold modify, console_log. simpl. by apply (wf_mem_eq (set_subscriptions m' w1)).
Qed.

(** ** Concrete instances *)

Lemma midday_wf : wf midday.
Proof.
  split; simpl.
  - repeat constructor; simpl; lia.
  - by apply (bool_decide_unpack _).
  - by apply (bool_decide_unpack _).
Qed.

(** User 1 has three devices; the laptop's endpoint is gone and the
    tablet's fails: three attempts all the same, one sent and two failed. *)
Lemma sendNotification_attempts_witness :
  (length (getSubscriptions midday (KNum 1)) < 4)%nat
  /\ (quiet_hours_gate (KNum 1) midday).1 = Ok false
  /\ (exists res w',
        sendNotification hostile 4 (KNum 1) reminder midday = (Ok res, w')
        /\ pushed w' = pushed midday
                       ++ ((fun s => (s, reminder)) <$> getSubscriptions midday (KNum 1))
        /\ length (pushed w')
           = (length (pushed midday) + length (getSubscriptions midday (KNum 1)))%nat
        /\ (sent res + failed res = length (getSubscriptions midday (KNum 1)))%nat
        /\ (getSubscriptions midday (KNum 1) = []
            -> sent res = 0%nat /\ failed res = 0%nat))
  /\ exists w',
       sendNotificationToUser hostile 4 (KNum 1) reminder midday = (Ok tt, w')
       /\ pushed w' = pushed midday
                      ++ ((fun s => (s, reminder)) <$> getSubscriptions midday (KNum 1)).
Proof.
  split; [simpl; lia|]. split; [reflexivity|].
  destruct (sendNotification_attempts hostile 4 (KNum 1) reminder midday)
    as [Hsend Hdispatch]; [simpl; lia|].
  split; [exact Hsend|]. by apply Hdispatch.
Defined.

Lemma pruning_invariant_witness :
  wf midday
  /\ (length (getSubscriptions midday (KNum 1)) < 4)%nat
  /\ is_gone (webpush_sendNotification hostile (length (pushed midday) + 1)
                laptop reminder) = true
  /\ exists res w',
       sendNotification hostile 4 (KNum 1) reminder midday = (Ok res, w')
       /\ (endpoint laptop ∉ endpoint <$> getSubscriptions w' (KNum 1))
       /\ getSubscriptions w' (KNum 1) =
            filter (fun s => endpoint s ∉
                      gone_endpoints hostile reminder (length (pushed midday))
                        (getSubscriptions midday (KNum 1)))
                   (getSubscriptions midday (KNum 1))
       /\ (forall u', u' <> KNum 1 ->
             getSubscriptions w' u' = getSubscriptions midday u')
       /\ wf w'.
Proof.
  split; [exact midday_wf|]. split; [simpl; lia|]. split; [reflexivity|].
  destruct (pruning_invariant hostile 4 (KNum 1) reminder midday midday_wf)
    as [_ (res & w' & Heq & Habs & Hg & Ho & Hwf)]; [simpl; lia|].
  exists res, w'. split; [done|].
  split; [by apply (Habs 1%nat laptop)|]. done.
Defined.

Lemma subscribeUser_idempotent_witness :
  wf midday
  /\ endpoint phone = endpoint phone
  /\ (endpoint phone ∉ endpoint <$> getSubscriptions midday (KNum 2))
  /\ subscribeUser hostile (KNum 2) phone
       (subscribeUser hostile (KNum 2) phone midday).2
     = (Ok false, (subscribeUser hostile (KNum 2) phone midday).2)
  /\ (subscribeUser hostile (KNum 2) phone midday).1 = Ok true
  /\ getSubscriptions
       (subscribeUser hostile (KNum 2) phone
          (subscribeUser hostile (KNum 2) phone midday).2).2 (KNum 2)
     = getSubscriptions midday (KNum 2) ++ [phone].
Proof.
  assert (endpoint phone ∉ endpoint <$> getSubscriptions midday (KNum 2)) as Hnew
    by (by apply (bool_decide_unpack _)).
  split; [exact midday_wf|]. split; [reflexivity|]. split; [exact Hnew|].
  destruct (subscribeUser_idempotent hostile (KNum 2) phone phone midday
              midday_wf eq_refl) as (H2 & _ & _ & Hfresh).
  destruct (Hfresh Hnew) as (H1 & _ & Hl & _). done.
Defined.

Lemma persistence_failure_swallowed_witness :
  fs_writeFile hostile (writes midday)
    = Some {| statusCode := None; message := "ENOSPC" |}
  /\ (saveSubscriptions hostile midday).1 = Ok tt
  /\ memory (saveSubscriptions hostile midday).2 = memory midday
  /\ (subscribeUser hostile (KNum 2) phone midday).1
     = (subscribeUser reliable (KNum 2) phone midday).1
  /\ memory (subscribeUser hostile (KNum 2) phone midday).2
     = memory (subscribeUser reliable (KNum 2) phone midday).2.
Proof.
  split; [reflexivity|].
  destruct (persistence_failure_swallowed hostile reliable (KNum 2) phone
              (endpoint laptop) midday _ eq_refl)
    as ((H1 & _ & H3 & _) & (Hr & Hm & _) & _).
  done.
Defined.

(** A request with a percentage of 74.9 for user 3, whose only endpoint
    fails: the handler answers 200 with the "Almost There" notification. *)
Lemma calorie_tiering_witness :
  let req := {| CalorieReq.userId := Some (KNum 3);
                CalorieReq.caloriesConsumed := Some (Fin 1498);
                CalorieReq.calorieGoal := Some (Fin 2000);
                CalorieReq.percentage := Some (Fin (749 # 10)) |} in
  truthy_key (KNum 3) = true
  /\ truthy_number (Fin 1498) = true
  /\ truthy_number (Fin 2000) = true
  /\ (length (getSubscriptions midday (KNum 3)) < 2)%nat
  /\ title (calorieNotification rational_div js_mul no_digits (Fin 1498)
              (Fin 2000) (Some (Fin (749 # 10))) (now midday))
     = "Almost There! ⚡"
  /\ exists w',
       sendCalorieAchievement hostile rational_div js_mul no_digits 2 req midday =
         (Ok {| status := 200;
                json := SentBody "Calorie achievement notification sent" (KNum 3)
                          (calorieNotification rational_div js_mul no_digits
                             (Fin 1498) (Fin 2000) (Some (Fin (749 # 10)))
                             (now midday))
                          "success" |}, w').
Proof.
  intros req. split; [reflexivity|]. split; [reflexivity|].
  split; [reflexivity|]. split; [simpl; lia|].
  destruct (calorie_tiering hostile rational_div js_mul no_digits
              (Fin 1498) (Fin 2000) (Some (Fin (749 # 10))) (now midday))
    as (_ & _ & _ & _ & _ & Htitle & _ & Hsend).
  split; [exact Htitle|].
  apply (Hsend 2%nat req (KNum 3) midday); try reflexivity. simpl; lia.
Defined.

Lemma sendCustomNotification_always_succeeds_witness :
  (length (getSubscriptions midday (KNum 3)) < 2)%nat
  /\ exists w',
       sendCustomNotification hostile 2 (KNum 3) reminder midday =
         (Ok {| Custom.success := true;
                Custom.message := Some "Notification sent";
                Custom.error := None |}, w').
Proof.
  split; [simpl; lia|].
  apply (sendCustomNotification_always_succeeds hostile 2 (KNum 3) reminder midday).
  simpl; lia.
Defined.

Lemma isInQuietHours_window_witness :
  truthy (start night) = true
  /\ truthy (end_ night) = true
  /\ (timeToMinutes (start night) midnight).1 = Ok (Fin 1320)
  /\ (timeToMinutes (end_ night) midnight).1 = Ok (Fin 420)
  /\ exists answer,
       isInQuietHours (Some night) midnight = (Ok answer, midnight)
       /\ ((420 < 1320)%Q ->
           (answer = true <->
            (1320 <= inject_Z (getHours (now midnight)) * 60
                     + inject_Z (getMinutes (now midnight)))%Q
            \/ (inject_Z (getHours (now midnight)) * 60
                + inject_Z (getMinutes (now midnight)) <= 420)%Q)).
Proof.
  split; [reflexivity|]. split; [reflexivity|].
  split; [reflexivity|]. split; [reflexivity|].
  destruct (proj1 (isInQuietHours_window midnight) night 1320%Q 420%Q
              eq_refl eq_refl eq_refl eq_refl) as (answer & Heq & _ & Hwrap).
  exists answer. done.
Defined.

Lemma quiet_hours_skip_witness :
  (isInQuietHours (Some night) midnight).1 = Ok true
  /\ exists w',
       sendNotificationToUser hostile 4 (KNum 1) reminder midnight = (Ok tt, w')
       /\ pushed w' = pushed midnight
       /\ notification_logs w' = notification_logs midnight.
Proof.
  split; [reflexivity|].
  destruct (quiet_hours_skip hostile 4 (KNum 1) reminder midnight
              {| user_id := KNum 1;
                 notificationPreferences := Some {| quietHours := Some night |} |}
              {| quietHours := Some night |} night
              eq_refl eq_refl eq_refl eq_refl)
    as (w' & Heq & Hp & Hl & _).
  exists w'. done.
Defined.

(** C3, where the specification fails: at 23:30 user 1 is inside their
    window 22:00-07:00; the dispatch returns without a delivery attempt, and
    the notification log is what it was. No record was appended, where the
    specification wants exactly one marking the dispatch as skipped. *)
Lemma quiet_hours_no_skipped_record :
  let w' := (sendNotificationToUser reliable 4 (KNum 1) reminder midnight).2 in
  (quiet_hours_gate (KNum 1) midnight).1 = Ok true
  /\ (sendNotificationToUser reliable 4 (KNum 1) reminder midnight).1 = Ok tt
  /\ pushed w' = pushed midnight
  /\ notification_logs w' = notification_logs midnight
  /\ ~ (exists record, notification_logs w' = notification_logs midnight ++ [record]).
Proof.
  cbv zeta. split; [by vm_compute|]. split; [by vm_compute|].
  split; [by vm_compute|]. split; [by vm_compute|].
  intros [record Hrecord]. vm_compute in Hrecord. discriminate Hrecord.
Qed.

(** C6, at an input where the code falls short of it: three users, all
    deliveries accepted, and the dispatch to user 2 throws inside (their
    window is stored with numeric bounds). The answer counts user 2 as sent
    and lists no error, although nothing was delivered to user 2 and nothing
    logged for them. The answer is no different when every delivery to a user
    is rejected. *)
Theorem sendBulkNotification_hides_failures :
  let r := sendBulkNotification reliable 4 [KNum 1; KNum 2; KNum 3] reminder midday in
  r.1 = Ok {| Bulk.total := 3; Bulk.sent := 3; Bulk.failed := 0; Bulk.errors := [] |}
  /\ (fun sp => endpoint sp.1) <$> pushed r.2
     = endpoint <$> [phone; laptop; tablet; tablet]
  /\ log_userId <$> notification_logs r.2 = [KNum 1; KNum 3]
  /\ console r.2 !! 3%nat
     = Some (Error "Error sending notification to user 2:"
               (TypeError "timeStr.split is not a function"))
  /\ (sendBulkNotification hostile 4 [KNum 3] reminder midday).1
     = Ok {| Bulk.total := 1; Bulk.sent := 1; Bulk.failed := 0; Bulk.errors := [] |}.
Proof. by vm_compute. Qed.

(** C9, at an input where the code falls short of it: user 1, registered
    under the number 1 as the cron jobs address them, is saved and reloaded.
    The snapshot and the rebuilt map know them as the string "1" only, and a
    send to user 1 finds no subscription. *)
Theorem snapshot_loses_numeric_keys :
  let saved := (saveSubscriptions reliable midday).2 in
  let reloaded := (loadSubscriptions (restart saved)).2 in
  (saveSubscriptions reliable midday).1 = Ok tt
  /\ getSubscriptions midday (KNum 1) = [phone; laptop; tablet]
  /\ getSubscriptions reloaded (KNum 1) = []
  /\ getSubscriptions reloaded (KStr "1") = [phone; laptop; tablet]
  /\ (sendNotification reliable 4 (KNum 1) reminder reloaded).1
     = Ok {| sent := 0; failed := 0; errors := None |}.
Proof. by vm_compute. Qed.

(** * Further properties of the registry *)

Lemma without_shorter (e : string) (l : list Subscription) :
  (length (without e l) <? length l)%nat = bool_decide (e ∈ endpoint <$> l).
Proof.
  unfold without. induction l as [|x l IH].
  - rewrite bool_decide_eq_false_2 by apply not_elem_of_nil. done.
  - destruct (decide (endpoint x = e)) as [Heq|Hne].
    + rewrite filter_cons_False by (intros H0; apply H0; exact Heq).
      rewrite fmap_cons, Heq.
      rewrite (bool_decide_eq_true_2 _ (list_elem_of_here e _)).
      apply Nat.ltb_lt. simpl.
      pose proof (length_filter (fun sub => endpoint sub <> e) l). lia.
    + rewrite filter_cons_True by done. rewrite fmap_cons. simpl length.
      change (S ?a <? S ?b)%nat with (a <? b)%nat. rewrite IH.
      apply bool_decide_ext. rewrite elem_of_cons.
      split; [tauto|]. intros [Hx|Hx]; [by destruct Hne|done].
Qed.

Lemma without_absent (e : string) (l : list Subscription) :
  e ∉ endpoint <$> without e l.
Proof.
  intros Hin. apply list_elem_of_fmap in Hin as (x & -> & Hx).
  unfold without in Hx. by apply list_elem_of_filter in Hx as [Hx _].
Qed.

Section RegistryFacts.
Variable E : Env.

Lemma unsubscribeUser_full (u : Key) (e : string) (w : World) :
  wf w ->
  exists w',
    unsubscribeUser E u e w
    = (Ok (bool_decide (e ∈ endpoint <$> getSubscriptions w u)), w')
    /\ getSubscriptions w' u = without e (getSubscriptions w u)
    /\ Map_has u (subscriptions w') = Map_has u (subscriptions w)
    /\ (forall u', u' <> u -> getSubscriptions w' u' = getSubscriptions w u')
    /\ pushed w' = pushed w
    /\ wf w'.
Proof.
  intros Hwf.
  destruct (unsubscribeUser_prune E u e w) as (removed & w' & Heq & Hgs & Hp & Hf).
  exists w'.
  assert (removed = bool_decide (e ∈ endpoint <$> getSubscriptions w u)
          /\ Map_has u (subscriptions w') = Map_has u (subscriptions w))
    as [-> Hhas].
  { destruct (Map_get u (subscriptions w)) as [r|] eqn:Hget.
    - assert (getSubscriptions w u = array w r) as Hgsr
        by (unfold getSubscriptions; by rewrite Hget).
      pose proof (unsubscribeUser_known E u e w r Hget) as Hk. cbv zeta in Hk.
      rewrite Heq in Hk. rewrite <- Hgsr in Hk. rewrite without_shorter in Hk.
      unfold Map_has at 2. rewrite Hget.
      destruct (bool_decide (e ∈ endpoint <$> getSubscriptions w u));
        injection Hk as -> ->; split; try done;
        unfold Map_has; rewrite ?after_save_subscriptions; simpl;
        by rewrite Map_get_set_eq.
    - rewrite (unsubscribeUser_unknown E u e w Hget) in Heq.
      injection Heq as <- <-. split; [|done].
      assert (getSubscriptions w u = []) as ->
        by (unfold getSubscriptions; by rewrite Hget).
      by rewrite bool_decide_eq_false_2 by apply not_elem_of_nil. }
  split; [done|]. split; [done|]. split; [done|]. split; [|split; [done|]].
  - intros u' Hne. by apply (dispatch_frame_others u u' w w').
  - by apply (frame_wf u w w').
Qed.

Lemma unsubscribeAll_full (u : Key) (w : World) :
  wf w ->
  exists w',
    unsubscribeAll E u w = (Ok (Map_has u (subscriptions w)), w')
    /\ Map_get u (subscriptions w') = None
    /\ (forall u', u' <> u -> getSubscriptions w' u' = getSubscriptions w u')
    /\ pushed w' = pushed w
    /\ wf w'.
Proof.
  intros Hwf. destruct (Map_get u (subscriptions w)) as [r|] eqn:Hget.
  - rewrite (unsubscribeAll_known E u w r Hget). eexists. unfold Map_has.
    rewrite Hget. split; [done|].
    rewrite after_save_subscriptions, after_save_pushed. simpl.
    split; [apply Map_get_delete_eq, Hwf|]. split; [|split; [done|]].
    + intros u' Hne. rewrite after_save_getSubscriptions.
      unfold getSubscriptions. simpl.
      rewrite Map_get_delete_ne by congruence. done.
    + apply wf_after_save. apply (wf_sublist w); [done| |done].
      apply Map_delete_sublist.
  - rewrite (unsubscribeAll_unknown E u w Hget). exists w. unfold Map_has.
    rewrite Hget. done.
Qed.

Lemma subscribeUser_others (u u' : Key) (s : Subscription) (w : World) :
  wf w -> u' <> u ->
  getSubscriptions (subscribeUser E u s w).2 u' = getSubscriptions w u'.
Proof.
  intros Hwf Hne.
  destruct (Map_get u (subscriptions w)) as [r|] eqn:Hget.
  - destruct (decide (Exists (fun x => endpoint x = endpoint s) (array w r)))
      as [Hex|Hnex].
    + by rewrite (subscribeUser_present E u s w r Hget Hex).
    + rewrite (subscribeUser_fresh E u s w r Hget Hnex). simpl.
      rewrite after_save_getSubscriptions. unfold getSubscriptions. simpl.
      destruct (Map_get u' (subscriptions w)) as [r'|] eqn:Hget'; [|done].
      assert (r' <> r) as Hr.
      { intros ->. apply Hne.
        eapply (NoDup_snd_inj (subscriptions w));
          [apply Hwf | by apply Map_get_elem_of_key..]. }
      unfold array. simpl. by rewrite list_lookup_insert_ne.
  - rewrite (subscribeUser_new E u s w Hget). simpl.
    rewrite after_save_getSubscriptions.
    apply (getSubscriptions_others u u' w); [done|by eexists|].
    simpl. apply Map_get_set_ne. congruence.
Qed.

Lemma subscribeUser_wf (u : Key) (s : Subscription) (w : World) :
  wf w -> wf (subscribeUser E u s w).2.
Proof.
  intros Hwf.
  destruct (subscribeUser E u s w) as [res w'] eqn:Heq.
  assert (run_call E 0 (Subscribe u s) w
          = (match res with Ok _ => Ok tt | Throw e => Throw e
                       | OutOfFuel => OutOfFuel end, w')) as Hrun.
  { simpl. unfold bind. rewrite Heq. by destruct res. }
  by destruct (run_call_elem_of E 0 _ _ _ _ Hwf Hrun).
Qed.

(** What one call does to the lists: the list of the user it is made for
    loses elements or gains one subscription with a new endpoint at its end;
    every other list stays. *)
Lemma run_call_lists (fuel : nat) (c : Call) (w : World) (res : Res unit)
    (w' : World) :
  wf w ->
  run_call E fuel c w = (res, w') ->
  (forall u', u' <> call_user c -> getSubscriptions w' u' = getSubscriptions w u')
  /\ (sublist (getSubscriptions w' (call_user c)) (getSubscriptions w (call_user c))
      \/ exists s,
           c = Subscribe (call_user c) s
           /\ (endpoint s ∉ endpoint <$> getSubscriptions w (call_user c))
           /\ getSubscriptions w' (call_user c)
              = getSubscriptions w (call_user c) ++ [s]).
Proof.
  intros Hwf. destruct c as [u0 s|u0 e|u0|u0 p|u0 p]; simpl; unfold bind, ret.
  - destruct (subscribeUser E u0 s w) as [r1 w1] eqn:Heq.
    intros Hrun. assert (w' = w1) as -> by (destruct r1; by injection Hrun).
    split.
    + intros u' Hne. pose proof (subscribeUser_others u0 u' s w Hwf Hne) as H.
      by rewrite Heq in H.
    + destruct (decide (endpoint s ∈ endpoint <$> getSubscriptions w u0))
        as [Hin|Hnin].
      * left. unfold getSubscriptions in Hin.
        destruct (Map_get u0 (subscriptions w)) as [r|] eqn:Hget;
          [|by apply elem_of_nil in Hin].
        apply Exists_endpoint in Hin.
        rewrite (subscribeUser_present E u0 s w r Hget Hin) in Heq.
        by injection Heq as <- <-.
      * right. exists s. split; [done|]. split; [done|].
        destruct (subscribeUser_first E u0 s w Hwf Hnin) as [_ H].
        by rewrite Heq in H.
  - destruct (unsubscribeUser_full u0 e w Hwf)
      as (w1 & Heq & Hgs & _ & Ho & _ & _).
    rewrite Heq. intros [= <- <-]. split; [done|]. left. rewrite Hgs.
    apply sublist_filter.
  - destruct (unsubscribeAll_full u0 w Hwf) as (w1 & Heq & Hnone & Ho & _ & _).
    rewrite Heq. intros [= <- <-]. split; [done|]. left.
    unfold getSubscriptions at 1. rewrite Hnone. apply sublist_nil_l.
  - destruct (sendNotification E fuel u0 p w) as [sres w1] eqn:Hsend.
    destruct (sendNotification_sublist E fuel u0 p w sres w1 Hsend)
      as (Hsub & Hf & _).
    intros Heq. assert (w' = w1) as -> by (destruct sres; by injection Heq).
    split; [|by left].
    intros u' Hne. by apply (dispatch_frame_others u0 u' w w1).
  - intros Heq.
    destruct (sendNotificationToUser_sublist E fuel u0 p w res w' Heq)
      as (Hsub & Hext & Ho & Hw).
    split; [|by left].
    intros u' Hne. apply (getSubscriptions_others u0 u' w w'); auto.
Qed.

Lemma run_calls_others (fuel : nat) (u : Key) (cs : list Call) :
  forall (w : World) (res : Res unit) (w' : World),
    wf w ->
    (forall c, c ∈ cs -> call_user c <> u) ->
    run_calls E fuel cs w = (res, w') ->
    getSubscriptions w' u = getSubscriptions w u.
Proof.
  induction cs as [|c cs IH]; intros w res w' Hwf Hcs; simpl.
  - by intros [= <- <-].
  - unfold bind. destruct (run_call E fuel c w) as [r1 w1] eqn:H1.
    destruct (run_call_elem_of E fuel c w r1 w1 Hwf H1) as [Hwf1 _].
    destruct (run_call_lists fuel c w r1 w1 Hwf H1) as [Ho _].
    assert (getSubscriptions w1 u = getSubscriptions w u) as H1u.
    { apply Ho. intros Hu. by apply (Hcs c (list_elem_of_here _ _)). }
    destruct r1 as [[]|err|].
    + intros Hrun. rewrite <- H1u. apply (IH w1 res w'); [done| |done].
      intros c' Hc'. apply Hcs. by apply list_elem_of_further.
    + by intros [= <- <-].
    + by intros [= <- <-].
Qed.

Lemma run_calls_NoDup (fuel : nat) (cs : list Call) :
  forall (w : World) (res : Res unit) (w' : World),
    wf w ->
    (forall u, NoDup (endpoint <$> getSubscriptions w u)) ->
    run_calls E fuel cs w = (res, w') ->
    forall u, NoDup (endpoint <$> getSubscriptions w' u).
Proof.
  induction cs as [|c cs IH]; intros w res w' Hwf Hnd; simpl.
  - by intros [= <- <-].
  - unfold bind. destruct (run_call E fuel c w) as [r1 w1] eqn:H1.
    destruct (run_call_elem_of E fuel c w r1 w1 Hwf H1) as [Hwf1 _].
    destruct (run_call_lists fuel c w r1 w1 Hwf H1) as [Ho Hown].
    assert (forall u, NoDup (endpoint <$> getSubscriptions w1 u)) as Hnd1.
    { intros u. destruct (decide (u = call_user c)) as [->|Hne].
      - destruct Hown as [Hsub|(s & _ & Hnew & ->)].
        + eapply sublist_NoDup; [apply Hnd|]. by apply fmap_sublist.
        + rewrite fmap_app. apply NoDup_app. split; [apply Hnd|].
          split; [|apply NoDup_singleton].
          intros x Hx Hx'. apply list_elem_of_singleton in Hx' as ->. done.
      - rewrite Ho by done. apply Hnd. }
    destruct r1 as [[]|err|].
    + by apply IH.
    + by intros [= <- <-].
    + by intros [= <- <-].
Qed.
End RegistryFacts.

(** * The broadcast: [sendNotificationToAll] *)

Lemma Map_set_fst_known {V} (k : Key) (v v0 : V) (m : list (Key * V)) :
  Map_get k m = Some v0 -> (Map_set k v m).*1 = m.*1.
Proof.
  induction m as [|[k' v'] m IH]; simpl; [done|].
  destruct (Key_eqb k' k); [done|]. intros H. rewrite !fmap_cons.
  f_equal. by apply IH.
Qed.

Lemma lookup_Map_get {V} (m : list (Key * V)) (i : nat) (k : Key) (v : V) :
  NoDup m.*1 -> m !! i = Some (k, v) -> Map_get k m = Some v.
Proof.
  revert i. induction m as [|[k' v'] m IH]; intros i Hnd Hi; [done|].
  apply NoDup_cons in Hnd as [Hk' Hnd]. simpl.
  destruct i as [|i]; simpl in Hi.
  - injection Hi as -> ->. by rewrite Key_eqb_refl.
  - destruct (Key_eqb k' k) eqn:Hk.
    + apply Key_eqb_eq in Hk as ->. exfalso. apply Hk'.
      apply list_elem_of_fmap. exists (k, v). split; [done|].
      by eapply list_elem_of_lookup_2.
    + by apply (IH i).
Qed.

Section BroadcastFacts.
Variable E : Env.

Lemma unsubscribeUser_keys (u : Key) (e : string) (w : World) :
  (subscriptions (unsubscribeUser E u e w).2).*1 = (subscriptions w).*1.
Proof.
  destruct (Map_get u (subscriptions w)) as [r|] eqn:Hget.
  - rewrite (unsubscribeUser_known E u e w r Hget).
    destruct (_ <? _)%nat; simpl; rewrite ?after_save_subscriptions; simpl;
      by apply (Map_set_fst_known u _ r).
  - by rewrite (unsubscribeUser_unknown E u e w Hget).
Qed.

(** One turn of the loop of [sendNotification] keeps the keys of the map,
    and keeps [errors] as long as [failed]. *)
Lemma send_one_shape (u : Key) (p : Notification) (x : Subscription)
    (acc : SendResult) (w : World) :
  exists acc' w',
    send_one E u p x acc w = (Ok acc', w')
    /\ (subscriptions w').*1 = (subscriptions w).*1
    /\ (forall es, errors acc = Some es -> length es = failed acc ->
          exists es', errors acc' = Some es' /\ length es' = failed acc').
Proof.
  unfold send_one, try_catch, bind, webpush_send.
  destruct (webpush_sendNotification E (length (pushed w)) x p) as [err|].
  - destruct (bool_decide (statusCode err = Some 410)).
    + unfold console_log, modify. simpl.
      match goal with
      | |- context [unsubscribeUser E u (endpoint x) ?w0] =>
          pose proof (unsubscribeUser_keys u (endpoint x) w0) as Hk;
          destruct (unsubscribeUser_prune E u (endpoint x) w0)
            as (removed & w' & Heq & _)
      end.
      rewrite Heq in *. unfold ret. eexists _, w'. split; [done|].
      split; [done|]. intros es -> Hl. eexists. split; [done|].
      rewrite length_app. simpl. lia.
    + unfold ret. eexists _, _. split; [done|]. split; [done|].
      intros es -> Hl. eexists. split; [done|].
      rewrite length_app. simpl. lia.
  - unfold console_log, modify, ret. simpl. eexists _, _. split; [done|].
    split; [done|]. intros es Hes Hl. by exists es.
Qed.

Lemma for_of_send_shape (u : Key) (p : Notification) (r : Ref) (fuel : nat) :
  forall (i : nat) (acc acc' : SendResult) (w w' : World),
    for_of fuel r i (send_one E u p) acc w = (Ok acc', w') ->
    (subscriptions w').*1 = (subscriptions w).*1
    /\ (forall es, errors acc = Some es -> length es = failed acc ->
          exists es', errors acc' = Some es' /\ length es' = failed acc').
Proof.
  induction fuel as [|fuel IH]; intros i acc acc' w w' Heq; simpl in Heq;
    [done|].
  destruct (array w r !! i) as [x|].
  - destruct (send_one_shape u p x acc w) as (acc1 & w1 & Heq1 & Hk1 & He1).
    rewrite Heq1 in Heq. apply IH in Heq as [Hk He]. split.
    + by rewrite Hk.
    + intros es Hes Hl. destruct (He1 es Hes Hl) as (es1 & Hes1 & Hl1).
      by apply (He es1).
  - injection Heq as <- <-. split; [done|]. intros es Hes Hl. by exists es.
Qed.

Lemma sendNotification_shape (fuel : nat) (u : Key) (p : Notification)
    (res : SendResult) (w w' : World) :
  sendNotification E fuel u p w = (Ok res, w') ->
  (subscriptions w').*1 = (subscriptions w).*1
  /\ (forall r, Map_get u (subscriptions w) = Some r ->
        exists es, errors res = Some es /\ length es = failed res).
Proof.
  destruct (Map_get u (subscriptions w)) as [r|] eqn:Hget.
  - unfold sendNotification, bind, gets, Map_has. rewrite Hget. simpl.
    rewrite Hget. intros Heq.
    destruct (for_of_send_shape u p r fuel _ _ _ _ _ Heq) as [Hk He].
    split; [done|]. intros _ _. by apply (He []).
  - rewrite (sendNotification_unknown E fuel u p w Hget). intros [= <- <-].
    split; [done|]. by intros r.
Qed.

(** A dispatch to the user at position [i] of the map leaves the array at
    every other position as it was. *)
Lemma sendNotification_lists (fuel : nat) (i : nat) (u : Key) (r : Ref)
    (p : Notification) (res : SendResult) (w w' : World) :
  wf w ->
  subscriptions w !! i = Some (u, r) ->
  sendNotification E fuel u p w = (Ok res, w') ->
  forall j, j <> i -> lists w' !! j = lists w !! j.
Proof.
  intros Hwf Hi Heq j Hj.
  destruct (sendNotification_shape fuel u p res w w' Heq) as [Hk _].
  destruct (sendNotification_sublist E fuel u p w (Ok res) w' Heq)
    as (_ & Hf & _).
  pose proof (frame_wf u w w' Hf Hwf) as Hwf'.
  unfold lists. rewrite !list_lookup_fmap.
  destruct (subscriptions w !! j) as [[kj rj]|] eqn:Hjw.
  - assert ((subscriptions w').*1 !! j = Some kj) as Hkj.
    { rewrite Hk, list_lookup_fmap, Hjw. done. }
    rewrite list_lookup_fmap in Hkj.
    destruct (subscriptions w' !! j) as [[kj' rj']|] eqn:Hjw'; [|done].
    simpl in Hkj. injection Hkj as ->. simpl.
    assert (kj <> u) as Hne.
    { intros ->. apply Hj.
      apply (NoDup_lookup (subscriptions w).*1 j i u); [apply Hwf|..];
        rewrite list_lookup_fmap; [by rewrite Hjw | by rewrite Hi]. }
    pose proof (lookup_Map_get _ _ _ _ (wf_keys w Hwf) Hjw) as Hg.
    pose proof (lookup_Map_get _ _ _ _ (wf_keys w' Hwf') Hjw') as Hg'.
    rewrite (frame_others u w w' Hf kj Hne) in Hg'.
    assert (rj' = rj) as -> by congruence.
    f_equal. apply (dispatch_frame_array u w w' rj Hf).
    by apply (wf_get w kj).
  - assert (subscriptions w' !! j = None) as ->; [|done].
    apply lookup_ge_None. apply lookup_ge_None in Hjw.
    rewrite <- (length_fmap fst (subscriptions w')), Hk, length_fmap. done.
Qed.

Lemma drop_S_lists (i : nat) (l l' : list (list Subscription)) :
  length l' = length l ->
  (forall j, j <> i -> l' !! j = l !! j) ->
  drop (S i) l' = drop (S i) l.
Proof.
  intros Hlen H. apply list_eq. intros n. rewrite !lookup_drop.
  apply H. lia.
Qed.

(** From position [i] on, the broadcast dispatches to every user of the
    map in turn; what one dispatch prunes is of no concern to the next. *)
Lemma for_of_Map_spec (p : Notification) (fuel : nat) :
  forall (n i : nat) (acc : ToAll.t) (w : World),
    wf w ->
    (length (subscriptions w) - i < n)%nat ->
    Forall (fun l => (length l < fuel)%nat) (drop i (lists w)) ->
    exists res w',
      for_of_Map n i (sendToAll_body E fuel p) acc w = (Ok res, w')
      /\ ToAll.totalUsers res = ToAll.totalUsers acc
      /\ pushed w' = pushed w ++ ((fun s => (s, p)) <$> concat (drop i (lists w)))
      /\ (ToAll.sent res + ToAll.failed res
          = ToAll.sent acc + ToAll.failed acc
            + length (concat (drop i (lists w))))%nat
      /\ (length (ToAll.errors acc) = ToAll.failed acc ->
          length (ToAll.errors res) = ToAll.failed res)
      /\ (subscriptions w').*1 = (subscriptions w).*1
      /\ wf w'.
Proof.
  induction n as [|n IH]; intros i acc w Hwf Hn Hfuel; [lia|].
  simpl. destruct (subscriptions w !! i) as [[u r]|] eqn:Hi.
  - assert (lists w !! i = Some (array w r)) as Hli
      by (unfold lists; rewrite list_lookup_fmap, Hi; done).
    rewrite (drop_S _ _ _ Hli) in *. apply Forall_cons in Hfuel as [Hr Hrest].
    pose proof (lookup_Map_get _ _ _ _ (wf_keys w Hwf) Hi) as Hget.
    assert (getSubscriptions w u = array w r) as Hgs
      by (unfold getSubscriptions; by rewrite Hget).
    destruct (sendNotification_spec E fuel u p w r Hget)
      as (res1 & w1 & Heq1 & Hp1 & Hc1 & _ & Hf1); [by rewrite Hgs|].
    destruct (sendNotification_shape fuel u p res1 w w1 Heq1) as [Hk1 He1].
    destruct (He1 r Hget) as (es & Hes & Hl).
    pose proof (frame_wf u w w1 Hf1 Hwf) as Hwf1.
    assert (length (subscriptions w1) = length (subscriptions w)) as Hlen.
    { by rewrite <- (length_fmap fst (subscriptions w1)), Hk1, length_fmap. }
    assert (drop (S i) (lists w1) = drop (S i) (lists w)) as Hdrop.
    { apply drop_S_lists.
      - unfold lists. by rewrite !length_fmap.
      - by apply (sendNotification_lists fuel i u r p res1 w w1). }
    unfold sendToAll_body at 1, bind. rewrite Heq1, Hes. unfold ret.
    match goal with
    | |- context [for_of_Map n (S i) _ ?a w1] =>
        destruct (IH (S i) a w1 Hwf1) as (res & w' & Heq & Ht & Hp & Hc & He & Hk & Hwf')
    end.
    { apply lookup_lt_Some in Hi. lia. }
    { by rewrite Hdrop. }
    rewrite Heq. exists res, w'. split; [done|]. simpl in *.
    rewrite Hdrop in *. rewrite Hgs in *.
    split; [done|]. split; [|split; [|split; [|split]]].
    + rewrite Hp, Hp1, fmap_app. by rewrite <- app_assoc.
    + rewrite length_app. lia.
    + intros Hacc. apply He. rewrite length_app. lia.
    + by rewrite Hk.
    + done.
  - assert (drop i (lists w) = []) as ->.
    { apply drop_ge. unfold lists. rewrite length_fmap.
      by apply lookup_ge_None. }
    exists acc, w. simpl. rewrite app_nil_r. split; [done|].
    split; [done|]. split; [done|]. split; [lia|]. done.
Qed.

Lemma sendNotificationToAll_spec (fuel : nat) (p : Notification) (w : World) :
  wf w ->
  (length (subscriptions w) < fuel)%nat ->
  Forall (fun l => (length l < fuel)%nat) (lists w) ->
  exists res w',
    sendNotificationToAll E fuel p w = (Ok res, w')
    /\ ToAll.totalUsers res = length (subscriptions w)
    /\ pushed w' = pushed w ++ ((fun s => (s, p)) <$> concat (lists w))
    /\ (ToAll.sent res + ToAll.failed res = length (concat (lists w)))%nat
    /\ length (ToAll.errors res) = ToAll.failed res
    /\ (subscriptions w').*1 = (subscriptions w).*1
    /\ wf w'.
Proof.
  intros Hwf Hn Hfuel. unfold sendNotificationToAll, bind, gets.
  match goal with
  | |- context [for_of_Map fuel 0 _ ?a w] =>
      destruct (for_of_Map_spec p fuel fuel 0 a w Hwf)
        as (res & w' & Heq & Ht & Hp & Hc & He & Hk & Hwf')
  end.
  { lia. }
  { by rewrite drop_0. }
  rewrite drop_0 in *. exists res, w'. simpl in *.
  split; [done|]. split; [done|]. split; [done|]. split; [done|].
  split; [by apply He|]. done.
Qed.
End BroadcastFacts.

(** ** Unsubscribing *)

(** X1. [unsubscribeUser] answers [true] exactly when the user's list held
    a subscription with that endpoint. Afterwards the list is the old one
    without the subscriptions of that endpoint, in the old order; the user
    is known to the map exactly if they were before (the entry is never
    dropped, even when its list becomes empty); the lists of the other users
    are what they were, and no delivery is attempted. *)
Theorem unsubscribeUser_answer (E : Env) (u : Key) (e : string) (w : World) :
  wf w ->
  exists w',
    unsubscribeUser E u e w
    = (Ok (bool_decide (e ∈ endpoint <$> getSubscriptions w u)), w')
    /\ getSubscriptions w' u = without e (getSubscriptions w u)
    /\ (e ∉ endpoint <$> getSubscriptions w' u)
    /\ Map_has u (subscriptions w') = Map_has u (subscriptions w)
    /\ (forall u', u' <> u -> getSubscriptions w' u' = getSubscriptions w u')
    /\ pushed w' = pushed w.
Proof.
  intros Hwf.
  destruct (unsubscribeUser_full E u e w Hwf)
    as (w' & Heq & Hgs & Hhas & Ho & Hp & _).
  exists w'. split; [done|]. split; [done|].
  split; [rewrite Hgs; apply without_absent|]. done.
Qed.

(** X2. [unsubscribeAll] answers [true] exactly when the map has an entry
    for the user. Afterwards the user is unknown: their list reads as empty
    and a send to them takes the early return ("No subscriptions found", an
    answer without [errors]). The other users keep their lists. *)
Theorem unsubscribeAll_forgets (E : Env) (fuel : nat) (u : Key)
    (p : Notification) (w : World) :
  wf w ->
  exists w',
    unsubscribeAll E u w = (Ok (Map_has u (subscriptions w)), w')
    /\ Map_has u (subscriptions w') = false
    /\ getSubscriptions w' u = []
    /\ (forall u', u' <> u -> getSubscriptions w' u' = getSubscriptions w u')
    /\ pushed w' = pushed w
    /\ sendNotification E fuel u p w'
       = (Ok {| sent := 0; failed := 0; errors := None |},
          set_console (console w' ++ [Log ("No subscriptions found for user "
                                           +:+ Key_toString u)]) w').
Proof.
  intros Hwf.
  destruct (unsubscribeAll_full E u w Hwf) as (w' & Heq & Hnone & Ho & Hp & _).
  exists w'. split; [done|]. unfold Map_has, getSubscriptions.
  rewrite Hnone. split; [done|]. split; [done|]. split; [done|].
  split; [done|]. by apply sendNotification_unknown.
Qed.

(** X3. Removing the last endpoint of a user with [unsubscribeUser] leaves
    an entry with an empty list behind. Such a user is still known to the
    map: a send to them runs the loop over nothing and answers
    [{sent: 0, failed: 0, errors: []}] without touching the state or the
    console, and [unsubscribeAll] still answers [true] for them. *)
Theorem last_unsubscribe_keeps_entry (E : Env) (fuel : nat) (u : Key)
    (e : string) (p : Notification) (w : World) :
  wf w ->
  Map_has u (subscriptions w) = true ->
  without e (getSubscriptions w u) = [] ->
  let w' := (unsubscribeUser E u e w).2 in
  getSubscriptions w' u = []
  /\ Map_has u (subscriptions w') = true
  /\ sendNotification E (S fuel) u p w'
     = (Ok {| sent := 0; failed := 0; errors := Some [] |}, w')
  /\ (unsubscribeAll E u w').1 = Ok true.
Proof.
  intros Hwf Hhas Hlast w'. subst w'.
  destruct (unsubscribeUser_full E u e w Hwf)
    as (w' & Heq & Hgs & Hhas' & _ & _ & Hwf').
  rewrite Heq. simpl. rewrite Hlast in Hgs. rewrite Hhas in Hhas'.
  split; [done|]. split; [done|]. split.
  - unfold sendNotification, bind, gets. rewrite Hhas'. simpl.
    unfold Map_has in Hhas'. unfold getSubscriptions in Hgs.
    destruct (Map_get u (subscriptions w')) as [r'|]; [|done].
    by rewrite Hgs.
  - destruct (unsubscribeAll_full E u w' Hwf') as (w2 & Heq2 & _).
    by rewrite Heq2, Hhas'.
Qed.

(** ** Invariants of the registry *)

(** X4. Within a user's list no endpoint occurs twice, and this stays so
    through any sequence of subscribe, unsubscribe, unsubscribe-all, send and
    dispatch calls, for whatever users, whatever the push service and the
    disk answer, and however the sequence ends. *)
Theorem endpoints_stay_unique (E : Env) (fuel : nat) (cs : list Call)
    (w : World) (res : Res unit) (w' : World) :
  wf w ->
  (forall u, NoDup (endpoint <$> getSubscriptions w u)) ->
  run_calls E fuel cs w = (res, w') ->
  forall u, NoDup (endpoint <$> getSubscriptions w' u).
Proof. apply run_calls_NoDup. Qed.

(** X5. Calls made for other users never change a user's list: arrays are
    not shared between the entries of the map, so a push, a filter or a
    prune for one user is not seen under another key. *)
Theorem other_users_untouched (E : Env) (fuel : nat) (u : Key) (cs : list Call)
    (w : World) (res : Res unit) (w' : World) :
  wf w ->
  (forall c, c ∈ cs -> call_user c <> u) ->
  run_calls E fuel cs w = (res, w') ->
  getSubscriptions w' u = getSubscriptions w u.
Proof. apply run_calls_others. Qed.

(** ** The broadcast *)

(** X6. [sendNotificationToAll] dispatches to every user of the map, in the
    order of the map: it attempts every subscription the registry held when
    it began, once, user by user; [totalUsers] is the size of the map,
    [sent + failed] the number of subscriptions, [errors] has one entry for
    each failure. No user is dropped from the map on the way, not even one
    whose endpoints have all gone. *)
Theorem sendNotificationToAll_totals (E : Env) (fuel : nat) (p : Notification)
    (w : World) :
  wf w ->
  (length (subscriptions w) < fuel)%nat ->
  Forall (fun l => (length l < fuel)%nat) (lists w) ->
  exists res w',
    sendNotificationToAll E fuel p w = (Ok res, w')
    /\ ToAll.totalUsers res = length (subscriptions w)
    /\ pushed w' = pushed w ++ ((fun s => (s, p)) <$> concat (lists w))
    /\ (ToAll.sent res + ToAll.failed res = length (concat (lists w)))%nat
    /\ length (ToAll.errors res) = ToAll.failed res
    /\ (subscriptions w').*1 = (subscriptions w).*1.
Proof.
  intros Hwf Hn Hfuel.
  destruct (sendNotificationToAll_spec E fuel p w Hwf Hn Hfuel)
    as (res & w' & H1 & H2 & H3 & H4 & H5 & H6 & _).
  by exists res, w'.
Qed.

(** * Further properties of the snapshot *)

Lemma Map_get_None {V} (k : Key) (m : list (Key * V)) :
  Map_get k m = None <-> k ∉ m.*1.
Proof.
  induction m as [|[k' v'] m IH].
  - split; [intros _; apply not_elem_of_nil|done].
  - rewrite fmap_cons, not_elem_of_cons. simpl.
    destruct (Key_eqb k' k) eqn:Hk.
    + apply Key_eqb_eq in Hk as ->. split; [done|]. by intros [? _].
    + apply Key_eqb_neq in Hk. rewrite IH. split; [|tauto].
      intros H. split; [congruence|done].
Qed.

Lemma Map_of_entries_frame (entries : list (string * list Subscription)) :
  forall (m : list (Key * Ref)) (w : World) (res : Res (list (Key * Ref)))
         (w' : World),
    Map_of_entries entries m w = (res, w') ->
    subscriptions_file w' = subscriptions_file w
    /\ pushed w' = pushed w
    /\ writes w' = writes w
    /\ console w' = console w
    /\ subscriptions w' = subscriptions w.
Proof.
  induction entries as [|[k0 s0] rest IH]; intros m w res w'; simpl.
  - by intros [= <- <-].
  - unfold bind, new_array. intros H. by apply IH in H.
Qed.

(** [loadSubscriptions] on a file that parses. *)
Lemma loadSubscriptions_some (w : World) (f : gmap string (list Subscription)) :
  subscriptions_file w = Some f ->
  exists w',
    loadSubscriptions w = (Ok tt, w')
    /\ (forall s subs, f !! s = Some subs ->
          exists r, Map_get (KStr s) (subscriptions w') = Some r
                    /\ array w' r = subs)
    /\ (forall k, k ∉ KStr <$> (map_to_list f).*1 ->
          Map_get k (subscriptions w') = None)
    /\ subscriptions_file w' = Some f
    /\ pushed w' = pushed w
    /\ writes w' = writes w.
Proof.
  intros Hf.
  unfold loadSubscriptions, try_catch, bind, readFile_subscriptions.
  rewrite Hf.
  destruct (Map_of_entries_spec (map_to_list f) [] w (NoDup_fst_map_to_list f))
    as (m' & w1 & Heq & Hh & Hfound & Hmissing).
  destruct (Map_of_entries_frame _ _ _ _ _ Heq) as (Hfile & Hp & Hw & _).
  rewrite Heq. unfold modify, console_log. simpl. eexists. split; [done|].
  simpl. split; [|split; [|split; [congruence|done]]].
  - intros s subs Hs. apply elem_of_map_to_list in Hs.
    destruct (Hfound s subs Hs) as (r & Hr & Harr). exists r. split; [done|].
    unfold array. simpl. by rewrite Hh, Harr.
  - intros k Hk. by rewrite Hmissing.
Qed.

Lemma loadSubscriptions_none (w : World) :
  subscriptions_file w = None ->
  loadSubscriptions w
  = (Ok tt,
     set_subscriptions []
       (set_console (console w ++ [Log "No existing subscriptions found, starting fresh"])
          w)).
Proof.
  intros Hf.
  unfold loadSubscriptions, try_catch, bind, readFile_subscriptions.
  by rewrite Hf.
Qed.

(** The keys of a loaded registry are the property names of the file. *)
Lemma loadSubscriptions_keys (w : World) (f : gmap string (list Subscription)) :
  subscriptions_file w = Some f ->
  forall k, k ∈ (subscriptions (loadSubscriptions w).2).*1 ->
            exists s, k = KStr s /\ is_Some (f !! s).
Proof.
  intros Hf k Hk.
  destruct (loadSubscriptions_some w f Hf) as (w' & Heq & _ & Hmissing & _).
  rewrite Heq in Hk. simpl in Hk.
  destruct (decide (k ∈ KStr <$> (map_to_list f).*1)) as [Hin|Hnin].
  - apply list_elem_of_fmap in Hin as (s & -> & Hs). exists s. split; [done|].
    apply list_elem_of_fmap in Hs as ([s' subs] & -> & Hs).
    apply elem_of_map_to_list in Hs. by exists subs.
  - apply Hmissing in Hnin. by apply Map_get_None in Hnin.
Qed.

Lemma loadSubscriptions_image (w : World) (f : gmap string (list Subscription)) :
  subscriptions_file w = Some f ->
  Object_fromEntries (loadSubscriptions w).2 = f.
Proof.
  intros Hf.
  pose proof (loadSubscriptions_wf w) as Hwf.
  pose proof (loadSubscriptions_keys w f Hf) as Hkeys.
  destruct (loadSubscriptions_some w f Hf) as (w' & Heq & Hfound & _).
  rewrite Heq in *. simpl in *.
  assert (NoDup (Key_toString <$> (subscriptions w').*1)) as Hnd.
  { apply NoDup_fmap_2_strong; [|apply Hwf].
    intros k1 k2 H1 H2 Hsame.
    destruct (Hkeys k1 H1) as (s1 & -> & _).
    destruct (Hkeys k2 H2) as (s2 & -> & _). simpl in Hsame. by subst. }
  destruct (Object_fromEntries_lookup w' Hnd) as [Hin Hout].
  apply map_eq. intros s. destruct (f !! s) as [subs|] eqn:Hs.
  - destruct (Hfound s subs Hs) as (r & Hr & Harr).
    rewrite <- Harr. apply (Hin (KStr s) r). by apply Map_get_elem_of_key.
  - apply Hout. intros Hx. apply list_elem_of_fmap in Hx as (k & -> & Hk).
    destruct (Hkeys k Hk) as (s' & -> & [subs Hsubs]). simpl in Hs. congruence.
Qed.

(** X7. A registry whose user ids are all strings survives a restart
    unchanged: after a successful save, a restart and a load, every user id
    has the list it had, field for field and in the same order. *)
Theorem snapshot_keeps_string_keys (E : Env) (w : World) :
  wf w ->
  (forall k, k ∈ (subscriptions w).*1 -> exists s, k = KStr s) ->
  fs_writeFile E (writes w) = None ->
  let w' := (loadSubscriptions (restart (saveSubscriptions E w).2)).2 in
  forall k, getSubscriptions w' k = getSubscriptions w k.
Proof.
  intros Hwf Hstr Hok.
  assert (NoDup (Key_toString <$> (subscriptions w).*1)) as Hnd.
  { apply NoDup_fmap_2_strong; [|apply Hwf].
    intros k1 k2 H1 H2 Hsame.
    destruct (Hstr k1 H1) as (s1 & ->). destruct (Hstr k2 H2) as (s2 & ->).
    simpl in Hsame. by subst. }
  destruct (snapshot_roundtrip E w Hnd Hok) as (Hfound & Hmissing & Hnum).
  intros w' k.
  destruct (Map_get k (subscriptions w)) as [r|] eqn:Hget.
  - assert (k ∈ (subscriptions w).*1) as Hk.
    { apply list_elem_of_fmap. exists (k, r). split; [done|].
      by apply Map_get_elem_of_key. }
    destruct (Hstr k Hk) as (s & ->). by apply (Hfound (KStr s) r).
  - assert (getSubscriptions w k = []) as ->
      by (unfold getSubscriptions; by rewrite Hget).
    destruct k as [n|s]; [apply Hnum|]. apply Hmissing.
    intros Hx. apply list_elem_of_fmap in Hx as (k' & Hs & Hk').
    destruct (Hstr k' Hk') as (s' & ->). simpl in Hs. subst s'.
    by apply Map_get_None in Hget.
Qed.

(** X8. Loading a snapshot and saving it again writes the snapshot that was
    read: the object built from the loaded map has the property names and
    the lists of the file, whatever was in memory before the load. *)
Theorem load_then_save_same_file (E : Env) (w : World)
    (f : gmap string (list Subscription)) :
  subscriptions_file w = Some f ->
  Object_fromEntries (loadSubscriptions w).2 = f
  /\ subscriptions_file (saveSubscriptions E (loadSubscriptions w).2).2 = Some f.
Proof.
  intros Hf. pose proof (loadSubscriptions_image w f Hf) as Himg.
  split; [done|].
  rewrite saveSubscriptions_eq. simpl. unfold after_save.
  destruct (loadSubscriptions_some w f Hf) as (w' & Heq & _ & _ & Hfile & _).
  rewrite Heq in *. simpl in *.
  destruct (fs_writeFile E (writes w')); simpl; [done|]. by rewrite Himg.
Qed.

(** X9. [loadSubscriptions] never throws, and the registry it leaves is
    that of the file alone: what was in memory is discarded; every property
    name of the file is a string key holding the file's list; no number is a
    key; a file that is missing or does not parse gives the empty registry.
    The file itself is not written. *)
Theorem loadSubscriptions_from_file_alone (w : World) :
  let w' := (loadSubscriptions w).2 in
  (loadSubscriptions w).1 = Ok tt
  /\ (forall s, getSubscriptions w' (KStr s)
                = match subscriptions_file w with
                  | Some f => default [] (f !! s)
                  | None => []
                  end)
  /\ (forall n, getSubscriptions w' (KNum n) = [])
  /\ wf w'
  /\ subscriptions_file w' = subscriptions_file w
  /\ pushed w' = pushed w
  /\ writes w' = writes w.
Proof.
  intros w'. subst w'. pose proof (loadSubscriptions_wf w) as Hwf.
  destruct (subscriptions_file w) as [f|] eqn:Hf.
  - destruct (loadSubscriptions_some w f Hf)
      as (w' & Heq & Hfound & Hmissing & Hfile & Hp & Hw).
    rewrite Heq in *. simpl in *. split; [done|].
    split; [|split; [|by rewrite Hfile]].
    + intros s. unfold getSubscriptions. destruct (f !! s) as [subs|] eqn:Hs.
      * destruct (Hfound s subs Hs) as (r & -> & Harr). done.
      * rewrite Hmissing; [done|].
        intros Hx. apply list_elem_of_fmap in Hx as (s' & [= <-] & Hx).
        apply list_elem_of_fmap in Hx as ([s' subs] & -> & Hx).
        apply elem_of_map_to_list in Hx. simpl in Hs. congruence.
    + intros n. unfold getSubscriptions. rewrite Hmissing; [done|].
      intros Hx. by apply list_elem_of_fmap in Hx as (s' & [=] & _).
  - rewrite (loadSubscriptions_none w Hf) in *. simpl. done.
Qed.

(** * Further properties of the scheduler *)

Lemma split_no_sep (sep : ascii) (s : string) :
  sep ∉ list_ascii_of_string s -> split sep s = [s].
Proof.
  induction s as [|c s IH]; simpl; [done|].
  rewrite not_elem_of_cons. intros [Hc Hs].
  destruct (Ascii.eqb c sep) eqn:Heq.
  - apply Ascii.eqb_eq in Heq. congruence.
  - by rewrite (IH Hs).
Qed.

(** A bound without a colon has no minutes field: it converts to [NaN]. *)
Lemma timeToMinutes_no_colon (s : string) (w : World) :
  ":"%char ∉ list_ascii_of_string s ->
  timeToMinutes (TStr s) w = (Ok NaN, w).
Proof. intros H. unfold timeToMinutes. by rewrite (split_no_sep _ _ H). Qed.

Lemma truthy_TStr (s : string) : s <> EmptyString -> truthy (TStr s) = true.
Proof.
  intros H. simpl. apply negb_true_iff. by apply String.eqb_neq.
Qed.

(** X10. What a window with a bound that has no colon does. Such a bound
    converts to [NaN], every comparison with it is false, and the predicate
    falls into its "overnight" branch with that side of the window open:
    with an unreadable start the user is quiet from midnight until the end
    bound, with an unreadable end from the start bound until midnight, and
    with both unreadable never. No exception is raised. *)
Theorem quiet_hours_unreadable_bound (w : World) (x : string) :
  x <> EmptyString ->
  ":"%char ∉ list_ascii_of_string x ->
  let T := (inject_Z (getHours (now w)) * 60
            + inject_Z (getMinutes (now w)))%Q in
  (forall (en : TimeVal) (e : Q),
     truthy en = true ->
     (timeToMinutes en w).1 = Ok (Fin e) ->
     isInQuietHours (Some {| start := TStr x; end_ := en |}) w
     = (Ok (Qle_bool T e), w))
  /\ (forall (st : TimeVal) (s : Q),
        truthy st = true ->
        (timeToMinutes st w).1 = Ok (Fin s) ->
        isInQuietHours (Some {| start := st; end_ := TStr x |}) w
        = (Ok (Qle_bool s T), w))
  /\ (forall y : string,
        y <> EmptyString ->
        ":"%char ∉ list_ascii_of_string y ->
        isInQuietHours (Some {| start := TStr x; end_ := TStr y |}) w
        = (Ok false, w)).
Proof.
  intros Hx Hcolon T.
  pose proof (truthy_TStr x Hx) as Htx.
  pose proof (timeToMinutes_no_colon x w Hcolon) as Hnan.
  split; [|split].
  - intros en e Hen Hte. unfold isInQuietHours.
    cbn [start end_]. rewrite Htx, Hen. cbn [negb orb]. unfold bind, gets.
    rewrite Hnan. rewrite (timeToMinutes_eq _ _ _ Hte). done.
  - intros st s Hst Hts. unfold isInQuietHours.
    cbn [start end_]. rewrite Htx, Hst. cbn [negb orb]. unfold bind, gets.
    rewrite (timeToMinutes_eq _ _ _ Hts). rewrite Hnan. simpl.
    by rewrite orb_false_r.
  - intros y Hy Hycolon. unfold isInQuietHours.
    cbn [start end_]. rewrite Htx, (truthy_TStr y Hy). cbn [negb orb].
    unfold bind, gets.
    rewrite Hnan. by rewrite (timeToMinutes_no_colon y w Hycolon).
Qed.

Section SchedulerMore.
Variable E : Env.

(** X11. A stored window with a number for a bound shuts the user off:
    [timeToMinutes] throws on it, the dispatch catches the error, prints it
    and returns. No delivery is attempted and no audit record is written,
    at any time of day. *)
Theorem numeric_bound_blocks_dispatch (fuel : nat) (u : Key) (p : Notification)
    (w : World) (user : User) (prefs : Preferences) (qh : QuietHours) :
  List.find (fun item => Key_eqb (user_id item) u) (users_file w) = Some user ->
  notificationPreferences user = Some prefs ->
  quietHours prefs = Some qh ->
  truthy (start qh) = true ->
  truthy (end_ qh) = true ->
  (exists n, start qh = TNum n)
  \/ ((exists s, start qh = TStr s) /\ exists n, end_ qh = TNum n) ->
  let w' := set_console
              (console w ++ [Error ("Error sending notification to user "
                                    +:+ Key_toString u +:+ ":")
                               (TypeError "timeStr.split is not a function")]) w in
  sendNotificationToUser E fuel u p w = (Ok tt, w')
  /\ pushed w' = pushed w
  /\ notification_logs w' = notification_logs w
  /\ memory w' = memory w.
Proof.
  intros Hfind Hprefs Hqh Hs He Hnum w'. split; [|done].
  apply sendNotificationToUser_gate_throws.
  unfold quiet_hours_gate, bind, db_findOne_user, gets.
  rewrite Hfind, Hprefs, Hqh. unfold isInQuietHours. rewrite Hs, He.
  cbn [negb orb]. unfold bind, gets.
  destruct Hnum as [[n Hn]|[[s Hstr] [n Hn]]].
  - by rewrite Hn.
  - rewrite Hn, Hstr. unfold timeToMinutes at 1.
    by destruct (List.map Number_ (split ":" s)) as [|? [|? ?]].
Qed.

(** X12. With the gate open, a dispatch to a user with K subscriptions
    makes the K attempts and then appends one audit record: the user id, the
    payload, the time, and as [deliveryResult] the very counts the send
    returned. When the write of the log is refused the record is lost and
    the dispatch still returns normally, the attempts having been made. *)
Theorem dispatch_audit_record (fuel : nat) (u : Key) (p : Notification)
    (w : World) :
  (quiet_hours_gate u w).1 = Ok false ->
  (length (getSubscriptions w u) < fuel)%nat ->
  exists res w1 w',
    sendNotification E fuel u p w = (Ok res, w1)
    /\ sendNotificationToUser E fuel u p w = (Ok tt, w')
    /\ (sent res + failed res = length (getSubscriptions w u))%nat
    /\ pushed w' = pushed w ++ ((fun s => (s, p)) <$> getSubscriptions w u)
    /\ notification_logs w' =
         match fs_writeFile E (writes w1) with
         | None =>
             notification_logs w ++
               [ {| log_id := getTime (now w); log_userId := u;
                    log_notification := p; sentAt := toISOString (now w);
                    deliveryResult := res;
                    loggedAt := toISOString (now w) |} ]
         | Some _ => notification_logs w
         end.
Proof.
  intros Hgate Hfuel.
  destruct (sendNotificationToUser_open E fuel u p w Hgate Hfuel)
    as (res & w1 & w' & Hsend & Hlog & Hdispatch).
  destruct (sendNotification_total E fuel u p w Hfuel)
    as (res0 & w0 & Hsend0 & Hp & Hc & _ & Hf).
  rewrite Hsend in Hsend0. injection Hsend0 as <- <-.
  destruct (logNotification_spec E u p (toISOString (now w1)) res w1)
    as (w2 & Hlog2 & Hp2 & _ & _ & _ & _ & Hlogs).
  rewrite Hlog in Hlog2. injection Hlog2 as <-.
  exists res, w1, w'. split; [done|]. split; [done|]. split; [done|].
  split; [by rewrite Hp2|].
  rewrite Hlogs, (frame_logs u w w1 Hf), (frame_now u w w1 Hf). done.
Qed.

(** X13. [sendBulkNotification] reports every listed user as sent,
    whatever the list, the registry, the stored windows, the push service
    and the disk: [total] and [sent] are the length of the list, [failed] is
    0 and [errors] is empty. Users without a subscription, users in quiet
    hours and users whose every delivery was refused are all counted as
    sent. *)
Theorem sendBulkNotification_reports_all_sent (fuel : nat) (p : Notification)
    (userIds : list Key) (w : World) :
  wf w ->
  (forall u, u ∈ userIds -> (length (getSubscriptions w u) < fuel)%nat) ->
  exists w',
    sendBulkNotification E fuel userIds p w =
      (Ok {| Bulk.total := length userIds; Bulk.sent := length userIds;
             Bulk.failed := 0; Bulk.errors := [] |}, w').
Proof. apply sendBulkNotification_counts. Qed.
End SchedulerMore.

(** * Further properties of the HTTP handlers *)

Section HandlerFacts.
Variable E : Env.

(** X14. POST /unsubscribe answers 400 when the user id or the endpoint is
    missing or falsy and then leaves the state alone; otherwise it answers
    200 when the user's list held the endpoint and 404 when it did not, and
    in both cases the list afterwards is the old one without that endpoint.
    It never answers 500 and never attempts a delivery. *)
Theorem unsubscribe_status_codes (req : UnsubscribeReq.t) (w : World) :
  wf w ->
  exists r w',
    unsubscribe E req w = (Ok r, w')
    /\ unsubscribe_status r =
         match UnsubscribeReq.userId req, UnsubscribeReq.endpoint req with
         | Some u, Some e =>
             if truthy_key u && negb (String.eqb e EmptyString)
             then if bool_decide (e ∈ endpoint <$> getSubscriptions w u)
                  then 200 else 404
             else 400
         | _, _ => 400
         end
    /\ (unsubscribe_status r = 400 -> w' = w)
    /\ (forall u e,
          UnsubscribeReq.userId req = Some u ->
          UnsubscribeReq.endpoint req = Some e ->
          unsubscribe_status r <> 400 ->
          getSubscriptions w' u = without e (getSubscriptions w u))
    /\ pushed w' = pushed w.
Proof.
  intros Hwf. unfold unsubscribe, try_catch, bind.
  destruct (UnsubscribeReq.userId req) as [u|];
    [|by eexists _, _].
  destruct (UnsubscribeReq.endpoint req) as [e|];
    [|by eexists _, _].
  destruct (truthy_key u && negb (String.eqb e EmptyString));
    [|by eexists _, _].
  destruct (unsubscribeUser_full E u e w Hwf)
    as (w' & Heq & Hgs & _ & _ & Hp & _).
  rewrite Heq.
  destruct (bool_decide (e ∈ endpoint <$> getSubscriptions w u));
    eexists _, w'; (split; [done|]); simpl;
    (split; [done|]); (split; [done|]); (split; [|done]);
    by intros ? ? [= <-] [= <-] _.
Qed.

Lemma sendCustomNotification_eq (fuel : nat) (u : Key) (p : Notification)
    (w : World) :
  (length (getSubscriptions w u) < fuel)%nat ->
  exists w',
    sendNotificationToUser E fuel u p w = (Ok tt, w')
    /\ sendCustomNotification E fuel u p w =
         (Ok {| Custom.success := true;
                Custom.message := Some "Notification sent";
                Custom.error := None |}, w').
Proof.
  intros Hfuel.
  destruct (sendNotificationToUser_returns E fuel u p w Hfuel) as [w' Heq].
  exists w'. split; [done|].
  unfold sendCustomNotification, try_catch, bind. by rewrite Heq.
Qed.

(** X15. POST /send-test answers 400 when the user id is missing or falsy,
    and otherwise 200 "Test notification sent" with the fixed test payload:
    also for a user who is in quiet hours, for whom not one delivery was
    attempted and nothing was logged. It never answers 500. *)
Theorem sendTestNotification_status_codes (fuel : nat) (userId : option Key)
    (w : World) :
  (forall u, userId = Some u -> (length (getSubscriptions w u) < fuel)%nat) ->
  exists w',
    sendTestNotification E fuel userId w =
      (Ok match userId with
          | Some u =>
              if truthy_key u
              then {| status := 200;
                      json := SentBody "Test notification sent" u
                                (testNotification (now w)) "success" |}
              else {| status := 400;
                      json := ErrorBody (Some "userId is required") None |}
          | None => {| status := 400;
                       json := ErrorBody (Some "userId is required") None |}
          end, w')
    /\ (forall u, userId = Some u -> truthy_key u = true ->
          (quiet_hours_gate u w).1 = Ok true ->
          pushed w' = pushed w
          /\ notification_logs w' = notification_logs w).
Proof.
  intros Hfuel. unfold sendTestNotification, try_catch, bind, gets.
  destruct userId as [u|]; [|by exists w].
  destruct (truthy_key u) eqn:Htu; [|by exists w].
  destruct (sendCustomNotification_eq fuel u (testNotification (now w)) w
              (Hfuel u eq_refl)) as (w' & Hto & Heq).
  rewrite Heq. simpl. exists w'. split; [done|].
  intros u' [= <-] _ Hquiet.
  rewrite (sendNotificationToUser_quiet E fuel u _ w Hquiet) in Hto.
  by injection Hto as <-.
Qed.
End HandlerFacts.

(** X16. POST /send-calorie-achievement answers 400 exactly when the user
    id, the calories consumed or the calorie goal is missing or falsy, and
    then leaves the state alone; otherwise it answers 200. A request that
    reports 0 calories consumed is therefore refused as incomplete. The
    handler never answers 500. *)
Theorem sendCalorieAchievement_status_codes (E : Env)
    (ieee_div ieee_mul : JsNumber -> JsNumber -> JsNumber)
    (Number_toString_other : Q -> string) (fuel : nat) (req : CalorieReq.t)
    (w : World) :
  (forall u, CalorieReq.userId req = Some u ->
             (length (getSubscriptions w u) < fuel)%nat) ->
  let complete :=
    match CalorieReq.userId req, CalorieReq.caloriesConsumed req,
          CalorieReq.calorieGoal req with
    | Some u, Some c, Some g =>
        truthy_key u && truthy_number c && truthy_number g
    | _, _, _ => false
    end in
  exists r w',
    sendCalorieAchievement E ieee_div ieee_mul Number_toString_other fuel req w
    = (Ok r, w')
    /\ status r = (if complete then 200 else 400)
    /\ (complete = false -> w' = w)
    /\ (CalorieReq.caloriesConsumed req = Some (Fin 0) -> status r = 400).
Proof.
  intros Hfuel complete.
  enough (exists r w',
            sendCalorieAchievement E ieee_div ieee_mul Number_toString_other
              fuel req w = (Ok r, w')
            /\ status r = (if complete then 200 else 400)
            /\ (complete = false -> w' = w)) as (r & w' & H1 & H2 & H3).
  { exists r, w'. split; [done|]. split; [done|]. split; [done|].
    intros H0. rewrite H2. subst complete. rewrite H0.
    destruct (CalorieReq.userId req); [|done].
    destruct (CalorieReq.calorieGoal req); [|done].
    by rewrite andb_false_r. }
  subst complete.
  destruct (CalorieReq.userId req) as [u|] eqn:Hu;
    [|eexists _, w; unfold sendCalorieAchievement, try_catch; rewrite Hu; done].
  destruct (CalorieReq.caloriesConsumed req) as [c|] eqn:Hc;
    [|eexists _, w; unfold sendCalorieAchievement, try_catch;
      rewrite Hu, Hc; done].
  destruct (CalorieReq.calorieGoal req) as [g|] eqn:Hg;
    [|eexists _, w; unfold sendCalorieAchievement, try_catch;
      rewrite Hu, Hc, Hg; done].
  destruct (truthy_key u && truthy_number c && truthy_number g) eqn:Hall.
  - apply andb_true_iff in Hall as [Hall Htg].
    apply andb_true_iff in Hall as [Htu Htc].
    destruct (sendCalorieAchievement_sends E ieee_div ieee_mul
                Number_toString_other fuel req u c g w Hu Hc Hg Htu Htc Htg
                (Hfuel u eq_refl)) as [w' Heq].
    eexists _, w'. split; [exact Heq|]. done.
  - eexists _, w.
    split; [unfold sendCalorieAchievement, try_catch; rewrite Hu, Hc, Hg, Hall;
            reflexivity|done].
Qed.


(** * The JSON store *)

(** ** Objects *)

Lemma own_obj_set_eq (k : string) (v : Json) (o : Row) :
  own k (obj_set k v o) = Some v.
Proof.
  induction o as [|[k' v'] o IH]; simpl.
  - by rewrite String.eqb_refl.
  - destruct (String.eqb k' k) eqn:Hk; simpl; by rewrite Hk.
Qed.

Lemma own_obj_set_ne (k k' : string) (v : Json) (o : Row) :
  k <> k' -> own k' (obj_set k v o) = own k' o.
Proof.
  intros Hne. induction o as [|[k0 v0] o IH]; simpl.
  - by apply String.eqb_neq in Hne as ->.
  - destruct (String.eqb k0 k) eqn:Hk; simpl; [|by rewrite IH].
    apply String.eqb_eq in Hk as ->.
    by apply String.eqb_neq in Hne as ->.
Qed.

Lemma own_None (k : string) (o : Row) : own k o = None <-> k ∉ o.*1.
Proof.
  induction o as [|[k' v'] o IH].
  - split; [intros _; apply not_elem_of_nil|done].
  - rewrite fmap_cons, not_elem_of_cons. simpl.
    destruct (String.eqb k' k) eqn:Hk.
    + apply String.eqb_eq in Hk as ->. split; [done|]. by intros [? _].
    + apply String.eqb_neq in Hk. rewrite IH. split; [|tauto].
      intros H. split; [congruence|done].
Qed.

Lemma own_elem_of (k : string) (v : Json) (o : Row) :
  NoDup o.*1 -> (k, v) ∈ o -> own k o = Some v.
Proof.
  induction o as [|[k' v'] o IH]; intros Hnd Hin.
  - by apply elem_of_nil in Hin.
  - rewrite fmap_cons in Hnd. apply NoDup_cons in Hnd as [Hk' Hnd].
    apply elem_of_cons in Hin as [[= <- <-]|Hin]; simpl.
    + by rewrite String.eqb_refl.
    + destruct (String.eqb k' k) eqn:Hk; [|by apply IH].
      apply String.eqb_eq in Hk as ->. exfalso. apply Hk'.
      apply list_elem_of_fmap. by exists (k, v).
Qed.

Lemma own_spread_notin (k : string) (src : Row) :
  forall o, k ∉ src.*1 -> own k (spread src o) = own k o.
Proof.
  unfold spread. induction src as [|[k' v'] src IH]; intros o Hk; [done|].
  rewrite fmap_cons in Hk. apply not_elem_of_cons in Hk as [Hne Hk]. simpl.
  rewrite IH by done. apply own_obj_set_ne. simpl in Hne. congruence.
Qed.

Lemma own_spread_in (k : string) (v : Json) (src : Row) :
  forall o, NoDup src.*1 -> (k, v) ∈ src -> own k (spread src o) = Some v.
Proof.
  unfold spread. induction src as [|[k' v'] src IH]; intros o Hnd Hin.
  - by apply elem_of_nil in Hin.
  - rewrite fmap_cons in Hnd. apply NoDup_cons in Hnd as [Hk' Hnd].
    apply elem_of_cons in Hin as [[= <- <-]|Hin]; simpl.
    + fold (spread src (obj_set k v o)).
      rewrite own_spread_notin by done. apply own_obj_set_eq.
    + by apply IH.
Qed.

Lemma own_spread_nil (k : string) (row : Row) :
  NoDup row.*1 -> own k (spread row []) = own k row.
Proof.
  intros Hnd. destruct (own k row) as [v|] eqn:Hk.
  - apply own_spread_in; [done|].
    clear Hnd. induction row as [|[k' v'] row IH]; [done|]. simpl in Hk.
    destruct (String.eqb k' k) eqn:Hkk.
    + apply String.eqb_eq in Hkk as ->. injection Hk as ->.
      apply list_elem_of_here.
    + apply list_elem_of_further. by apply IH.
  - rewrite own_spread_notin; [done|]. by apply own_None.
Qed.



(** ** [findIndex] and [find] *)

Lemma findIndex_Some {A} (p : A -> bool) (l : list A) (i : nat) :
  findIndex p l = Some i <->
  exists x, l !! i = Some x /\ p x = true
            /\ forall j y, (j < i)%nat -> l !! j = Some y -> p y = false.
Proof.
  revert i. induction l as [|x l IH]; intros i; simpl.
  - split; [done|]. by intros (y & Hy & _).
  - destruct (p x) eqn:Hpx.
    + split.
      * intros [= <-]. exists x. split; [done|]. split; [done|]. lia.
      * intros (y & Hy & Hpy & Hfirst). destruct i as [|i]; [done|].
        specialize (Hfirst 0%nat x ltac:(lia) eq_refl). congruence.
    + split.
      * intros H. apply fmap_Some in H as (i' & Hi & ->).
        apply IH in Hi as (y & Hy & Hpy & Hfirst).
        exists y. split; [done|]. split; [done|].
        intros [|j] z Hj Hz; simpl in Hz; [congruence|].
        apply (Hfirst j); [lia|done].
      * intros (y & Hy & Hpy & Hfirst). destruct i as [|i]; simpl in Hy.
        { congruence. }
        apply fmap_Some. exists i. split; [|done].
        apply IH. exists y. split; [done|]. split; [done|].
        intros j z Hj Hz. apply (Hfirst (S j)); [lia|done].
Qed.

Lemma findIndex_None {A} (p : A -> bool) (l : list A) :
  findIndex p l = None <-> forall x, x ∈ l -> p x = false.
Proof.
  induction l as [|x l IH]; simpl.
  - split; [|done]. by intros _ x ?%elem_of_nil.
  - destruct (p x) eqn:Hpx.
    + split; [done|]. intros H. specialize (H x (list_elem_of_here _ _)).
      congruence.
    + rewrite fmap_None, IH. split.
      * intros H y Hy. apply elem_of_cons in Hy as [->|Hy]; [done|].
        by apply H.
      * intros H y Hy. apply H. by apply list_elem_of_further.
Qed.

Lemma find_head_filter {A} (p : A -> bool) (l : list A) :
  List.find p l = head (List.filter p l).
Proof.
  induction l as [|x l IH]; simpl; [done|]. by destruct (p x).
Qed.

Lemma filter_all {A} (p : A -> bool) (l : list A) :
  (forall x, p x = true) -> List.filter p l = l.
Proof.
  intros Hp. induction l as [|x l IH]; simpl; [done|]. by rewrite Hp, IH.
Qed.


(** ** [Math.max] *)


(** ** The ids [insert] assigns *)

Section StoreFacts.
Variable E : Env.
Variable ToNumber_other : Json -> JsNumber.





Lemma readFile_table (f : string) (d : Disk) (data : list Row) :
  files d !! f = Some (Table data) -> JSONDatabase.readFile f d = (data, d).
Proof. intros H. unfold JSONDatabase.readFile. by rewrite H. Qed.

Lemma readFile_files (f : string) (d : Disk) :
  files (JSONDatabase.readFile f d).2 = files d
  /\ disk_writes (JSONDatabase.readFile f d).2 = disk_writes d
  /\ disk_now (JSONDatabase.readFile f d).2 = disk_now d.
Proof.
  unfold JSONDatabase.readFile. by destruct (files d !! f) as [[|]|].
Qed.

Lemma readFile_unreadable (f : string) (d : Disk) :
  (forall data, files d !! f <> Some (Table data)) ->
  (JSONDatabase.readFile f d).1 = [].
Proof.
  intros H. unfold JSONDatabase.readFile.
  destruct (files d !! f) as [[|data]|]; [done| |done]. by destruct (H data).
Qed.

Lemma writeFile_spec (f : string) (data : list Row) (d : Disk) :
  match fs_writeFile E (disk_writes d) with
  | None =>
      (JSONDatabase.writeFile E f data d).1 = true
      /\ files (JSONDatabase.writeFile E f data d).2
         = <[f := Table (stringify_row <$> data)]> (files d)
      /\ disk_console (JSONDatabase.writeFile E f data d).2 = disk_console d
  | Some e =>
      (JSONDatabase.writeFile E f data d).1 = false
      /\ files (JSONDatabase.writeFile E f data d).2 = files d
      /\ disk_console (JSONDatabase.writeFile E f data d).2
         = disk_console d ++ [Error ("Error writing " +:+ f +:+ ":") e]
  end.
Proof.
  unfold JSONDatabase.writeFile, fs_write.
  by destruct (fs_writeFile E (disk_writes d)).
Qed.

Lemma insert_eq (f : string) (item : Row) (d : Disk) :
  let data := (JSONDatabase.readFile f d).1 in
  let d1 := (JSONDatabase.readFile f d).2 in
  let new := JSONDatabase.newItem ToNumber_other data item (disk_now d) in
  JSONDatabase.insert E ToNumber_other f item d
  = (new, (JSONDatabase.writeFile E f (data ++ [new]) d1).2).
Proof.
  intros data d1 new. unfold JSONDatabase.insert.
  destruct (readFile_files f d) as (_ & _ & Hnow).
  subst data d1 new. destruct (JSONDatabase.readFile f d) as [data d1].
  simpl in *. rewrite Hnow.
  by destruct (JSONDatabase.writeFile E f _ d1).
Qed.

Lemma insert_files (f : string) (item : Row) (d : Disk) :
  let r := JSONDatabase.insert E ToNumber_other f item d in
  r.1 = JSONDatabase.newItem ToNumber_other (JSONDatabase.readFile f d).1 item
          (disk_now d)
  /\ match fs_writeFile E (disk_writes d) with
     | Some e =>
         files r.2 = files d
         /\ last (disk_console r.2)
            = Some (Error ("Error writing " +:+ f +:+ ":") e)
     | None =>
         files r.2
         = <[f := Table (stringify_row
                           <$> ((JSONDatabase.readFile f d).1 ++ [r.1]))]> (files d)
     end.
Proof.
  intros r. subst r. rewrite !insert_eq. simpl. split; [done|].
  destruct (readFile_files f d) as (Hfiles & Hwrites & _).
  pose proof (writeFile_spec f
                ((JSONDatabase.readFile f d).1
                 ++ [JSONDatabase.newItem ToNumber_other
                       (JSONDatabase.readFile f d).1 item (disk_now d)])
                (JSONDatabase.readFile f d).2) as Hw.
  rewrite Hwrites in Hw.
  destruct (fs_writeFile E (disk_writes d)) as [e|].
  - destruct Hw as (_ & Hfl & Hc). rewrite Hfl, Hc, Hfiles. split; [done|].
    by rewrite last_snoc.
  - destruct Hw as (_ & Hfl & _). by rewrite Hfl, Hfiles.
Qed.

Lemma newItem_id_assigned (data : list Row) (item : Row) (now_ : Date) :
  own "id" item = None ->
  own "id" (JSONDatabase.newItem ToNumber_other data item now_)
  = Some (JNum (JSONDatabase.newId ToNumber_other data)).
Proof.
  intros Hid. unfold JSONDatabase.newItem.
  rewrite own_obj_set_ne by done.
  rewrite own_spread_notin by (by apply own_None). done.
Qed.

End StoreFacts.




(** X20. When the table cannot be read, because the file is missing or
    does not parse, [insert] takes it for empty: the item gets id 1 and, the
    write going through, the file is replaced by a table of this one row.
    What an unparseable file held is gone. *)
Theorem insert_over_unreadable_file (E : Env) (ToNumber_other : Json -> JsNumber)
    (f : string) (item : Row) (d : Disk) :
  (forall data, files d !! f <> Some (Table data)) ->
  own "id" item = None ->
  fs_writeFile E (disk_writes d) = None ->
  let r := JSONDatabase.insert E ToNumber_other f item d in
  own "id" r.1 = Some (JNum (Fin 1))
  /\ files r.2 !! f = Some (Table [stringify_row r.1]).
Proof.
  intros Hbad Hid Hok r.
  destruct (insert_files E ToNumber_other f item d) as [Hr Hfl].
  cbv zeta in Hr, Hfl. subst r. rewrite Hok in Hfl.
  rewrite (readFile_unreadable f d Hbad) in Hr, Hfl. split.
  - rewrite Hr. by rewrite newItem_id_assigned.
  - rewrite Hfl. by rewrite lookup_insert_eq.
Qed.

(** ** [update], [delete], [find] *)

Section StoreMore.
Variable E : Env.

Lemma update_found (f : string) (id : Json) (updates : Row) (d : Disk)
    (data : list Row) (i : nat) (row : Row) :
  files d !! f = Some (Table data) ->
  data !! i = Some row ->
  has_id id row = true ->
  (forall j y, (j < i)%nat -> data !! j = Some y -> has_id id y = false) ->
  let row' := JSONDatabase.merged row updates (disk_now d) in
  JSONDatabase.update E f id updates d
  = (Some row', (JSONDatabase.writeFile E f (<[i := row']> data) d).2).
Proof.
  intros Hf Hi Hid Hfirst row'. unfold JSONDatabase.update.
  rewrite (readFile_table f d data Hf).
  assert (findIndex (has_id id) data = Some i) as ->.
  { apply findIndex_Some. by exists row. }
  rewrite Hi. fold row'. by destruct (JSONDatabase.writeFile E f _ d).
Qed.

Lemma update_not_found (f : string) (id : Json) (updates : Row) (d : Disk) :
  (forall row, row ∈ (JSONDatabase.readFile f d).1 -> has_id id row = false) ->
  JSONDatabase.update E f id updates d = (None, (JSONDatabase.readFile f d).2).
Proof.
  intros Hnone. unfold JSONDatabase.update.
  destruct (JSONDatabase.readFile f d) as [data d1]. simpl in *.
  by apply findIndex_None in Hnone as ->.
Qed.

Lemma delete_found (f : string) (id : Json) (d : Disk)
    (data : list Row) (i : nat) (row : Row) :
  files d !! f = Some (Table data) ->
  data !! i = Some row ->
  has_id id row = true ->
  (forall j y, (j < i)%nat -> data !! j = Some y -> has_id id y = false) ->
  JSONDatabase.delete E f id d
  = (true, (JSONDatabase.writeFile E f (JSONDatabase.splice1 i data) d).2).
Proof.
  intros Hf Hi Hid Hfirst. unfold JSONDatabase.delete.
  rewrite (readFile_table f d data Hf).
  assert (findIndex (has_id id) data = Some i) as ->.
  { apply findIndex_Some. by exists row. }
  by destruct (JSONDatabase.writeFile E f _ d).
Qed.

Lemma delete_not_found (f : string) (id : Json) (d : Disk) :
  (forall row, row ∈ (JSONDatabase.readFile f d).1 -> has_id id row = false) ->
  JSONDatabase.delete E f id d = (false, (JSONDatabase.readFile f d).2).
Proof.
  intros Hnone. unfold JSONDatabase.delete.
  destruct (JSONDatabase.readFile f d) as [data d1]. simpl in *.
  by apply findIndex_None in Hnone as ->.
Qed.

Lemma writeFile_files (f : string) (data : list Row) (d : Disk) :
  files (JSONDatabase.writeFile E f data d).2
  = match fs_writeFile E (disk_writes d) with
    | None => <[f := Table (stringify_row <$> data)]> (files d)
    | Some _ => files d
    end.
Proof.
  pose proof (writeFile_spec E f data d) as H.
  destruct (fs_writeFile E (disk_writes d)); by destruct H as (_ & -> & _).
Qed.
End StoreMore.

Lemma has_id_NaN (row : Row) : has_id (JNum NaN) row = false.
Proof.
  unfold has_id. destruct (default JUndefined (own "id" row)) as [| | |[|]| | |];
    done.
Qed.

Lemma matches_nil (item : Row) : matches [] item = true.
Proof. done. Qed.

Lemma matches_id_NaN (row : Row) : matches [("id", JNum NaN)] row = false.
Proof.
  unfold matches, differs. simpl.
  destruct (own "id" row) as [[| | |[|]| | |]|]; done.
Qed.

(** X21. [update] changes the first row whose id is strictly equal to the
    given one, and only that row: every property of [updates] is set on it,
    [updatedAt] is set from the clock, the other properties stay. The merged
    row is returned whether or not the write went through; when it did not,
    the files are as before. *)
Theorem update_merges (E : Env) (f : string) (id : Json) (updates : Row)
    (d : Disk) (data : list Row) (i : nat) (row : Row) :
  files d !! f = Some (Table data) ->
  data !! i = Some row ->
  has_id id row = true ->
  (forall j y, (j < i)%nat -> data !! j = Some y -> has_id id y = false) ->
  NoDup row.*1 ->
  NoDup updates.*1 ->
  let r := JSONDatabase.update E f id updates d in
  exists row',
    r.1 = Some row'
    /\ (forall k v, (k, v) ∈ updates -> k <> "updatedAt" -> own k row' = Some v)
    /\ own "updatedAt" row' = Some (JStr (toISOString (disk_now d)))
    /\ (forall k, k ∉ updates.*1 -> k <> "updatedAt" -> own k row' = own k row)
    /\ files r.2
       = match fs_writeFile E (disk_writes d) with
         | None => <[f := Table (stringify_row <$> <[i := row']> data)]> (files d)
         | Some _ => files d
         end.
Proof.
  intros Hf Hi Hid Hfirst Hrow Hupd r. subst r.
  rewrite (update_found E f id updates d data i row Hf Hi Hid Hfirst).
  eexists. split; [done|]. simpl. unfold JSONDatabase.merged.
  split; [|split; [|split]].
  - intros k v Hin Hk. rewrite own_obj_set_ne by congruence.
    by apply own_spread_in.
  - apply own_obj_set_eq.
  - intros k Hk Hu. rewrite own_obj_set_ne by congruence.
    rewrite own_spread_notin by done. by apply own_spread_nil.
  - apply writeFile_files.
Qed.

(** X22. An id that is [NaN], which is what [parseInt] makes of a user id
    that does not start with a digit, is never found: [NaN] is not strictly
    equal to anything, itself included. [update] answers [null], [delete]
    answers [false] and [findOne] by that id answers nothing, on every
    table, and no file is written. *)
Theorem NaN_id_never_found (E : Env) (f : string) (updates : Row) (d : Disk) :
  (JSONDatabase.update E f (JNum NaN) updates d).1 = None
  /\ (JSONDatabase.delete E f (JNum NaN) d).1 = false
  /\ (JSONDatabase.findOne f [("id", JNum NaN)] d).1 = None
  /\ files (JSONDatabase.update E f (JNum NaN) updates d).2 = files d
  /\ files (JSONDatabase.delete E f (JNum NaN) d).2 = files d
  /\ disk_writes (JSONDatabase.update E f (JNum NaN) updates d).2 = disk_writes d
  /\ disk_writes (JSONDatabase.delete E f (JNum NaN) d).2 = disk_writes d.
Proof.
  rewrite update_not_found by (intros; apply has_id_NaN).
  rewrite delete_not_found by (intros; apply has_id_NaN).
  destruct (readFile_files f d) as (Hfl & Hw & _). simpl.
  split; [done|]. split; [done|]. split; [|done].
  unfold JSONDatabase.findOne.
  destruct (JSONDatabase.readFile f d) as [data d1]. simpl.
  clear. induction data as [|row data IH]; [done|]. cbn [List.find].
  by rewrite matches_id_NaN.
Qed.

(** X23. [delete] takes out the first row whose id is strictly equal to
    the given one and keeps the others in their order; it answers [true]
    as soon as such a row exists, also when the write is refused and the
    row is still in the file. When no row has the id it answers [false] and
    writes nothing. *)
Theorem delete_removes_first (E : Env) (f : string) (id : Json) (d : Disk)
    (data : list Row) :
  files d !! f = Some (Table data) ->
  let r := JSONDatabase.delete E f id d in
  (forall i row,
     data !! i = Some row ->
     has_id id row = true ->
     (forall j y, (j < i)%nat -> data !! j = Some y -> has_id id y = false) ->
     r.1 = true
     /\ files r.2
        = match fs_writeFile E (disk_writes d) with
          | None =>
              <[f := Table (stringify_row <$> (take i data ++ drop (S i) data))]>
                (files d)
          | Some _ => files d
          end)
  /\ ((forall row, row ∈ data -> has_id id row = false) -> r = (false, d)).
Proof.
  intros Hf r. subst r. split.
  - intros i row Hi Hid Hfirst.
    rewrite (delete_found E f id d data i row Hf Hi Hid Hfirst). simpl.
    split; [done|]. apply writeFile_files.
  - intros Hnone. rewrite delete_not_found.
    + by rewrite (readFile_table f d data Hf).
    + by rewrite (readFile_table f d data Hf).
Qed.

(** X24. [find] answers the rows that match the query, all of them and in
    the order of the table, and [findOne] answers the first of these; with
    the empty query every row matches. Neither writes a file. *)
Theorem find_and_findOne (f : string) (query : Row) (d : Disk) :
  (JSONDatabase.find f query d).1
  = List.filter (matches query) (JSONDatabase.readFile f d).1
  /\ (JSONDatabase.findOne f query d).1 = head (JSONDatabase.find f query d).1
  /\ (JSONDatabase.find f [] d).1 = (JSONDatabase.readFile f d).1
  /\ files (JSONDatabase.find f query d).2 = files d
  /\ files (JSONDatabase.findOne f query d).2 = files d
  /\ disk_writes (JSONDatabase.find f query d).2 = disk_writes d
  /\ disk_writes (JSONDatabase.findOne f query d).2 = disk_writes d.
Proof.
  destruct (readFile_files f d) as (Hfl & Hw & _).
  unfold JSONDatabase.find, JSONDatabase.findOne.
  destruct (JSONDatabase.readFile f d) as [data d1]. simpl in *.
  assert ((if (length query =? 0)%nat then data
           else List.filter (matches query) data)
          = List.filter (matches query) data) as Hfind.
  { destruct query; simpl; [|done]. symmetry. by apply filter_all. }
  rewrite Hfind. split; [done|]. split; [apply find_head_filter|]. done.
Qed.


(** ** [init] *)

Lemma init_files_spec (E : Env) (names : list string) :
  forall d : Disk,
    let r := JSONDatabase.init_files E names d in
    (forall f, files r.2 !! f = files d !! f
               \/ (files d !! f = None /\ f ∈ names
                   /\ files r.2 !! f = Some (Table [])))
    /\ (r.1 = None -> forall f, f ∈ names -> is_Some (files r.2 !! f))
    /\ ((forall n, fs_writeFile E n = None) -> r.1 = None).
Proof.
  induction names as [|file rest IH]; intros d; simpl.
  - split; [by left|]. split; [by intros _ f ?%elem_of_nil|done].
  - destruct (files d !! file) as [c|] eqn:Hfile.
    + destruct (IH d) as (HA & HB & HC). cbv zeta in *.
      split; [|split; [|done]].
      * intros f. destruct (HA f) as [Hsame|(Hn & Hin & Hnew)]; [by left|].
        right. split; [done|]. split; [by apply list_elem_of_further|done].
      * intros Hok f Hf. apply elem_of_cons in Hf as [->|Hf]; [|by apply HB].
        destruct (HA file) as [->|(Hn & _)]; [by rewrite Hfile|congruence].
    + unfold fs_write. destruct (fs_writeFile E (disk_writes d)) as [e|] eqn:Hw.
      * simpl. split; [by left|]. split; [done|].
        intros Hall. rewrite Hall in Hw. done.
      * match goal with
        | |- context [JSONDatabase.init_files E rest ?d0] =>
            remember d0 as d' eqn:Hd'
        end.
        destruct (IH d') as (HA & HB & HC). cbv zeta in *.
        assert (forall f, f <> file -> files d' !! f = files d !! f) as Hother.
        { intros f Hne. rewrite Hd'. simpl. by rewrite lookup_insert_ne. }
        assert (files d' !! file = Some (Table [])) as Hthis.
        { rewrite Hd'. simpl. by rewrite lookup_insert_eq. }
        clear Hd'.
        split; [|split; [|done]].
        -- intros f. destruct (decide (f = file)) as [->|Hne].
           ++ right. split; [done|]. split; [apply list_elem_of_here|].
              destruct (HA file) as [->|(Hn & _)]; [done|congruence].
           ++ destruct (HA f) as [->|(Hn & Hin & Hnew)].
              ** left. by apply Hother.
              ** right. rewrite <- (Hother f Hne). split; [done|].
                 split; [by apply list_elem_of_further|done].
        -- intros Hok f Hf. apply elem_of_cons in Hf as [->|Hf]; [|by apply HB].
           destruct (HA file) as [->|(Hn & _)]; [by rewrite Hthis|congruence].
Qed.

(** X26. [init] creates the four tables that are missing, each holding
    [[]], and touches nothing else: a file that exists is left as it is,
    whether it parses or not. With a directory that can be made and a disk
    that takes the writes, all four files exist afterwards, and a second
    [init] changes no file. *)
Theorem init_creates_only_missing_files (E : Env) (mkdir_error : option JsError)
    (d : Disk) :
  let four := ["users.json"; "foods.json"; "user_foods.json"; "exercises.json"] in
  let d' := JSONDatabase.init E mkdir_error d in
  (forall f, files d' !! f = files d !! f
             \/ (files d !! f = None /\ f ∈ four
                 /\ files d' !! f = Some (Table [])))
  /\ (mkdir_error = None -> (forall n, fs_writeFile E n = None) ->
      (forall f, f ∈ four -> is_Some (files d' !! f))
      /\ forall (E' : Env) (mkdir_error' : option JsError),
           files (JSONDatabase.init E' mkdir_error' d') = files d').
Proof.
  intros four d'.
  assert (forall (E0 : Env) (mk : option JsError) (d0 : Disk) (f : string),
            files (JSONDatabase.init E0 mk d0) !! f = files d0 !! f
            \/ (files d0 !! f = None /\ f ∈ four
                /\ files (JSONDatabase.init E0 mk d0) !! f = Some (Table [])))
    as HA.
  { intros E0 mk d0 f. unfold JSONDatabase.init. destruct mk; [by left|].
    destruct (init_files_spec E0 four d0) as (H & _). cbv zeta in H.
    fold four. destruct (JSONDatabase.init_files E0 four d0) as [[e|] d1];
      simpl in *; apply H. }
  split; [apply HA|]. intros -> Hok.
  assert (forall f, f ∈ four -> is_Some (files d' !! f)) as HB.
  { subst d'. unfold JSONDatabase.init.
    destruct (init_files_spec E four d) as (_ & H & Hnone).
    cbv zeta in H, Hnone. fold four. specialize (Hnone Hok).
    destruct (JSONDatabase.init_files E four d) as [[e|] d1]; simpl in *;
      [done|]. by apply H. }
  split; [done|]. intros E' mk'. apply map_eq. intros f.
  destruct (HA E' mk' d' f) as [->|(Hn & Hin & _)]; [done|].
  destruct (HB f Hin) as [c Hc]. congruence.
Qed.

(** ** The VAPID keys *)

Section VapidFacts.
Variable generateVAPIDKeys : nat -> string * string.
Variable setVapidDetails_error : string -> string -> option JsError.

Lemma initVapidKeys_fields (E : Env) (v : Vapid) :
  let v0 := chooseVapidKeys E generateVAPIDKeys v in
  let v1 := initVapidKeys E generateVAPIDKeys setVapidDetails_error v in
  vapidKeys v1 = vapidKeys v0
  /\ vapid_file v1 = vapid_file v0
  /\ vapid_writes v1 = vapid_writes v0
  /\ vapid_generated v1 = vapid_generated v0.
Proof.
  intros v0 v1. subst v0 v1. unfold initVapidKeys.
  destruct (vapidKeys (chooseVapidKeys E generateVAPIDKeys v))
    as [[[pub|] [priv|]]|] eqn:Hk; try done.
  by destruct (setVapidDetails_error pub priv).
Qed.

Lemma chooseVapidKeys_usable (E : Env) (v : Vapid) (keys : VapidKeys) :
  vapid_file v = Some keys ->
  truthy_string (publicKey keys) = true ->
  truthy_string (privateKey keys) = true ->
  chooseVapidKeys E generateVAPIDKeys v = set_vapidKeys keys v.
Proof.
  intros Hf Hpub Hpriv. unfold chooseVapidKeys, loadVapidKeys.
  by rewrite Hf, Hpub, Hpriv.
Qed.

Lemma chooseVapidKeys_unusable (E : Env) (v : Vapid) :
  truthy_string (publicKey (loadVapidKeys v))
  && truthy_string (privateKey (loadVapidKeys v)) = false ->
  let newKeys :=
    {| publicKey := Some (generateVAPIDKeys (vapid_generated v)).1;
       privateKey := Some (generateVAPIDKeys (vapid_generated v)).2 |} in
  let v1 := chooseVapidKeys E generateVAPIDKeys v in
  vapidKeys v1 = Some newKeys
  /\ vapid_generated v1 = S (vapid_generated v)
  /\ vapid_writes v1 = S (vapid_writes v)
  /\ vapid_file v1 = match fs_writeFile E (vapid_writes v) with
                     | None => Some newKeys
                     | Some _ => vapid_file v
                     end.
Proof.
  intros Hbad newKeys v1. subst newKeys v1. unfold chooseVapidKeys.
  assert (negb (truthy_string (publicKey (loadVapidKeys v)))
          || negb (truthy_string (privateKey (loadVapidKeys v))) = true) as ->.
  { rewrite <- negb_andb. by rewrite Hbad. }
  simpl. destruct (generateVAPIDKeys (vapid_generated v)) as [pub priv].
  unfold saveVapidKeys. simpl.
  by destruct (fs_writeFile E (vapid_writes v)).
Qed.

(** X27. The keys the service settles on survive a restart: when the key
    file held a usable pair, or a new pair was made and its save went
    through, the next start finds that pair in the file and takes it over.
    No new keys are made and nothing is written, so the public key handed
    to browsers stays the same. *)
Theorem vapid_keys_survive_restart (E E' : Env) (v : Vapid) :
  (forall n, (generateVAPIDKeys n).1 <> EmptyString
             /\ (generateVAPIDKeys n).2 <> EmptyString) ->
  fs_writeFile E (vapid_writes v) = None ->
  let v1 := initVapidKeys E generateVAPIDKeys setVapidDetails_error v in
  let v2 := initVapidKeys E' generateVAPIDKeys setVapidDetails_error
              (vapid_restart v1) in
  vapidKeys v2 = vapidKeys v1
  /\ getPublicKey v2 = getPublicKey v1
  /\ is_Some (getPublicKey v1)
  /\ vapid_file v2 = vapid_file v1
  /\ vapid_generated v2 = vapid_generated v1
  /\ vapid_writes v2 = vapid_writes v1.
Proof.
  intros Hgen Hok v1 v2.
  destruct (initVapidKeys_fields E v) as (Hk1 & Hf1 & Hw1 & Hg1).
  destruct (initVapidKeys_fields E' (vapid_restart v1)) as (Hk2 & Hf2 & Hw2 & Hg2).
  cbv zeta in *. fold v1 in Hk1, Hf1, Hw1, Hg1, Hk2, Hf2, Hw2, Hg2.
  fold v2 in Hk2, Hf2, Hw2, Hg2.
  assert (exists keys,
            vapidKeys v1 = Some keys /\ vapid_file v1 = Some keys
            /\ truthy_string (publicKey keys) = true
            /\ truthy_string (privateKey keys) = true) as (keys & Hkeys & Hfile & Hpub & Hpriv).
  { destruct (truthy_string (publicKey (loadVapidKeys v))
              && truthy_string (privateKey (loadVapidKeys v))) eqn:Hus.
    - apply andb_true_iff in Hus as [Hpub Hpriv].
      unfold loadVapidKeys in Hpub, Hpriv.
      destruct (vapid_file v) as [keys|] eqn:Hfile; [|done].
      rewrite (chooseVapidKeys_usable E v keys Hfile Hpub Hpriv) in Hk1, Hf1.
      exists keys. simpl in *. by rewrite Hk1, Hf1, Hfile.
    - destruct (chooseVapidKeys_unusable E v Hus) as (Hk & _ & _ & Hf).
      cbv zeta in Hk, Hf. rewrite Hok in Hf.
      eexists. rewrite Hk1, Hf1, Hk, Hf. split; [done|]. split; [done|].
      destruct (Hgen (vapid_generated v)) as [Hp Hq]. simpl.
      split; apply negb_true_iff; by apply String.eqb_neq. }
  assert (chooseVapidKeys E' generateVAPIDKeys (vapid_restart v1)
          = set_vapidKeys keys (vapid_restart v1)) as Hchoose.
  { by apply chooseVapidKeys_usable. }
  rewrite Hchoose in Hk2, Hf2, Hw2, Hg2. simpl in Hk2, Hf2, Hw2, Hg2.
  assert (getPublicKey v1 = publicKey keys) as Hget1.
  { unfold getPublicKey. by rewrite Hkeys, Hpub. }
  split; [by rewrite Hk2, Hkeys|]. split; [|split].
  - rewrite Hget1. unfold getPublicKey. by rewrite Hk2, Hpub.
  - rewrite Hget1. destruct (publicKey keys); [by eexists|done].
  - done.
Qed.

(** X28. When no usable pair is on file and the save of the new pair is
    refused, the service carries on with keys that exist in memory only:
    [getPublicKey] hands out the new public key, the file is as it was, and
    the next start, finding no pair, makes the next pair and hands out
    that one. *)
Theorem vapid_keys_lost_when_save_fails (E E' : Env) (v : Vapid) (err : JsError) :
  (forall n, (generateVAPIDKeys n).1 <> EmptyString
             /\ (generateVAPIDKeys n).2 <> EmptyString) ->
  truthy_string (publicKey (loadVapidKeys v))
  && truthy_string (privateKey (loadVapidKeys v)) = false ->
  fs_writeFile E (vapid_writes v) = Some err ->
  let v1 := initVapidKeys E generateVAPIDKeys setVapidDetails_error v in
  let v2 := initVapidKeys E' generateVAPIDKeys setVapidDetails_error
              (vapid_restart v1) in
  getPublicKey v1 = Some (generateVAPIDKeys (vapid_generated v)).1
  /\ vapid_file v1 = vapid_file v
  /\ getPublicKey v2 = Some (generateVAPIDKeys (S (vapid_generated v))).1.
Proof.
  intros Hgen Hbad Hfail v1 v2.
  destruct (initVapidKeys_fields E v) as (Hk1 & Hf1 & Hw1 & Hg1).
  destruct (initVapidKeys_fields E' (vapid_restart v1)) as (Hk2 & _).
  cbv zeta in *. fold v1 in Hk1, Hf1, Hw1, Hg1, Hk2. fold v2 in Hk2.
  destruct (chooseVapidKeys_unusable E v Hbad) as (Hk & Hg & _ & Hf).
  cbv zeta in Hk, Hg, Hf. rewrite Hfail in Hf.
  rewrite Hk in Hk1. rewrite Hf in Hf1. rewrite Hg in Hg1.
  assert (forall n, truthy_string (Some (generateVAPIDKeys n).1) = true) as Hpub.
  { intros n. destruct (Hgen n) as [Hp _]. simpl.
    apply negb_true_iff. by apply String.eqb_neq. }
  split; [|split; [done|]].
  - unfold getPublicKey. rewrite Hk1. simpl publicKey. by rewrite Hpub.
  - assert (truthy_string (publicKey (loadVapidKeys (vapid_restart v1)))
            && truthy_string (privateKey (loadVapidKeys (vapid_restart v1)))
            = false) as Hbad'.
    { unfold loadVapidKeys in *. simpl. by rewrite Hf1. }
    destruct (chooseVapidKeys_unusable E' (vapid_restart v1) Hbad') as (Hk' & _).
    cbv zeta in Hk'. simpl in Hk'. rewrite Hg1 in Hk'. rewrite Hk' in Hk2.
    unfold getPublicKey. rewrite Hk2. simpl publicKey. by rewrite Hpub.
Qed.
End VapidFacts.

(** ** What the send reports *)

Section ReportFacts.
Variable E : Env.

Lemma send_one_result (u : Key) (p : Notification) (x : Subscription)
    (acc : SendResult) (w : World) :
  (send_one E u p x acc w).1
  = Ok match webpush_sendNotification E (length (pushed w)) x p with
       | None => {| sent := S (sent acc); failed := failed acc;
                    errors := errors acc |}
       | Some e => {| sent := sent acc; failed := S (failed acc);
                      errors := Some (default [] (errors acc)
                                      ++ [(endpoint x, message e)]) |}
       end.
Proof.
  unfold send_one, try_catch, bind, webpush_send.
  destruct (webpush_sendNotification E (length (pushed w)) x p) as [err|].
  - destruct (bool_decide (statusCode err = Some 410)); [|done].
    unfold console_log, modify. simpl.
    match goal with
    | |- context [unsubscribeUser E u (endpoint x) ?w0] =>
        destruct (unsubscribeUser_prune E u (endpoint x) w0)
          as (removed & w' & Heq & _)
    end.
    by rewrite Heq.
  - done.
Qed.

Lemma for_of_send_errors (u : Key) (p : Notification) (r : Ref) (fuel : nat) :
  forall (i : nat) (acc : SendResult) (w : World) (es : list (string * string)),
    (length (array w r) - i < fuel)%nat ->
    errors acc = Some es ->
    exists acc' w',
      for_of fuel r i (send_one E u p) acc w = (Ok acc', w')
      /\ errors acc'
         = Some (es ++ failures E p (length (pushed w)) (drop i (array w r)))
      /\ failed acc'
         = (failed acc
            + length (failures E p (length (pushed w)) (drop i (array w r))))%nat
      /\ (sent acc' + failed acc'
          = sent acc + failed acc + length (drop i (array w r)))%nat.
Proof.
  induction fuel as [|fuel IH]; intros i acc w es Hfuel Hes; [lia|].
  simpl. destruct (array w r !! i) as [x|] eqn:Hx.
  - destruct (send_one_spec E u p x acc w)
      as (acc1 & w1 & Heq & Hp1 & Hc1 & _ & Hf1).
    pose proof (send_one_result u p x acc w) as Hres.
    rewrite Heq in *. simpl in Hres. injection Hres as Hacc1.
    pose proof (array_lookup_allocated w r i x Hx) as Hr.
    pose proof (dispatch_frame_array u w w1 r Hf1 Hr) as Harr.
    set (step := match webpush_sendNotification E (length (pushed w)) x p with
                 | Some e => [(endpoint x, message e)]
                 | None => []
                 end).
    assert (errors acc1 = Some (es ++ step)
            /\ failed acc1 = (failed acc + length step)%nat) as [Hes1 Hfl1].
    { subst step acc1.
      destruct (webpush_sendNotification E (length (pushed w)) x p); simpl.
      - rewrite Hes. simpl. split; [done|lia].
      - rewrite Hes, app_nil_r. split; [done|lia]. }
    destruct (IH (S i) acc1 w1 (es ++ step)) as (acc' & w' & Heq' & He' & Hfl' & Hc').
    { rewrite Harr. apply lookup_lt_Some in Hx. lia. }
    { done. }
    rewrite Harr in *. exists acc', w'. split; [done|].
    rewrite (drop_S _ _ _ Hx). simpl. fold step.
    rewrite Hp1, length_app in He', Hfl'. simpl in He', Hfl'.
    replace (length (pushed w) + 1)%nat with (S (length (pushed w))) in * by lia.
    split; [by rewrite He', <- app_assoc|].
    split; [rewrite Hfl', Hfl1, length_app; lia|]. lia.
  - apply lookup_ge_None in Hx. rewrite (drop_ge _ _ Hx). simpl.
    exists acc, w. rewrite app_nil_r. split; [done|]. split; [done|].
    split; lia.
Qed.
End ReportFacts.

(** X29. For a user the registry knows, the answer of [sendNotification]
    tells which deliveries failed and why: [errors] lists, in the order of
    the attempts, the endpoint and the message of every rejection, the gone
    endpoints included; [failed] is the length of that list and [sent] the
    number of the remaining attempts. *)
Theorem sendNotification_reports_failures (E : Env) (fuel : nat) (u : Key)
    (p : Notification) (w : World) :
  Map_has u (subscriptions w) = true ->
  (length (getSubscriptions w u) < fuel)%nat ->
  let report := failures E p (length (pushed w)) (getSubscriptions w u) in
  exists res w',
    sendNotification E fuel u p w = (Ok res, w')
    /\ errors res = Some report
    /\ failed res = length report
    /\ sent res = (length (getSubscriptions w u) - length report)%nat.
Proof.
  intros Hhas Hfuel report. subst report.
  unfold Map_has in Hhas.
  destruct (Map_get u (subscriptions w)) as [r|] eqn:Hget; [|done].
  assert (getSubscriptions w u = array w r) as Hgs
    by (unfold getSubscriptions; by rewrite Hget).
  unfold sendNotification, bind, gets, Map_has. rewrite Hget. simpl.
  rewrite Hget.
  destruct (for_of_send_errors E u p r fuel 0
              {| sent := 0; failed := 0; errors := Some [] |} w [])
    as (res & w' & Heq & He & Hfl & Hc); [rewrite <- Hgs; lia|done|].
  rewrite drop_0 in *. simpl in *. rewrite <- Hgs in *.
  exists res, w'. split; [done|]. split; [done|]. split; [done|]. lia.
Qed.

(** ** What a table holds *)




(** ** The further properties at sample inputs *)

(** User 1 hands back the laptop while the disk refuses every write. *)
Lemma unsubscribeUser_answer_witness :
  wf midday
  /\ exists w',
       unsubscribeUser hostile (KNum 1) (endpoint laptop) midday
       = (Ok (bool_decide (endpoint laptop
                           ∈ endpoint <$> getSubscriptions midday (KNum 1))), w')
       /\ getSubscriptions w' (KNum 1)
          = without (endpoint laptop) (getSubscriptions midday (KNum 1))
       /\ (endpoint laptop ∉ endpoint <$> getSubscriptions w' (KNum 1))
       /\ Map_has (KNum 1) (subscriptions w') = Map_has (KNum 1) (subscriptions midday)
       /\ (forall u', u' <> KNum 1 ->
             getSubscriptions w' u' = getSubscriptions midday u')
       /\ pushed w' = pushed midday.
Proof.
  split; [exact midday_wf|].
  exact (unsubscribeUser_answer hostile (KNum 1) (endpoint laptop) midday midday_wf).
Defined.

Lemma unsubscribeAll_forgets_witness :
  wf midday
  /\ exists w',
       unsubscribeAll reliable (KNum 2) midday
       = (Ok (Map_has (KNum 2) (subscriptions midday)), w')
       /\ Map_has (KNum 2) (subscriptions w') = false
       /\ getSubscriptions w' (KNum 2) = []
       /\ (forall u', u' <> KNum 2 ->
             getSubscriptions w' u' = getSubscriptions midday u')
       /\ pushed w' = pushed midday
       /\ sendNotification reliable 4 (KNum 2) reminder w'
          = (Ok {| sent := 0; failed := 0; errors := None |},
             set_console (console w' ++ [Log ("No subscriptions found for user "
                                              +:+ Key_toString (KNum 2))]) w').
Proof.
  split; [exact midday_wf|].
  exact (unsubscribeAll_forgets reliable 4 (KNum 2) reminder midday midday_wf).
Defined.

(** User 3 has the tablet only and hands it back. *)
Lemma last_unsubscribe_keeps_entry_witness :
  let w' := (unsubscribeUser reliable (KNum 3) (endpoint tablet) midday).2 in
  wf midday
  /\ Map_has (KNum 3) (subscriptions midday) = true
  /\ without (endpoint tablet) (getSubscriptions midday (KNum 3)) = []
  /\ getSubscriptions w' (KNum 3) = []
  /\ Map_has (KNum 3) (subscriptions w') = true
  /\ sendNotification reliable 1 (KNum 3) reminder w'
     = (Ok {| sent := 0; failed := 0; errors := Some [] |}, w')
  /\ (unsubscribeAll reliable (KNum 3) w').1 = Ok true.
Proof.
  intros w'. split; [exact midday_wf|]. split; [reflexivity|].
  split; [reflexivity|].
  exact (last_unsubscribe_keeps_entry reliable 0 (KNum 3) (endpoint tablet)
           reminder midday midday_wf eq_refl eq_refl).
Defined.

Lemma midday_unique (u : Key) : NoDup (endpoint <$> getSubscriptions midday u).
Proof.
  unfold getSubscriptions.
  destruct (Map_get u (subscriptions midday)) as [r|] eqn:Hget;
    [|apply NoDup_nil_2].
  apply Map_get_elem_of_key in Hget. simpl in Hget.
  rewrite !elem_of_cons, elem_of_nil in Hget.
  destruct Hget as [[= -> ->]|[[= -> ->]|[[= -> ->]|[]]]];
    by apply (bool_decide_unpack _).
Qed.

Lemma endpoints_stay_unique_witness :
  wf midday
  /\ (forall u, NoDup (endpoint <$> getSubscriptions midday u))
  /\ forall u,
       NoDup (endpoint <$> getSubscriptions (run_calls hostile 4 busy_day midday).2 u).
Proof.
  split; [exact midday_wf|]. split; [exact midday_unique|].
  exact (endpoints_stay_unique hostile 4 busy_day midday
           (run_calls hostile 4 busy_day midday).1
           (run_calls hostile 4 busy_day midday).2
           midday_wf midday_unique
           (surjective_pairing (run_calls hostile 4 busy_day midday))).
Defined.

Lemma busy_day_users (c : Call) : c ∈ busy_day -> call_user c <> KNum 3.
Proof.
  unfold busy_day. rewrite !elem_of_cons, elem_of_nil.
  intros [->|[->|[->|[->|[]]]]]; done.
Qed.

Lemma other_users_untouched_witness :
  wf midday
  /\ (forall c, c ∈ busy_day -> call_user c <> KNum 3)
  /\ getSubscriptions (run_calls hostile 4 busy_day midday).2 (KNum 3)
     = getSubscriptions midday (KNum 3).
Proof.
  split; [exact midday_wf|]. split; [exact busy_day_users|].
  exact (other_users_untouched hostile 4 (KNum 3) busy_day midday
           (run_calls hostile 4 busy_day midday).1
           (run_calls hostile 4 busy_day midday).2
           midday_wf busy_day_users
           (surjective_pairing (run_calls hostile 4 busy_day midday))).
Defined.

Lemma midday_lists_short :
  Forall (fun l => (length l < 4)%nat) (lists midday).
Proof. repeat constructor; simpl; lia. Qed.

(** Five subscriptions of three users, two of them on endpoints that fail. *)
Lemma sendNotificationToAll_totals_witness :
  wf midday
  /\ (length (subscriptions midday) < 4)%nat
  /\ Forall (fun l => (length l < 4)%nat) (lists midday)
  /\ exists res w',
       sendNotificationToAll hostile 4 reminder midday = (Ok res, w')
       /\ ToAll.totalUsers res = 3%nat
       /\ pushed w' = pushed midday
                      ++ ((fun s => (s, reminder)) <$> concat (lists midday))
       /\ (ToAll.sent res + ToAll.failed res = 5)%nat
       /\ length (ToAll.errors res) = ToAll.failed res
       /\ (subscriptions w').*1 = [KNum 1; KNum 2; KNum 3].
Proof.
  split; [exact midday_wf|]. split; [simpl; lia|].
  split; [exact midday_lists_short|].
  exact (sendNotificationToAll_totals hostile 4 reminder midday midday_wf
           (le_n 4) midday_lists_short).
Defined.

Lemma by_name_wf : wf by_name.
Proof.
  split; simpl.
  - repeat constructor; simpl; lia.
  - by apply (bool_decide_unpack _).
  - by apply (bool_decide_unpack _).
Qed.

Lemma by_name_strings (k : Key) :
  k ∈ (subscriptions by_name).*1 -> exists s, k = KStr s.
Proof.
  simpl. rewrite !elem_of_cons, elem_of_nil.
  intros [->|[->|[]]]; by eexists.
Qed.

Lemma snapshot_keeps_string_keys_witness :
  wf by_name
  /\ (forall k, k ∈ (subscriptions by_name).*1 -> exists s, k = KStr s)
  /\ fs_writeFile reliable (writes by_name) = None
  /\ forall k,
       getSubscriptions
         (loadSubscriptions (restart (saveSubscriptions reliable by_name).2)).2 k
       = getSubscriptions by_name k.
Proof.
  split; [exact by_name_wf|]. split; [exact by_name_strings|].
  split; [reflexivity|].
  exact (snapshot_keeps_string_keys reliable by_name by_name_wf by_name_strings
           eq_refl).
Defined.

Lemma load_then_save_same_file_witness :
  subscriptions_file with_snapshot = Some snapshot
  /\ Object_fromEntries (loadSubscriptions with_snapshot).2 = snapshot
  /\ subscriptions_file
       (saveSubscriptions hostile (loadSubscriptions with_snapshot).2).2
     = Some snapshot.
Proof.
  split; [reflexivity|].
  exact (load_then_save_same_file hostile with_snapshot snapshot eq_refl).
Defined.

(** At 23:30, a window stored as "2200" to "07:00" is not active: its start
    cannot be read, so it is taken to run from midnight to 07:00. *)
Lemma quiet_hours_unreadable_bound_witness :
  "2200" <> EmptyString
  /\ (":"%char ∉ list_ascii_of_string "2200")
  /\ isInQuietHours (Some {| start := TStr "2200"; end_ := TStr "07:00" |}) midnight
     = (Ok false, midnight).
Proof.
  assert (":"%char ∉ list_ascii_of_string "2200") as Hcolon.
  { simpl. rewrite !not_elem_of_cons. repeat split; try discriminate.
    apply not_elem_of_nil. }
  split; [discriminate|]. split; [exact Hcolon|].
  exact (proj1 (quiet_hours_unreadable_bound midnight "2200"
                  ltac:(discriminate) Hcolon)
           (TStr "07:00") 420%Q eq_refl eq_refl).
Defined.

(** User 2, whose window is stored as the numbers 22 and 7, at noon. *)
Lemma numeric_bound_blocks_dispatch_witness :
  let qh := {| start := TNum 22; end_ := TNum 7 |} in
  let r := sendNotificationToUser reliable 4 (KNum 2) reminder midday in
  List.find (fun item => Key_eqb (user_id item) (KNum 2)) (users_file midday)
  = Some {| user_id := KNum 2;
            notificationPreferences := Some {| quietHours := Some qh |} |}
  /\ truthy (start qh) = true
  /\ truthy (end_ qh) = true
  /\ r.1 = Ok tt
  /\ pushed r.2 = []
  /\ notification_logs r.2 = [].
Proof.
  intros qh r. split; [reflexivity|]. split; [reflexivity|].
  split; [reflexivity|].
  destruct (numeric_bound_blocks_dispatch reliable 4 (KNum 2) reminder midday
              _ _ qh eq_refl eq_refl eq_refl eq_refl eq_refl
              (or_introl (ex_intro _ 22 eq_refl)))
    as (Heq & Hp & Hl & _).
  subst r. rewrite Heq. done.
Defined.

(** User 3 has no stored window; the tablet fails and the disk is full. *)
Lemma dispatch_audit_record_witness :
  (quiet_hours_gate (KNum 3) midday).1 = Ok false
  /\ (length (getSubscriptions midday (KNum 3)) < 2)%nat
  /\ exists res w1 w',
       sendNotification hostile 2 (KNum 3) reminder midday = (Ok res, w1)
       /\ sendNotificationToUser hostile 2 (KNum 3) reminder midday = (Ok tt, w')
       /\ (sent res + failed res = 1)%nat
       /\ pushed w' = [(tablet, reminder)]
       /\ notification_logs w' =
            match fs_writeFile hostile (writes w1) with
            | None =>
                [ {| log_id := getTime (now midday); log_userId := KNum 3;
                     log_notification := reminder;
                     sentAt := toISOString (now midday);
                     deliveryResult := res;
                     loggedAt := toISOString (now midday) |} ]
            | Some _ => []
            end.
Proof.
  split; [reflexivity|]. split; [simpl; lia|].
  exact (dispatch_audit_record hostile 2 (KNum 3) reminder midday eq_refl
           (le_n 2)).
Defined.

Lemma midday_fuel (u : Key) :
  u ∈ [KNum 1; KNum 2; KStr "nobody"] ->
  (length (getSubscriptions midday u) < 4)%nat.
Proof.
  rewrite !elem_of_cons, elem_of_nil.
  intros [->|[->|[->|[]]]]; simpl; lia.
Qed.

(** Two users whose laptops have expired and one nobody knows, with a full
    disk: three out of three "sent". *)
Lemma sendBulkNotification_reports_all_sent_witness :
  wf midday
  /\ (forall u, u ∈ [KNum 1; KNum 2; KStr "nobody"] ->
                (length (getSubscriptions midday u) < 4)%nat)
  /\ exists w',
       sendBulkNotification hostile 4 [KNum 1; KNum 2; KStr "nobody"] reminder
         midday
       = (Ok {| Bulk.total := 3; Bulk.sent := 3; Bulk.failed := 0;
                Bulk.errors := [] |}, w').
Proof.
  split; [exact midday_wf|]. split; [exact midday_fuel|].
  exact (sendBulkNotification_reports_all_sent hostile 4 reminder
           [KNum 1; KNum 2; KStr "nobody"] midday midday_wf midday_fuel).
Defined.

(** User 1 asks to drop the laptop, and then asks again. *)
Lemma unsubscribe_status_codes_witness :
  let req := {| UnsubscribeReq.userId := Some (KNum 1);
                UnsubscribeReq.endpoint := Some (endpoint laptop) |} in
  wf midday
  /\ exists r w',
       unsubscribe hostile req midday = (Ok r, w')
       /\ unsubscribe_status r = 200
       /\ getSubscriptions w' (KNum 1) = [phone; tablet]
       /\ pushed w' = pushed midday.
Proof.
  intros req. split; [exact midday_wf|].
  destruct (unsubscribe_status_codes hostile req midday midday_wf)
    as (r & w' & Heq & Hs & _ & Hgs & Hp).
  exists r, w'. split; [exact Heq|]. split; [exact Hs|].
  split; [|exact Hp].
  apply (Hgs (KNum 1) (endpoint laptop) eq_refl eq_refl).
  rewrite Hs. discriminate.
Defined.

(** User 1 asks for a test notification at 23:30, inside their window. *)
Lemma sendTestNotification_status_codes_witness :
  (length (getSubscriptions midnight (KNum 1)) < 4)%nat
  /\ (quiet_hours_gate (KNum 1) midnight).1 = Ok true
  /\ exists w',
       sendTestNotification reliable 4 (Some (KNum 1)) midnight
       = (Ok {| status := 200;
                json := SentBody "Test notification sent" (KNum 1)
                          (testNotification (now midnight)) "success" |}, w')
       /\ pushed w' = pushed midnight
       /\ notification_logs w' = notification_logs midnight.
Proof.
  split; [simpl; lia|]. split; [reflexivity|].
  destruct (sendTestNotification_status_codes reliable 4 (Some (KNum 1)) midnight)
    as (w' & Heq & Hq).
  { intros u [= <-]. simpl. lia. }
  exists w'. split; [exact Heq|].
  exact (Hq (KNum 1) eq_refl eq_refl eq_refl).
Defined.

(** Nothing eaten yet today. *)
Lemma sendCalorieAchievement_status_codes_witness :
  let req := {| CalorieReq.userId := Some (KNum 3);
                CalorieReq.caloriesConsumed := Some (Fin 0);
                CalorieReq.calorieGoal := Some (Fin 2000);
                CalorieReq.percentage := None |} in
  (length (getSubscriptions midday (KNum 3)) < 2)%nat
  /\ exists r,
       sendCalorieAchievement reliable rational_div js_mul no_digits 2 req midday
       = (Ok r, midday)
       /\ status r = 400.
Proof.
  intros req. split; [simpl; lia|].
  destruct (sendCalorieAchievement_status_codes reliable rational_div js_mul
              no_digits 2 req midday)
    as (r & w' & Heq & _ & Hw & H0).
  { intros u [= <-]. simpl. lia. }
  exists r. rewrite <- (Hw eq_refl) at 2. split; [exact Heq|].
  exact (H0 eq_refl).
Defined.

Lemma office_users :
  files office !! "users.json" = Some (Table [ann; bob; guest]).
Proof. reflexivity. Qed.





Lemma office_foods (data : list Row) :
  files office !! "foods.json" <> Some (Table data).
Proof. discriminate. Qed.

Lemma insert_over_unreadable_file_witness :
  let r := JSONDatabase.insert reliable not_a_number "foods.json" carol office in
  (forall data, files office !! "foods.json" <> Some (Table data))
  /\ own "id" carol = None
  /\ fs_writeFile reliable (disk_writes office) = None
  /\ own "id" r.1 = Some (JNum (Fin 1))
  /\ files r.2 !! "foods.json" = Some (Table [stringify_row r.1]).
Proof.
  intros r. split; [exact office_foods|]. split; [reflexivity|].
  split; [reflexivity|].
  exact (insert_over_unreadable_file reliable not_a_number "foods.json" carol
           office office_foods eq_refl eq_refl).
Defined.

Lemma bob_first (j : nat) (y : Row) :
  (j < 1)%nat -> [ann; bob; guest] !! j = Some y ->
  has_id (JNum (Fin 4)) y = false.
Proof.
  intros Hj. destruct j as [|j]; [|lia]. by intros [= <-].
Qed.

Lemma bob_names : NoDup bob.*1.
Proof. by apply (bool_decide_unpack _). Qed.

Lemma rename_names : NoDup [("name", JStr "Robert")].*1.
Proof. by apply (bool_decide_unpack _). Qed.

(** Bob becomes Robert. *)
Lemma update_merges_witness :
  let r := JSONDatabase.update reliable "users.json" (JNum (Fin 4))
             [("name", JStr "Robert")] office in
  files office !! "users.json" = Some (Table [ann; bob; guest])
  /\ [ann; bob; guest] !! 1%nat = Some bob
  /\ has_id (JNum (Fin 4)) bob = true
  /\ NoDup bob.*1
  /\ exists row',
       r.1 = Some row'
       /\ (forall k v, (k, v) ∈ [("name", JStr "Robert")] ->
             k <> "updatedAt" -> own k row' = Some v)
       /\ own "updatedAt" row' = Some (JStr (toISOString (disk_now office)))
       /\ (forall k, k ∉ [("name", JStr "Robert")].*1 ->
             k <> "updatedAt" -> own k row' = own k bob)
       /\ files r.2
          = match fs_writeFile reliable (disk_writes office) with
            | None =>
                <["users.json" :=
                    Table (stringify_row <$> <[1%nat := row']> [ann; bob; guest])]>
                  (files office)
            | Some _ => files office
            end.
Proof.
  intros r. split; [exact office_users|]. split; [reflexivity|].
  split; [reflexivity|]. split; [exact bob_names|].
  exact (update_merges reliable "users.json" (JNum (Fin 4))
           [("name", JStr "Robert")] office [ann; bob; guest] 1%nat bob
           office_users eq_refl eq_refl bob_first bob_names rename_names).
Defined.

(** Bob is deleted while the disk is full: the answer is [true] and the
    file still has him. *)
Lemma delete_removes_first_witness :
  let r := JSONDatabase.delete hostile "users.json" (JNum (Fin 4)) office in
  files office !! "users.json" = Some (Table [ann; bob; guest])
  /\ r.1 = true
  /\ files r.2 = files office.
Proof.
  intros r. split; [exact office_users|].
  exact (proj1 (delete_removes_first hostile "users.json" (JNum (Fin 4)) office
                  [ann; bob; guest] office_users)
           1%nat bob eq_refl eq_refl bob_first).
Defined.


Lemma numbered_keys_nonempty (n : nat) :
  (numbered_keys n).1 <> EmptyString /\ (numbered_keys n).2 <> EmptyString.
Proof. split; discriminate. Qed.

(** A first start on a working disk, and the start after it. *)
Lemma vapid_keys_survive_restart_witness :
  let v1 := initVapidKeys reliable numbered_keys any_keys first_start in
  let v2 := initVapidKeys hostile numbered_keys any_keys (vapid_restart v1) in
  (forall n, (numbered_keys n).1 <> EmptyString
             /\ (numbered_keys n).2 <> EmptyString)
  /\ fs_writeFile reliable (vapid_writes first_start) = None
  /\ vapidKeys v2 = vapidKeys v1
  /\ getPublicKey v2 = getPublicKey v1
  /\ is_Some (getPublicKey v1)
  /\ vapid_file v2 = vapid_file v1
  /\ vapid_generated v2 = vapid_generated v1
  /\ vapid_writes v2 = vapid_writes v1.
Proof.
  intros v1 v2. split; [exact numbered_keys_nonempty|]. split; [reflexivity|].
  exact (vapid_keys_survive_restart numbered_keys any_keys reliable hostile
           first_start numbered_keys_nonempty eq_refl).
Defined.

(** A first start on a full disk, and the start after it. *)
Lemma vapid_keys_lost_when_save_fails_witness :
  let v1 := initVapidKeys hostile numbered_keys any_keys first_start in
  let v2 := initVapidKeys hostile numbered_keys any_keys (vapid_restart v1) in
  (forall n, (numbered_keys n).1 <> EmptyString
             /\ (numbered_keys n).2 <> EmptyString)
  /\ fs_writeFile hostile (vapid_writes first_start)
     = Some {| statusCode := None; message := "ENOSPC" |}
  /\ getPublicKey v1 = Some (numbered_keys 0).1
  /\ vapid_file v1 = vapid_file first_start
  /\ getPublicKey v2 = Some (numbered_keys 1).1.
Proof.
  intros v1 v2. split; [exact numbered_keys_nonempty|]. split; [reflexivity|].
  exact (vapid_keys_lost_when_save_fails numbered_keys any_keys hostile hostile
           first_start _ numbered_keys_nonempty eq_refl eq_refl).
Defined.

(** User 1 on a day when the laptop has expired and the tablet fails. *)
Lemma sendNotification_reports_failures_witness :
  Map_has (KNum 1) (subscriptions midday) = true
  /\ (length (getSubscriptions midday (KNum 1)) < 4)%nat
  /\ exists res w',
       sendNotification hostile 4 (KNum 1) reminder midday = (Ok res, w')
       /\ errors res = Some [(endpoint laptop, "Gone");
                             (endpoint tablet, "Internal Server Error")]
       /\ failed res = 2%nat
       /\ sent res = 1%nat.
Proof.
  split; [reflexivity|]. split; [simpl; lia|].
  exact (sendNotification_reports_failures hostile 4 (KNum 1) reminder midday
           eq_refl (le_n 4)).
Defined.


